(** * LiteLab editing session: a shallow embedding of [EditorTabs.tsx] and
    [SearchPanel.tsx], and the properties of the history engine, the
    propagation channel, the snippet search, the style validator, snippet
    insertion, the favourites list and the question search.

    Conventions of the embedding.
    - JavaScript strings are [string]s over ASCII code units; the string
      methods used by the source ([toLowerCase], [trim], [startsWith],
      [includes], [slice], [endsWith]) are defined on them below.
    - JavaScript arrays are lists in index order: [push x] is [l ++ [x]],
      [shift] drops the head, [pop] removes the last element.
    - A React component is a state record; an event handler is a function
      from the state of the render it closes over to the state after the
      handler and the commit that follows it.  [useRef] cells are ordinary
      fields.  Timers ([window.setTimeout]) are fields that hold a deadline on
      a logical clock [now]; [advance] lets time pass and fires what is due.
    - The parent's [onChange] callback is an opaque sink: the model records the
      sequence of values it was called with.
    - [Math.random] ids are an argument of the handler that draws one.
    - Snapshots are values.  In the source [applyHistoryState] stores in
      [latestRef] the very object that sits on top of the undo stack; until
      an effect or [scheduleChangeAndValidate] gives [latestRef] a new
      object, an assignment to a field of [latestRef.current] (in the
      [onChange] of a textarea and in [insertSnippet]) also rewrites that
      entry.  The model does not follow this sharing.  The statements below
      are about the number of the entries, about the entries an operation
      pushes itself, which are new objects in the source too, and about what
      [undo] and [redo], which assign to no field, move and restore; none is
      about the text of an older entry after such an assignment. *)

From Stdlib Require Import String Ascii List Arith Lia Bool Sorted.
From stdpp Require Import base list strings gmap.

Open Scope string_scope.
Open Scope list_scope.
Open Scope nat_scope.

(** ** JavaScript string and array primitives *)

Module JS.

Definition isUpper (c : ascii) : bool :=
  let n := nat_of_ascii c in (65 <=? n) && (n <=? 90).

Definition isLower (c : ascii) : bool :=
  let n := nat_of_ascii c in (97 <=? n) && (n <=? 122).

Definition isDigit (c : ascii) : bool :=
  let n := nat_of_ascii c in (48 <=? n) && (n <=? 57).

(** [\w] of a regular expression: [[A-Za-z0-9_]]. *)
Definition isWordChar (c : ascii) : bool :=
  isUpper c || isLower c || isDigit c || (nat_of_ascii c =? 95).

(** [\s] of a regular expression and the white space of [trim], on ASCII:
    tab, line feed, vertical tab, form feed, carriage return, space. *)
Definition isSpace (c : ascii) : bool :=
  let n := nat_of_ascii c in ((9 <=? n) && (n <=? 13)) || (n =? 32).

Definition lowerChar (c : ascii) : ascii :=
  if isUpper c then ascii_of_nat (nat_of_ascii c + 32) else c.

(** [s.toLowerCase()] on ASCII: the letters [A] to [Z] are folded. *)
Fixpoint toLowerCase (s : string) : string :=
  match s with
  | EmptyString => EmptyString
  | String c t => String (lowerChar c) (toLowerCase t)
  end.

Fixpoint trimStart (s : string) : string :=
  match s with
  | String c t => if isSpace c then trimStart t else s
  | EmptyString => EmptyString
  end.

Fixpoint trimEnd (s : string) : string :=
  match s with
  | EmptyString => EmptyString
  | String c t =>
      match trimEnd t with
      | EmptyString => if isSpace c then EmptyString else String c EmptyString
      | t' => String c t'
      end
  end.

(** [s.trim()] on ASCII: the white space stripped is that of [isSpace]. *)
Definition trim (s : string) : string := trimEnd (trimStart s).

(** [s.startsWith(p)] *)
Definition startsWith (s p : string) : bool := String.prefix p s.

(** [s.includes(p)] *)
Fixpoint includes (s p : string) : bool :=
  String.prefix p s ||
  match s with
  | EmptyString => false
  | String _ t => includes t p
  end.

Fixpoint endsWith (s p : string) : bool :=
  String.eqb s p ||
  match s with
  | EmptyString => false
  | String _ t => endsWith t p
  end.

(** [s.slice(0, n)] and [s.slice(n)] for a non-negative [n]; both clamp at
    the end of the string. *)
Definition sliceTo (s : string) (n : nat) : string := substring 0 n s.
Definition sliceFrom (s : string) (n : nat) : string :=
  substring n (String.length s - n) s.

(** [parts.join(sep)] *)
Fixpoint join (sep : string) (parts : list string) : string :=
  match parts with
  | [] => ""
  | [p] => p
  | p :: rest => p +:+ sep +:+ join sep rest
  end.

(** [Array.prototype.sort(cmp)].  The language requires the sort to be
    stable; it is modelled by stable insertion: each element is put in front
    of the sorted rest and moves right past exactly the elements the
    comparator puts strictly before it.  [cmp a b] is the number the callback
    returns: [a] sorts before [b] when [cmp a b < 0]. *)
Section Sort.
Context {A : Type} (cmp : A -> A -> Z).

Fixpoint insertSorted (x : A) (l : list A) : list A :=
  match l with
  | [] => [x]
  | y :: l' => if (cmp x y <=? 0)%Z then x :: y :: l' else y :: insertSorted x l'
  end.

Fixpoint sort (l : list A) : list A :=
  match l with
  | [] => []
  | x :: l' => insertSorted x (sort l')
  end.
End Sort.

End JS.

(** ** Data model *)

Inductive TabKey := TabHtml | TabCss | TabJs.

Inductive SnipKind := KHtml | KCss | KJs | KAll.

Definition TabKey_eqb (a b : TabKey) : bool :=
  match a, b with
  | TabHtml, TabHtml | TabCss, TabCss | TabJs, TabJs => true
  | _, _ => false
  end.

(** [activeTab as SnipKind] *)
Definition kindOfTab (t : TabKey) : SnipKind :=
  match t with TabHtml => KHtml | TabCss => KCss | TabJs => KJs end.

Definition SnipKind_eqb (a b : SnipKind) : bool :=
  match a, b with
  | KHtml, KHtml | KCss, KCss | KJs, KJs | KAll, KAll => true
  | _, _ => false
  end.

(** [type Snip = { id?, label, snippet, kind, description?, tags? }] *)
Record Snip := mkSnip {
  id : option string;
  label : string;
  snippet : string;
  kind : SnipKind;
  description : option string;
  tags : option (list string)
}.

(** [type HistoryState = { html, css, js }]; [Project] has the same shape. *)
Record HistoryState := mkHistoryState {
  html : string;
  css : string;
  js : string
}.

Inductive Level := LError | LWarning.

(** [type LintMessage = { level, message, source? }] *)
Record LintMessage := mkLint {
  level : Level;
  message : string;
  source : option string
}.

(** What a handler reads from a mounted [<textarea>]. *)
Record Textarea := mkTextarea {
  value : string;
  selectionStart : option nat;
  selectionEnd : option nat
}.

(** The three [useRef<HTMLTextAreaElement | null>] cells.  The render mounts
    a textarea only for the active tab ([{activeTab === 'css' && <textarea
    ref={cssRef} .../>}]), so a ref is [None] while its tab is not shown. *)
Record Refs := mkRefs {
  htmlRef : option Textarea;
  cssRef : option Textarea;
  jsRef : option Textarea
}.

Definition refOfTab (dom : Refs) (t : TabKey) : option Textarea :=
  match t with
  | TabHtml => htmlRef dom
  | TabCss => cssRef dom
  | TabJs => jsRef dom
  end.

Definition getBuf (t : TabKey) (h : HistoryState) : string :=
  match t with TabHtml => html h | TabCss => css h | TabJs => js h end.

Definition setBuf (t : TabKey) (v : string) (h : HistoryState) : HistoryState :=
  match t with
  | TabHtml => mkHistoryState v (css h) (js h)
  | TabCss => mkHistoryState (html h) v (js h)
  | TabJs => mkHistoryState (html h) (css h) v
  end.

Definition HistoryState_eqb (a b : HistoryState) : bool :=
  String.eqb (html a) (html b) && String.eqb (css a) (css b) && String.eqb (js a) (js b).

(** ** The built-in snippet catalogue ([SNIPPETS]) *)

Definition dq : string := String (ascii_of_nat 34) EmptyString.
Definition nl : string := String (ascii_of_nat 10) EmptyString.

(** Each line followed by a line feed: the catalogue bodies all end in one. *)
Fixpoint lines (ls : list string) : string :=
  match ls with
  | [] => ""
  | l :: rest => l +:+ nl +:+ lines rest
  end.

Definition builtin (lbl : string) (k : SnipKind) (body desc : string) : Snip :=
  mkSnip None lbl body k (Some desc) None.

Definition SNIPPETS : list Snip := [
  builtin "Section (semantic)" KHtml
    (lines ["<section>"; "  <h2>Title</h2>"; "  <p>Description...</p>"; "</section>"])
    "Semantic section block";
  builtin "Header" KHtml
    (lines ["<header>"; "  <nav><!-- links --></nav>"; "</header>"])
    "Top navigation header";
  builtin "Footer" KHtml
    (lines ["<footer>"; "  <p>&copy; 2025 MyCompany</p>"; "</footer>"])
    "Simple footer";
  builtin "Button (accessible)" KHtml
    (lines ["<button class=" +:+ dq +:+ "btn" +:+ dq +:+ " role=" +:+ dq +:+ "button"
            +:+ dq +:+ ">Click me</button>"])
    "Accessible button";
  builtin "Card" KHtml
    (lines ["<article class=" +:+ dq +:+ "card" +:+ dq +:+ ">"; "  <h3>Card title</h3>";
            "  <p>Card body</p>"; "</article>"])
    "Basic card layout";
  builtin "Image" KHtml
    (lines ["<img src=" +:+ dq +:+ "path/to/img.jpg" +:+ dq +:+ " alt=" +:+ dq
            +:+ "description" +:+ dq +:+ " />"])
    "Responsive-ish image";
  builtin "Flex row center" KCss
    (lines [".row-center {"; "  display: flex;"; "  align-items: center;";
            "  justify-content: center;"; "}"])
    "Basic flex centered row";
  builtin "Flex column gap" KCss
    (lines [".col-gap {"; "  display: flex;"; "  flex-direction: column;"; "  gap: 12px;"; "}"])
    "Vertical column with gap";
  builtin "Responsive grid 3 cols" KCss
    (lines [".grid-3 {"; "  display: grid;"; "  grid-template-columns: repeat(3, 1fr);";
            "  gap: 16px;"; "}"; "@media (max-width: 768px) {";
            "  .grid-3 { grid-template-columns: 1fr; }"; "}"])
    "Grid with responsive breakpoint";
  builtin "CSS variable theme" KCss
    (lines [":root {"; "  --bg: #fff;"; "  --fg: #111;"; "  --accent: #3b82f6;"; "}"])
    "Root theme variables";
  builtin "Button primary (tailored)" KCss
    (lines [".btn-primary {"; "  padding: 10px 14px;"; "  border-radius: 10px;";
            "  background: linear-gradient(90deg,#3b82f6,#1e3a8a);"; "  color: #fff;";
            "  font-weight: 700;"; "}"])
    "Styled primary button";
  builtin "querySelector + text" KJs
    (lines ["const el = document.querySelector('.selector');";
            "if (el) el.textContent = 'New text';"])
    "Find element and update text";
  builtin "Event listener" KJs
    (lines ["const btn = document.querySelector('.btn');";
            "btn?.addEventListener('click', (e) => {"; "  // handle click"; "});"])
    "Add click listener";
  builtin "Event delegation (list)" KJs
    (lines ["document.querySelector('.list')?.addEventListener('click', (e) => {";
            "  const button = (e.target as HTMLElement).closest('[data-action]');";
            "  if (!button) return;";
            "  const action = button.getAttribute('data-action');";
            "  // handle action"; "});"])
    "Delegate click events";
  builtin "Fetch JSON (async)" KJs
    (lines ["async function loadJson(url){"; "  const res = await fetch(url);";
            "  if (!res.ok) throw new Error('Network error');";
            "  return await res.json();"; "}"])
    "Fetch helper";
  builtin "Debounce utility" KJs
    (lines ["function debounce(fn, ms = 250){"; "  let t;";
            "  return (...args) => { clearTimeout(t); t = setTimeout(() => fn(...args), ms); };";
            "}"])
    "Debounce function";
  builtin "Basic starter (HTML+CSS+JS)" KAll
    (lines ["<!doctype html>"; "<html>"; "<head>";
            "  <meta charset=" +:+ dq +:+ "utf-8" +:+ dq +:+ " />";
            "  <meta name=" +:+ dq +:+ "viewport" +:+ dq +:+ " content=" +:+ dq
              +:+ "width=device-width,initial-scale=1" +:+ dq +:+ " />";
            "  <link rel=" +:+ dq +:+ "stylesheet" +:+ dq +:+ " href=" +:+ dq
              +:+ "styles.css" +:+ dq +:+ ">";
            "  <title>App</title>"; "</head>"; "<body>";
            "  <div id=" +:+ dq +:+ "app" +:+ dq +:+ "></div>";
            "  <script src=" +:+ dq +:+ "app.js" +:+ dq +:+ "></script>";
            "</body>"; "</html>"])
    "Starter scaffold"
].

(** ** [normalizeSnippetForBeginners] *)

Module Normalize.

Definition voidTags : list string := ["img"; "input"; "br"; "hr"; "meta"; "link"].

(** Prefix test under the [i] flag. *)
Definition prefixCI (p s : string) : bool :=
  String.prefix (JS.toLowerCase p) (JS.toLowerCase s).

Fixpoint includesCI (s p : string) : bool :=
  prefixCI p s ||
  match s with
  | EmptyString => false
  | String _ t => includesCI t p
  end.

(** [s.replace(/\n/g, NL + two spaces)]: every line feed is followed by an
    indentation of two spaces. *)
Fixpoint indentNewlines (s : string) : string :=
  match s with
  | EmptyString => EmptyString
  | String c t =>
      if Ascii.eqb c (ascii_of_nat 10)
      then String c ("  " +:+ indentNewlines t)
      else String c (indentNewlines t)
  end.

(** [s.replace(closingRe, empty)] with [closingRe] the literal [p] under the
    flags [gi], for a non-empty [p]:
    occurrences are removed left to right, the search resuming after each
    match; [skip] counts the characters of the current match still to
    drop. *)
Fixpoint removeAllCI (p : string) (skip : nat) (s : string) : string :=
  match s with
  | EmptyString => EmptyString
  | String c t =>
      match skip with
      | S k => removeAllCI p k t
      | O => if prefixCI p s
             then removeAllCI p (String.length p - 1) t
             else String c (removeAllCI p 0 t)
      end
  end.

(** Split at the first [>]: the text before it and the text after it. *)
Fixpoint splitAtGt (s : string) : option (string * string) :=
  match s with
  | EmptyString => None
  | String c t =>
      if Ascii.eqb c ">" then Some (EmptyString, t)
      else match splitAtGt t with
           | Some (a, b) => Some (String c a, b)
           | None => None
           end
  end.

Fixpoint dropChars (n : nat) (s : string) : string :=
  match n, s with
  | S k, String _ t => dropChars k t
  | _, _ => s
  end.

(** [s.replace(openRe, (m, attrs) => '<' + t + attrs + ' />')] with [openRe]
    the pattern [<t] followed by a group of characters other than [>] and
    then [>], under the flag [i]: the leftmost [<t] that is followed by a
    [>] is rewritten, up to the first such [>]. *)
Fixpoint selfCloseFirst (t : string) (s : string) : string :=
  match s with
  | EmptyString => EmptyString
  | String c rest =>
      if prefixCI ("<" +:+ t) s then
        match splitAtGt (dropChars (String.length t) rest) with
        | Some (attrs, after) => "<" +:+ t +:+ attrs +:+ " />" +:+ after
        | None => String c (selfCloseFirst t rest)
        end
      else String c (selfCloseFirst t rest)
  end.

Definition fixVoidTag (s t : string) : string :=
  let closing := "</" +:+ t +:+ ">" in
  let s1 := if includesCI s closing then removeAllCI closing 0 s else s in
  selfCloseFirst t s1.

(** [[a-z0-9-]] under the [i] flag *)
Definition isNameChar (c : ascii) : bool :=
  JS.isUpper c || JS.isLower c || JS.isDigit c || Ascii.eqb c "-".

Fixpoint takeName (s : string) : string * string :=
  match s with
  | String c t =>
      if isNameChar c then let '(n, r) := takeName t in (String c n, r)
      else (EmptyString, s)
  | EmptyString => (EmptyString, EmptyString)
  end.

(** [s.match(/^<([a-z0-9-]+)(\s|>)/i)], giving group 1 lower-cased. *)
Definition openingTag (s : string) : option string :=
  match s with
  | String "<" t =>
      match takeName t with
      | (EmptyString, _) => None
      | (n, String c _) =>
          if JS.isSpace c || Ascii.eqb c ">" then Some (JS.toLowerCase n) else None
      | (_, EmptyString) => None
      end
  | _ => None
  end.

(** [closingPattern.test(s)]: the closing tag of [tag], then white space
    only, up to the end of the text, under the flag [i]. *)
Definition endsWithClosing (tag s : string) : bool :=
  JS.endsWith (JS.toLowerCase (JS.trimEnd s)) ("</" +:+ tag +:+ ">").

Definition isVoid (tag : string) : bool :=
  existsb (String.eqb tag) voidTags.

Definition normalizeHtml (snip : string) : string :=
  let s := JS.trim snip in
  if negb (JS.startsWith (JS.trimStart s) "<") then
    "<div>" +:+ nl +:+ "  " +:+ indentNewlines s +:+ nl +:+ "</div>" +:+ nl
  else
    let s1 := fold_left fixVoidTag voidTags s in
    let s2 :=
      match openingTag s1 with
      | Some tag =>
          if negb (isVoid tag) && negb (endsWithClosing tag s1)
          then s1 +:+ nl +:+ "</" +:+ tag +:+ ">" +:+ nl
          else s1
      | None => s1
      end in
    s2 +:+ (if JS.endsWith s2 nl then "" else nl).

End Normalize.

Definition normalizeSnippetForBeginners (snip : string) (k : SnipKind) : string :=
  match k with
  | KHtml => Normalize.normalizeHtml snip
  | _ => snip
  end.

(** ** Validators *)

(** The regular expression [/\b[A-Z]+\b/] of [validateCSS], on the list of
    characters of the text. *)
Module UpperWord.

(** Is the character at index [i] a word character ([false] outside the
    text)? *)
Definition wordAt (s : list ascii) (i : nat) : bool :=
  match nth_error s i with
  | Some c => JS.isWordChar c
  | None => false
  end.

(** [\b] at position [i] (between index [i - 1] and index [i]): exactly one
    of the two neighbours is a word character. *)
Definition boundary (s : list ascii) (i : nat) : bool :=
  xorb (match i with O => false | S j => wordAt s j end) (wordAt s i).

(** Length of the run of [[A-Z]] that starts at the head of the list. *)
Fixpoint upperRun (s : list ascii) : nat :=
  match s with
  | c :: t => if JS.isUpper c then S (upperRun t) else O
  | [] => O
  end.

(** A match that starts at [i]: [\b] at [i], then [n >= 1] characters of
    [[A-Z]] (any [n] up to the length of the run, longest first under
    backtracking), then [\b] at [i + n]. *)
Definition matchAt (s : list ascii) (i : nat) : bool :=
  boundary s i &&
  existsb (fun n => boundary s (i + n)) (rev (seq 1 (upperRun (skipn i s)))).

(** [re.test(str)]: a match at some start position. *)
Definition test (s : list ascii) : bool :=
  existsb (matchAt s) (seq 0 (S (length s))).

End UpperWord.

(** The brace loop of [validateCSS]: the running balance [open] and whether
    the loop left through [break] after pushing the error on an unexpected
    closing brace. *)
Fixpoint braceScan (cs : list ascii) (open : Z) : Z * bool :=
  match cs with
  | [] => (open, false)
  | c :: t =>
      let open1 := if Ascii.eqb c "{" then (open + 1)%Z else open in
      let open2 := if Ascii.eqb c "}" then (open1 - 1)%Z else open1 in
      if (open2 <? -5)%Z then (open2, true) else braceScan t open2
  end.

Definition caseWarning : string :=
  "CSS properties appear uppercase - CSS is case-sensitive for some values".

Definition validateCSS (str : string) : list (Level * string) :=
  let cs := list_ascii_of_string str in
  let '(open, unexpected) := braceScan cs 0%Z in
  (if unexpected then [(LError, "Unexpected '}'")] else []) ++
  (if (0 <? open)%Z then [(LError, "Missing closing '}'")] else []) ++
  (if UpperWord.test cs then [(LWarning, caseWarning)] else []).

(** What the browser's parsers answer.  [parserError str] is the text of the
    [parsererror] element of the document [DOMParser] builds from [str], if
    there is one; [syntaxError str] is the message of the error
    [new Function(str)] throws, if it throws. *)
Record Browser := mkBrowser {
  parserError : string -> option string;
  syntaxError : string -> option string
}.

Definition orElse (s dflt : string) : string :=
  if String.eqb s "" then dflt else s.

Definition validateHTML (env : Browser) (str : string) : list (Level * string) :=
  match parserError env str with
  | Some txt => [(LError, orElse (JS.trim txt) "HTML parse error")]
  | None => []
  end.

Definition validateJS (env : Browser) (str : string) : list (Level * string) :=
  match syntaxError env str with
  | Some msg => [(LError, orElse msg "JS syntax error")]
  | None => []
  end.

Definition withSource (src : string) (r : Level * string) : LintMessage :=
  mkLint (fst r) (snd r) (Some src).

(** The body of the validation timer's callback: [tab] is the argument of
    [scheduleValidation] ([None] for a call without one). *)
Definition runValidation (env : Browser) (tab : option TabKey) (current : HistoryState)
  : list LintMessage :=
  let wants t := match tab with None => true | Some t' => TabKey_eqb t' t end in
  let res1 := if wants TabHtml then map (withSource "HTML") (validateHTML env (html current)) else [] in
  let res2 := if wants TabCss then res1 ++ map (withSource "CSS") (validateCSS (css current)) else res1 in
  let res3 := if wants TabJs then res2 ++ map (withSource "JS") (validateJS env (js current)) else res2 in
  take 6 res3.

(** ** The editing session ([EditorTabs]) *)

Record Session := mkSession {
  bufs : HistoryState;
    (** the state variables [html], [css], [js] of the last render *)
  activeTab : TabKey;
  showSnippet : bool;
  showDocs : bool;
  query : string;
  favs : list Snip;
  recent : list Snip;
  errors : list LintMessage;
  validationTimer : option (nat * option TabKey);
    (** deadline and argument of the pending validation *)
  latestRef : HistoryState;  (** [latestRef.current] *)
  onChangeTimer : option nat;  (** deadline of the pending delivery *)
  undoStack : list HistoryState;  (** oldest first, top last *)
  redoStack : list HistoryState;
  isComposing : bool;
  assistResult : option Snip;
  now : nat;  (** the clock *)
  delivered : list HistoryState
    (** the calls of the parent's [onChange], oldest first *)
}.

(** Field updates. *)
Definition set_bufs (v : HistoryState) (s : Session) : Session :=
  mkSession v (activeTab s) (showSnippet s) (showDocs s) (query s) (favs s) (recent s)
    (errors s) (validationTimer s) (latestRef s) (onChangeTimer s) (undoStack s)
    (redoStack s) (isComposing s) (assistResult s) (now s) (delivered s) .
Definition set_activeTab (v : TabKey) (s : Session) : Session :=
  mkSession (bufs s) v (showSnippet s) (showDocs s) (query s) (favs s) (recent s)
    (errors s) (validationTimer s) (latestRef s) (onChangeTimer s) (undoStack s)
    (redoStack s) (isComposing s) (assistResult s) (now s) (delivered s) .
Definition set_showSnippet (v : bool) (s : Session) : Session :=
  mkSession (bufs s) (activeTab s) v (showDocs s) (query s) (favs s) (recent s) (errors s)
    (validationTimer s) (latestRef s) (onChangeTimer s) (undoStack s) (redoStack s)
    (isComposing s) (assistResult s) (now s) (delivered s) .
Definition set_showDocs (v : bool) (s : Session) : Session :=
  mkSession (bufs s) (activeTab s) (showSnippet s) v (query s) (favs s) (recent s)
    (errors s) (validationTimer s) (latestRef s) (onChangeTimer s) (undoStack s)
    (redoStack s) (isComposing s) (assistResult s) (now s) (delivered s) .
Definition set_query (v : string) (s : Session) : Session :=
  mkSession (bufs s) (activeTab s) (showSnippet s) (showDocs s) v (favs s) (recent s)
    (errors s) (validationTimer s) (latestRef s) (onChangeTimer s) (undoStack s)
    (redoStack s) (isComposing s) (assistResult s) (now s) (delivered s) .
Definition set_favs (v : list Snip) (s : Session) : Session :=
  mkSession (bufs s) (activeTab s) (showSnippet s) (showDocs s) (query s) v (recent s)
    (errors s) (validationTimer s) (latestRef s) (onChangeTimer s) (undoStack s)
    (redoStack s) (isComposing s) (assistResult s) (now s) (delivered s) .
Definition set_recent (v : list Snip) (s : Session) : Session :=
  mkSession (bufs s) (activeTab s) (showSnippet s) (showDocs s) (query s) (favs s) v
    (errors s) (validationTimer s) (latestRef s) (onChangeTimer s) (undoStack s)
    (redoStack s) (isComposing s) (assistResult s) (now s) (delivered s) .
Definition set_errors (v : list LintMessage) (s : Session) : Session :=
  mkSession (bufs s) (activeTab s) (showSnippet s) (showDocs s) (query s) (favs s)
    (recent s) v (validationTimer s) (latestRef s) (onChangeTimer s) (undoStack s)
    (redoStack s) (isComposing s) (assistResult s) (now s) (delivered s) .
Definition set_validationTimer (v : option (nat * option TabKey)) (s : Session) : Session :=
  mkSession (bufs s) (activeTab s) (showSnippet s) (showDocs s) (query s) (favs s)
    (recent s) (errors s) v (latestRef s) (onChangeTimer s) (undoStack s) (redoStack s)
    (isComposing s) (assistResult s) (now s) (delivered s) .
Definition set_latestRef (v : HistoryState) (s : Session) : Session :=
  mkSession (bufs s) (activeTab s) (showSnippet s) (showDocs s) (query s) (favs s)
    (recent s) (errors s) (validationTimer s) v (onChangeTimer s) (undoStack s)
    (redoStack s) (isComposing s) (assistResult s) (now s) (delivered s) .
Definition set_onChangeTimer (v : option nat) (s : Session) : Session :=
  mkSession (bufs s) (activeTab s) (showSnippet s) (showDocs s) (query s) (favs s)
    (recent s) (errors s) (validationTimer s) (latestRef s) v (undoStack s) (redoStack s)
    (isComposing s) (assistResult s) (now s) (delivered s) .
Definition set_undoStack (v : list HistoryState) (s : Session) : Session :=
  mkSession (bufs s) (activeTab s) (showSnippet s) (showDocs s) (query s) (favs s)
    (recent s) (errors s) (validationTimer s) (latestRef s) (onChangeTimer s) v
    (redoStack s) (isComposing s) (assistResult s) (now s) (delivered s) .
Definition set_redoStack (v : list HistoryState) (s : Session) : Session :=
  mkSession (bufs s) (activeTab s) (showSnippet s) (showDocs s) (query s) (favs s)
    (recent s) (errors s) (validationTimer s) (latestRef s) (onChangeTimer s) (undoStack s)
    v (isComposing s) (assistResult s) (now s) (delivered s) .
Definition set_isComposing (v : bool) (s : Session) : Session :=
  mkSession (bufs s) (activeTab s) (showSnippet s) (showDocs s) (query s) (favs s)
    (recent s) (errors s) (validationTimer s) (latestRef s) (onChangeTimer s) (undoStack s)
    (redoStack s) v (assistResult s) (now s) (delivered s) .
Definition set_assistResult (v : option Snip) (s : Session) : Session :=
  mkSession (bufs s) (activeTab s) (showSnippet s) (showDocs s) (query s) (favs s)
    (recent s) (errors s) (validationTimer s) (latestRef s) (onChangeTimer s) (undoStack s)
    (redoStack s) (isComposing s) v (now s) (delivered s) .
Definition set_now (v : nat) (s : Session) : Session :=
  mkSession (bufs s) (activeTab s) (showSnippet s) (showDocs s) (query s) (favs s)
    (recent s) (errors s) (validationTimer s) (latestRef s) (onChangeTimer s) (undoStack s)
    (redoStack s) (isComposing s) (assistResult s) v (delivered s) .
Definition set_delivered (v : list HistoryState) (s : Session) : Session :=
  mkSession (bufs s) (activeTab s) (showSnippet s) (showDocs s) (query s) (favs s)
    (recent s) (errors s) (validationTimer s) (latestRef s) (onChangeTimer s) (undoStack s)
    (redoStack s) (isComposing s) (assistResult s) (now s) v.

Definition HISTORY_LIMIT : nat := 60.

(** [flushOnChange(immediate)]: a pending delivery is cancelled; then either
    the sink is called with the value [latestRef] holds now, or a delivery is
    armed 400 time units ahead.  The sink's exceptions are swallowed by the
    source, so a call is a call whatever the sink does. *)
Definition flushOnChange (immediate : bool) (s : Session) : Session :=
  let s1 := set_onChangeTimer None s in
  if immediate then set_delivered (delivered s1 ++ [latestRef s1]) s1
  else set_onChangeTimer (Some (now s1 + 400)) s1.

(** [pushHistorySnapshot(h, replaceLatest)] *)
Definition pushHistorySnapshot (h : HistoryState) (replaceLatest : bool) (s : Session)
  : Session :=
  let u := undoStack s in
  let u' :=
    if replaceLatest && (0 <? length u) then <[length u - 1 := h]> u
    else
      let pushed := u ++ [h] in
      if HISTORY_LIMIT <? length pushed then drop 1 pushed else pushed in
  set_redoStack [] (set_undoStack u' s).

(** [applyHistoryState(state)].  The three state setters and the assignment to
    [latestRef] install the same value, so the effect that copies the state
    variables into [latestRef] after the commit changes nothing; the caret
    move it requests touches the textarea only. *)
Definition applyHistoryState (state : HistoryState) (s : Session) : Session :=
  flushOnChange true (set_latestRef state (set_bufs state s)).

(** [undo()] *)
Definition undo (s : Session) : Session :=
  if length (undoStack s) <=? 1 then s
  else
    match last (undoStack s) with
    | None => s
    | Some top =>
        let s1 := set_redoStack (redoStack s ++ [top])
                    (set_undoStack (removelast (undoStack s)) s) in
        match last (undoStack s1) with
        | Some prev => applyHistoryState prev s1
        | None => s1
        end
    end.

(** [redo()]: [pop] on the empty array gives [undefined] and the handler
    returns; a snapshot is an object and never falsy. *)
Definition redo (s : Session) : Session :=
  match last (redoStack s) with
  | None => s
  | Some top =>
      let s1 := set_undoStack (undoStack s ++ [top])
                  (set_redoStack (removelast (redoStack s)) s) in
      applyHistoryState top s1
  end.

Definition onCompositionStart (s : Session) : Session := set_isComposing true s.
Definition onCompositionEnd (s : Session) : Session := set_isComposing false s.

(** [scheduleValidation(tab)]: cancel and re-arm, 600 time units ahead. *)
Definition scheduleValidation (tab : option TabKey) (s : Session) : Session :=
  set_validationTimer (Some (now s + 600, tab)) s.

(** The commit that follows a handler which called a state setter: the new
    state variables are installed and, when one of them changed, the effect
    [latestRef.current = { html, css, js }] runs. *)
Definition commit (next : HistoryState) (s : Session) : Session :=
  if HistoryState_eqb next (bufs s) then s
  else set_latestRef next (set_bufs next s).

(** [scheduleChangeAndValidate(tab)].  [html], [css] and [js] are the state
    variables of the render the handler closes over. *)
Definition scheduleChangeAndValidate (tab : option TabKey) (s : Session) : Session :=
  let s1 := set_latestRef (bufs s) s in
  let s2 := flushOnChange false s1 in
  let s3 := scheduleValidation tab s2 in
  pushHistorySnapshot (latestRef s3) false s3.

(** The [onChange] handler of the textarea of [tab], for the new text [v]:
    [setHtml(v); latestRef.current.html = v; if (!isComposing.current)
    scheduleChangeAndValidate(tab)], then the commit of [setHtml(v)].  The
    assignment is to a field of the object [latestRef] holds; the stacks of
    the model keep their values (see the conventions above). *)
Definition onTextareaChange (tab : TabKey) (v : string) (s : Session) : Session :=
  let s1 := set_latestRef (setBuf tab v (latestRef s)) s in
  let s2 := if isComposing s1 then s1 else scheduleChangeAndValidate (Some tab) s1 in
  commit (setBuf tab v (bufs s)) s2.

(** The [onBlur] handler of the textarea of [tab]. *)
Definition onTextareaBlur (tab : TabKey) (s : Session) : Session :=
  scheduleValidation (Some tab) (flushOnChange true s).

(** Timers.  A timer is due when the clock has reached its deadline. *)
Definition fireOnChange (s : Session) : Session :=
  match onChangeTimer s with
  | Some deadline =>
      if deadline <=? now s
      then set_onChangeTimer None (set_delivered (delivered s ++ [latestRef s]) s)
      else s
  | None => s
  end.

(** The validation callback leaves the id of the fired timer in
    [validationTimer]; a fired timer cannot fire again and clearing it does
    nothing, which the model renders by [None]. *)
Definition fireValidation (env : Browser) (s : Session) : Session :=
  match validationTimer s with
  | Some (deadline, tab) =>
      if deadline <=? now s
      then set_validationTimer None (set_errors (runValidation env tab (latestRef s)) s)
      else s
  | None => s
  end.

(** [d] time units pass without any event. *)
Definition advance (env : Browser) (d : nat) (s : Session) : Session :=
  fireValidation env (fireOnChange (set_now (now s + d) s)).

(** The session at mount: the state initialisers, then the effect that
    records the initial snapshot with [replaceLatest = true]. *)
Definition initialState (p : HistoryState) (storedFavs storedRecent : list Snip) (t0 : nat)
  : Session :=
  mkSession p TabHtml false false "" storedFavs storedRecent [] None p None [] []
            false None t0 [].

Definition mount (p : HistoryState) (storedFavs storedRecent : list Snip) (t0 : nat)
  : Session :=
  let s := initialState p storedFavs storedRecent t0 in
  pushHistorySnapshot (latestRef s) true s.

(** ** Snippets: insertion, favourites, search *)

(** [saveFavs] and [saveRecent]; the copies written to [localStorage] (inside
    [try]/[catch]) are not part of the session. *)
Definition saveFavs (next : list Snip) (s : Session) : Session := set_favs next s.
Definition saveRecent (next : list Snip) (s : Session) : Session := set_recent next s.

Definition tabOfKind (k : SnipKind) : TabKey :=
  match k with
  | KHtml | KAll => TabHtml
  | KCss => TabCss
  | KJs => TabJs
  end.

(** [insertSnippet(snippet, meta, options)].  [dom] is what the three refs
    hold when the handler runs and [newId] the value of [uid()].  Every read
    of [activeTab], [recent] and [latestRef] is a read of the state the
    handler closes over, so the session is rebuilt from [s] at the end. *)
Definition insertSnippet (dom : Refs) (newId : string) (snip : string)
    (meta : option Snip) (keepOpen : bool) (s : Session) : Session :=
  let targetKind := match meta with Some m => kind m | None => kindOfTab (activeTab s) end in
  (* setActiveTab *)
  let nextTab :=
    if negb (SnipKind_eqb targetKind (kindOfTab (activeTab s)))
       && negb (SnipKind_eqb targetKind KAll)
    then tabOfKind targetKind
    else if SnipKind_eqb targetKind KAll then TabHtml else activeTab s in
  let s0 := set_activeTab nextTab s in
  let normalized := normalizeSnippetForBeginners snip targetKind in
  let area := refOfTab dom (tabOfKind targetKind) in
  let finalArea := match area with Some a => Some a | None => refOfTab dom (activeTab s) end in
  match finalArea with
  | None => s0
  | Some fa =>
      let start := default (String.length (value fa)) (selectionStart fa) in
      let end_ := default start (selectionEnd fa) in
      let before := JS.sliceTo (value fa) start in
      let after := JS.sliceFrom (value fa) end_ in
      let newVal := before +:+ normalized +:+ after in
      let target := tabOfKind targetKind in
      let s1 := set_latestRef (setBuf target newVal (latestRef s0)) s0 in
      let s2 := pushHistorySnapshot (latestRef s1) false s1 in
      let rItem := mkSnip (Some newId)
                     (match meta with Some m => label m | None => "Generated snippet" end)
                     normalized
                     (match meta with Some m => kind m | None => targetKind end)
                     (match meta with Some m => description m | None => None end)
                     None in
      let merged := rItem :: List.filter (fun r => negb (String.eqb (snippet r) normalized))
                                         (recent s) in
      let s3 := saveRecent (take 8 merged) s2 in
      let s4 := if keepOpen then s3 else set_showSnippet false s3 in
      let s5 := set_query "" s4 in
      let s6 := flushOnChange true s5 in
      let s7 := scheduleValidation (Some target) s6 in
      commit (setBuf target newVal (bufs s)) s7
  end.

Definition isFav (fs : list Snip) (x : Snip) : bool :=
  existsb (fun f => String.eqb (snippet f) (snippet x)) fs.

(** [toggleFav(x)]; [newId] is the value of [uid()]. *)
Definition toggleFav (newId : string) (x : Snip) (s : Session) : Session :=
  if isFav (favs s) x
  then saveFavs (List.filter (fun f => negb (String.eqb (snippet f) (snippet x))) (favs s)) s
  else saveFavs (take 30 (mkSnip (Some newId) (label x) (snippet x) (kind x)
                                 (description x) (tags x) :: favs s)) s.

(** The [Insert] button of the fill-in assistant:
    [if (assistResult) { insertSnippet(assistResult.snippet, assistResult);
    saveFavs([assistResult, ...favs]); }] *)
Definition assistantInsert (dom : Refs) (newId : string) (s : Session) : Session :=
  match assistResult s with
  | Some r => saveFavs (r :: favs s) (insertSnippet dom newId (snippet r) (Some r) false s)
  | None => s
  end.

(** The [Clear All] button. *)
Definition clearAll (s : Session) : Session := saveRecent [] (saveFavs [] s).

(** The text a query is matched against. *)
Definition hay (x : Snip) : string :=
  JS.toLowerCase
    (label x +:+ " " +:+ default "" (description x) +:+ " " +:+ snippet x +:+ " "
     +:+ JS.join " " (default [] (tags x))).

(** The score [getFilteredSnippets] gives an entry, for the normalised query
    [q], the active tab and the favourites. *)
Definition scoreOf (q : string) (primaryKind : TabKey) (fs : list Snip) (x : Snip) : nat :=
  (if SnipKind_eqb (kind x) (kindOfTab primaryKind) then 50 else 0)
  + (if SnipKind_eqb (kind x) KAll then 30 else 0)
  + (if isFav fs x then 10 else 0)
  + (if String.eqb q "" then 0
     else (if JS.startsWith (JS.toLowerCase (label x)) q then 20 else 0)
          + (if JS.includes (hay x) q then 10 else 0)).

(** The closing [filter] of [getFilteredSnippets], with its [Set] of the
    bodies seen so far. *)
Fixpoint dedupe (seen : gset string) (l : list Snip) : list Snip :=
  match l with
  | [] => []
  | f :: t =>
      if bool_decide (snippet f ∈ seen) then dedupe seen t
      else f :: dedupe ({[snippet f]} ∪ seen) t
  end.

(** A comparator [(a, b) => key(b) - key(a)]. *)
Definition descBy {A} (key : A -> nat) (a b : A) : Z :=
  (Z.of_nat (key b) - Z.of_nat (key a))%Z.

(** The comparator [(a, b) => b.score - a.score]. *)
Definition byScoreDesc : Snip * nat -> Snip * nat -> Z := descBy snd.

(** [getFilteredSnippets()] *)
Definition getFilteredSnippets (s : Session) : list Snip :=
  let q := JS.toLowerCase (JS.trim (query s)) in
  let primaryKind := activeTab s in
  let pool := SNIPPETS ++ favs s in
  let scored := map (fun x => (x, scoreOf q primaryKind (favs s) x)) pool in
  let filtered :=
    map fst (JS.sort byScoreDesc
               (List.filter (fun x => String.eqb q "" || (5 <? snd x)) scored)) in
  dedupe ∅ filtered.

(** ** The question search ([SearchPanel], with the cache of [useDB]) *)

Module SearchPanel.

(** [SEQuestion], with the fields the panel reads. *)
Record SEQuestion := mkQuestion {
  question_id : nat;
  title : string;
  link : string;
  score : Z;
  creation_date : Z;
  qtags : list string;
  body : option string
}.

(** A row of the [searchCache] object store. *)
Record CacheRow := mkCacheRow {
  items : list SEQuestion;
  timestamp : Z
}.

(** Where a running call of the asynchronous [doSearch] is suspended.  The
    row [setCachedSearch] writes carries the [Date.now()] it read when it
    was called, right after the response: [stamp]. *)
Inductive Stage :=
| AwaitCache                          (* await getCachedSearch(query) *)
| AwaitRemote                         (* await searchQuestions(query, 1, 10) *)
| AwaitCachePut (found : list SEQuestion) (stamp : Z).
                                      (* await setCachedSearch(query, items) *)

Record Call := mkCall {
  callQuery : string;
  stage : Stage
}.

(** The component's state, the store and the asynchronous calls in flight:
    [calls] holds the running calls of [doSearch], [opening] those of
    [openDetail] with the [question_id] they ask for.  Calls are numbered in
    the order they start; the number exists in the model only, to say which
    call an answer belongs to. *)
Record Panel := mkPanel {
  q : string;
  results : list SEQuestion;
  loading : bool;
  picked : option SEQuestion;
  cacheHit : bool;
  debounceRef : option (Z * string);  (** deadline and argument of the pending [doSearch] *)
  searchCache : gmap string CacheRow;
  calls : gmap nat Call;
  opening : gmap nat nat;
  nextCall : nat;
  clock : Z                           (** [Date.now()] *)
}.

Definition set_q v p :=
  mkPanel v (results p) (loading p) (picked p) (cacheHit p) (debounceRef p)
          (searchCache p) (calls p) (opening p) (nextCall p) (clock p).
Definition set_results v p :=
  mkPanel (q p) v (loading p) (picked p) (cacheHit p) (debounceRef p)
          (searchCache p) (calls p) (opening p) (nextCall p) (clock p).
Definition set_loading v p :=
  mkPanel (q p) (results p) v (picked p) (cacheHit p) (debounceRef p)
          (searchCache p) (calls p) (opening p) (nextCall p) (clock p).
Definition set_picked v p :=
  mkPanel (q p) (results p) (loading p) v (cacheHit p) (debounceRef p)
          (searchCache p) (calls p) (opening p) (nextCall p) (clock p).
Definition set_cacheHit v p :=
  mkPanel (q p) (results p) (loading p) (picked p) v (debounceRef p)
          (searchCache p) (calls p) (opening p) (nextCall p) (clock p).
Definition set_debounceRef v p :=
  mkPanel (q p) (results p) (loading p) (picked p) (cacheHit p) v
          (searchCache p) (calls p) (opening p) (nextCall p) (clock p).
Definition set_searchCache v p :=
  mkPanel (q p) (results p) (loading p) (picked p) (cacheHit p) (debounceRef p)
          v (calls p) (opening p) (nextCall p) (clock p).
Definition set_calls v p :=
  mkPanel (q p) (results p) (loading p) (picked p) (cacheHit p) (debounceRef p)
          (searchCache p) v (opening p) (nextCall p) (clock p).
Definition set_opening v p :=
  mkPanel (q p) (results p) (loading p) (picked p) (cacheHit p) (debounceRef p)
          (searchCache p) (calls p) v (nextCall p) (clock p).
Definition set_nextCall v p :=
  mkPanel (q p) (results p) (loading p) (picked p) (cacheHit p) (debounceRef p)
          (searchCache p) (calls p) (opening p) v (clock p).
Definition set_clock v p :=
  mkPanel (q p) (results p) (loading p) (picked p) (cacheHit p) (debounceRef p)
          (searchCache p) (calls p) (opening p) (nextCall p) v.

Definition initial (t0 : Z) (store : gmap string CacheRow) : Panel :=
  mkPanel "" [] false None false None store ∅ ∅ 0 t0.

Definition WEEK : Z := (1000 * 60 * 60 * 24 * 7)%Z.

(** [doSearch(query)] up to its first [await]. *)
Definition doSearch (query : string) (p : Panel) : Panel :=
  if String.eqb (JS.trim query) "" then set_results [] p
  else
    let p1 := set_loading true p in
    set_nextCall (S (nextCall p1))
      (set_calls (<[nextCall p1 := mkCall query AwaitCache]> (calls p1)) p1).

(** The [finally] block, and the end of the call. *)
Definition finish (n : nat) (p : Panel) : Panel :=
  set_loading false (set_calls (delete n (calls p)) p).

(** [getCachedSearch] answers call [n]: a row younger than a week is
    displayed; otherwise the request goes out. *)
Definition resolveCache (n : nat) (p : Panel) : Panel :=
  match calls p !! n with
  | Some (mkCall query AwaitCache) =>
      match searchCache p !! query with
      | Some row =>
          if (clock p - timestamp row <? WEEK)%Z
          then finish n (set_cacheHit true (set_results (items row) p))
          else set_calls (<[n := mkCall query AwaitRemote]> (calls p)) p
      | None => set_calls (<[n := mkCall query AwaitRemote]> (calls p)) p
      end
  | _ => p
  end.

(** [searchQuestions] answers call [n]: with the items of the response, or
    by throwing ([None]), which the [catch] block logs.  With a response
    [setCachedSearch] is called at once and reads the clock. *)
Definition resolveRemote (n : nat) (reply : option (list SEQuestion)) (p : Panel) : Panel :=
  match calls p !! n with
  | Some (mkCall query AwaitRemote) =>
      match reply with
      | Some found =>
          let p1 := set_cacheHit false (set_results found p) in
          set_calls (<[n := mkCall query (AwaitCachePut found (clock p))]> (calls p1)) p1
      | None => finish n p
      end
  | _ => p
  end.

(** [setCachedSearch] of call [n] completes: the row is in the store. *)
Definition resolveCachePut (n : nat) (p : Panel) : Panel :=
  match calls p !! n with
  | Some (mkCall query (AwaitCachePut found stamp)) =>
      finish n (set_searchCache (<[query := mkCacheRow found stamp]> (searchCache p)) p)
  | _ => p
  end.

(** The store rejects the request call [n] is waiting for, the read of
    [getCachedSearch] or the write of [setCachedSearch]: the [catch] block
    logs, the [finally] block runs. *)
Definition rejectCache (n : nat) (p : Panel) : Panel :=
  match calls p !! n with
  | Some (mkCall _ AwaitCache) => finish n p
  | Some (mkCall _ (AwaitCachePut _ _)) => finish n p
  | _ => p
  end.

(** [openDetail(item)] up to its [await]. *)
Definition openDetail (item : SEQuestion) (p : Panel) : Panel :=
  let p1 := set_loading true p in
  set_nextCall (S (nextCall p1))
    (set_opening (<[nextCall p1 := question_id item]> (opening p1)) p1).

(** [getQuestionWithAnswers] answers call [n] of [openDetail]: with a
    payload, whose [question] is the first item of the response if there is
    one, or by throwing ([None]); then the [finally] block. *)
Definition resolveDetail (n : nat) (reply : option (option SEQuestion)) (p : Panel) : Panel :=
  match opening p !! n with
  | Some _ =>
      let p1 := match reply with
                | Some question => set_picked question p
                | None => p
                end in
      set_loading false (set_opening (delete n (opening p1)) p1)
  | None => p
  end.

(** The input's [onChange(v)]: the pending [doSearch] is replaced by one for
    [v], 500 time units ahead. *)
Definition onChange (v : string) (p : Panel) : Panel :=
  set_debounceRef (Some ((clock p + 500)%Z, v)) (set_q v p).

(** [d] time units pass; a due [doSearch] starts.  The id of the fired
    timer stays in [debounceRef], where it can only be cleared. *)
Definition advance (d : Z) (p : Panel) : Panel :=
  let p1 := set_clock (clock p + d)%Z p in
  match debounceRef p1 with
  | Some (deadline, v) =>
      if (deadline <=? clock p1)%Z then doSearch v (set_debounceRef None p1) else p1
  | None => p1
  end.

(** What can happen to the panel: the text of the input changes, the
    [Search] button is clicked, time passes, the store or the network answers
    a call, the row of index [i] of the list of results is clicked.
    ([Save as Lesson] and [Export ZIP] read [picked] and change nothing of
    the state.) *)
Inductive Event :=
| Typed (v : string)
| SearchClicked
| Passed (d : Z)
| CacheAnswered (n : nat)
| CacheFailed (n : nat)
| RemoteAnswered (n : nat) (reply : option (list SEQuestion))
| CachePutDone (n : nat)
| RowClicked (i : nat)
| DetailAnswered (n : nat) (reply : option (option SEQuestion)).

Definition step (p : Panel) (e : Event) : Panel :=
  match e with
  | Typed v => onChange v p
  | SearchClicked => doSearch (q p) p
  | Passed d => advance d p
  | CacheAnswered n => resolveCache n p
  | CacheFailed n => rejectCache n p
  | RemoteAnswered n reply => resolveRemote n reply p
  | CachePutDone n => resolveCachePut n p
  | RowClicked i =>
      match results p !! i with
      | Some item => openDetail item p
      | None => p
      end
  | DetailAnswered n reply => resolveDetail n reply p
  end.

Definition run (p : Panel) (es : list Event) : Panel := fold_left step es p.

End SearchPanel.

(** ** Runs of history operations *)

(** A sequence of [record] calls: each a snapshot and its [replaceLatest]. *)
Definition records (ops : list (HistoryState * bool)) (s : Session) : Session :=
  fold_left (fun acc op => pushHistorySnapshot (fst op) (snd op) acc) ops s.

(** A sequence of plain pushes. *)
Definition pushes (hs : list HistoryState) (s : Session) : Session :=
  fold_left (fun acc h => pushHistorySnapshot h false acc) hs s.


(** The history as the keyboard and the editor drive it. *)
Inductive HistoryEvent :=
| Record_ (h : HistoryState) (replaceLatest : bool)
| Undo
| Redo.

Definition historyStep (s : Session) (e : HistoryEvent) : Session :=
  match e with
  | Record_ h b => pushHistorySnapshot h b s
  | Undo => undo s
  | Redo => redo s
  end.

(** ** Concrete sessions for the examples *)

(** Parsers that find nothing wrong. *)
Definition quiet : Browser := mkBrowser (fun _ => None) (fun _ => None).

Definition snap (n : nat) : HistoryState :=
  mkHistoryState (String (ascii_of_nat (48 + n)) "") "" "".

(** A freshly mounted session on an empty project. *)
Definition fresh : Session := mount (mkHistoryState "" "" "") [] [] 0.

(** A session whose history is full. *)
Definition full : Session := pushes (map snap (seq 0 60)) fresh.

(** ** Typing *)

(** A burst of keystrokes in the textarea of [tab]: each entry gives the time
    since the previous event and the text after the keystroke. *)
Definition typeBurst (env : Browser) (tab : TabKey) (keys : list (nat * string))
    (s : Session) : Session :=
  fold_left (fun acc k => onTextareaChange tab (snd k) (advance env (fst k) acc)) keys s.

(** The settling the specification describes: after the burst and the pause
    that follows it, the undo stack holds one entry more than before. *)
Definition collapsesToOneEntry (env : Browser) (tab : TabKey) (keys : list (nat * string))
    (pause : nat) (s : Session) : Prop :=
  length (undoStack (advance env pause (typeBurst env tab keys s)))
  = S (length (undoStack s)).

(** ** The case warning of the style validator *)

(** The warnings among the findings of [validateCSS]. *)
Definition caseWarnings (str : string) : list (Level * string) :=
  List.filter (fun r => match fst r with LWarning => true | LError => false end)
              (validateCSS str).

(** The specification's condition: two upper-case letters in a row, anywhere
    in the text. *)
Fixpoint hasUpperPair (cs : list ascii) : bool :=
  match cs with
  | a :: t =>
      match t with
      | b :: _ => (JS.isUpper a && JS.isUpper b) || hasUpperPair t
      | [] => false
      end
  | [] => false
  end.

Definition warnsOnUpperPair (str : string) : Prop :=
  caseWarnings str = [(LWarning, caseWarning)]
  <-> hasUpperPair (list_ascii_of_string str) = true.

Definition lastIsWord (l : list ascii) : bool :=
  match last l with Some c => JS.isWordChar c | None => false end.

Definition headIsWord (l : list ascii) : bool :=
  match head l with Some c => JS.isWordChar c | None => false end.

(** The condition of the code: the text contains a whole word written in
    upper-case letters only, that is a non-empty run [w] of [[A-Z]] with no
    word character (letter, digit or underscore) right before it or right
    after it. *)
Definition UpperWordIn (cs : list ascii) : Prop :=
  exists pre w post,
    cs = pre ++ w ++ post /\
    w <> [] /\
    Forall (fun c => JS.isUpper c = true) w /\
    lastIsWord pre = false /\
    headIsWord post = false.

(** ** The snippet search in the words of the specification *)

Module SearchSpec.

(** The entries of score [n - 1], then those of score [n - 2], and so on
    down to 0, each group in the order of the list: descending by score,
    ties in the original order. *)
Fixpoint buckets {A} (key : A -> nat) (n : nat) (l : list A) : list A :=
  match n with
  | O => []
  | S k => List.filter (fun x => key x =? k) l ++ buckets key k l
  end.

(** An entry is kept when no entry before it has the same body; [prev] are
    the entries already passed. *)
Fixpoint keepFirst (prev : list Snip) (l : list Snip) : list Snip :=
  match l with
  | [] => []
  | x :: t =>
      if existsb (fun y => String.eqb (snippet y) (snippet x)) prev
      then keepFirst (prev ++ [x]) t
      else x :: keepFirst (prev ++ [x]) t
  end.

(** No score exceeds 50 + 30 + 10 + 20 + 10. *)
Definition maxScore : nat := 120.

Section Search.
(** How the query is prepared, and the label and the text of an entry it
    is matched against. *)
Variable norm : string -> string.
Variables lbl text : Snip -> string.

Definition score (query : string) (active : TabKey) (fs : list Snip) (x : Snip) : nat :=
  (if SnipKind_eqb (kind x) (kindOfTab active) then 50 else 0)
  + (if SnipKind_eqb (kind x) KAll then 30 else 0)
  + (if isFav fs x then 10 else 0)
  + (if String.eqb (norm query) "" then 0
     else (if JS.startsWith (lbl x) (norm query) then 20 else 0)
          + (if JS.includes (text x) (norm query) then 10 else 0)).

Definition passes (query : string) (active : TabKey) (fs : list Snip) (x : Snip) : bool :=
  String.eqb (norm query) "" || (5 <? score query active fs x).

(** The pool is the catalogue followed by the favourites. *)
Definition search (query : string) (active : TabKey) (fs : list Snip) : list Snip :=
  keepFirst []
    (buckets (score query active fs) (S maxScore)
       (List.filter (passes query active fs) (SNIPPETS ++ fs))).
End Search.

(** Label, description, body and tags, one after the other. *)
Definition fields (x : Snip) : string :=
  label x +:+ default "" (description x) +:+ snippet x
  +:+ JS.join "" (default [] (tags x)).

(** The search as the specification states it: the query is lower-cased;
    the label and the fields are taken as they are. *)
Definition searchClaimed : string -> TabKey -> list Snip -> list Snip :=
  search JS.toLowerCase label fields.

(** The search with the matching of the code: the query is trimmed and
    lower-cased, and it is matched against the lower-cased label and the
    lower-cased fields joined by single spaces. *)
Definition searchFolded : string -> TabKey -> list Snip -> list Snip :=
  search (fun query => JS.toLowerCase (JS.trim query))
         (fun x => JS.toLowerCase (label x)) hay.

End SearchSpec.

(** ** Insertion scenarios *)

(** What the three refs hold once the render of [s] has settled: only the
    textarea of the active tab is mounted; it shows that tab's text, with the
    selection from [selStart] to [selEnd]. *)
Definition domOf (s : Session) (selStart selEnd : nat) : Refs :=
  let area := Some (mkTextarea (getBuf (activeTab s) (bufs s)) (Some selStart) (Some selEnd)) in
  match activeTab s with
  | TabHtml => mkRefs area None None
  | TabCss => mkRefs None area None
  | TabJs => mkRefs None None area
  end.

(** The splice the specification describes: [body] replaces the selection of
    [text], or goes to its end when no selection is known. *)
Definition splice (text body : string) (sel : option (nat * nat)) : string :=
  let start := match sel with Some (a, _) => a | None => String.length text end in
  let end_ := match sel with Some (_, b) => b | None => start end in
  JS.sliceTo text start +:+ body +:+ JS.sliceFrom text end_.

(** A session on a small project, with the style tab in front. *)
Definition styling : Session :=
  set_activeTab TabCss (mount (mkHistoryState "<p>hi</p>" "a{}" "let x;") [] [] 0).

Definition callSnippet : Snip :=
  mkSnip None "Call" ("foo();" +:+ nl) KJs (Some "A call") None.

(** ** Favourites scenarios *)

Definition numbered (n : nat) : Snip :=
  mkSnip None "Rule" (".r" +:+ String (ascii_of_nat (48 + n)) "" +:+ "{}") KCss None None.

(** Thirty snippets with thirty bodies are starred, one after the other. *)
Definition starred : Session :=
  fold_left (fun acc n => toggleFav "id" (numbered n) acc) (seq 0 30) styling.

(** Then the assistant holds a generated snippet. *)
Definition generated : Snip :=
  mkSnip (Some "gen") "CSS: Component" (".component {" +:+ nl +:+ "}" +:+ nl) KCss
         (Some "Generated by Smart Assistant") None.

Definition assisted : Session := set_assistResult (Some generated) starred.

(** ** Question-search scenarios *)

Module SearchRace.
Import SearchPanel.

(** Two searches start, the one for [older] first; both miss the cache; the
    response to the newer arrives, then the response to the older. *)
Definition olderAnswersLast (p : Panel) (older newer : string)
    (rOld rNew : list SEQuestion) : Panel :=
  let a := nextCall p in
  let b := S a in
  let p1 := doSearch newer (doSearch older p) in
  let p2 := resolveCache b (resolveCache a p1) in
  resolveRemote a (Some rOld) (resolveRemote b (Some rNew) p2).

(** The request-ordering protection the specification asks for. *)
Definition newerDisplayed (p : Panel) (older newer : string)
    (rOld rNew : list SEQuestion) : Prop :=
  results (olderAnswersLast p older newer rOld rNew) = rNew.

(** No row of the cache for [query] that is younger than a week. *)
Definition misses (p : Panel) (query : string) : bool :=
  match searchCache p !! query with
  | Some row => negb (clock p - timestamp row <? WEEK)%Z
  | None => true
  end.

Definition question (n : nat) (t : string) : SEQuestion :=
  mkQuestion n t "https://stackoverflow.com/q" 1 0 [] None.

Definition panel0 : Panel := initial 0 ∅.

(** [e] is a response of the network to call [n] of [doSearch]. *)
Definition respondsTo (n : nat) (e : Event) : bool :=
  match e with
  | RemoteAnswered m _ => Nat.eqb m n
  | _ => false
  end.

(** [e], happening in state [p], starts no search and brings no items from
    the cache or the network. *)
Definition rests (p : Panel) (e : Event) : bool :=
  match e with
  | Typed _ => true
  | SearchClicked => false
  | Passed d =>
      match debounceRef p with
      | Some (deadline, _) => negb (deadline <=? clock p + d)%Z
      | None => true
      end
  | CacheAnswered _ => false
  | CacheFailed _ => true
  | RemoteAnswered _ reply =>
      match reply with
      | Some _ => false
      | None => true
      end
  | CachePutDone _ => true
  | RowClicked _ => true
  | DetailAnswered _ _ => true
  end.

(** Every event of [es], happening in turn from [p], rests. *)
Fixpoint calm (p : Panel) (es : list Event) : bool :=
  match es with
  | [] => true
  | e :: es' => rests p e && calm (step p e) es'
  end.

(** The events of a race up to the response to the older call: whatever
    happened [before]; the response [rNew] to call [b]; whatever happens
    [between]. *)
Definition newerFirst (before : list Event) (b : nat) (rNew : list SEQuestion)
    (between : list Event) : list Event :=
  before ++ RemoteAnswered b (Some rNew) :: between.

(** The race: then the response [rOld] to call [a]. *)
Definition race (before : list Event) (b : nat) (rNew : list SEQuestion)
    (between : list Event) (a : nat) (rOld : list SEQuestion) : list Event :=
  newerFirst before b rNew between ++ [RemoteAnswered a (Some rOld)].

(** The numbers of the calls in flight have been given out. *)
Definition numbered (p : Panel) : Prop :=
  forall n c, calls p !! n = Some c -> n < nextCall p.

End SearchRace.

(** ** The keyboard listener ([onKey]) *)

(** What the listener reads from a [KeyboardEvent]. *)
Record KeyEvent := mkKeyEvent {
  key : string;
  ctrlKey : bool;
  metaKey : bool;
  altKey : bool;
  shiftKey : bool
}.

(** [onKey(e)].  [mac] is what [navigator.platform] says.  The listener is
    registered again when [showSnippet], [showDocs], [query], [activeTab] or
    a text changes, so it sees these as they are; the favourites and the
    recents it closes over, [seenFavs] and [seenRecent], are those of the
    render it was registered in.  History, timers and [isComposing] live in
    refs and are read as they are. *)
Definition onKey (mac : bool) (dom : Refs) (newId : string)
    (seenFavs seenRecent : list Snip) (e : KeyEvent) (s : Session) : Session :=
  let mod_ := if mac then metaKey e else ctrlKey e in
  let lower := JS.toLowerCase (key e) in
  if isComposing s then s
  else if mod_ && String.eqb lower "k"
  then set_showDocs false (set_showSnippet (negb (showSnippet s)) s)
  else if mod_ && String.eqb (key e) "/"
  then set_showSnippet false (set_showDocs (negb (showDocs s)) s)
  else if String.eqb (key e) "Escape"
  then set_showDocs false (set_showSnippet false s)
  else if altKey e && negb mod_ && String.eqb (key e) "1" then set_activeTab TabHtml s
  else if altKey e && negb mod_ && String.eqb (key e) "2" then set_activeTab TabCss s
  else if altKey e && negb mod_ && String.eqb (key e) "3" then set_activeTab TabJs s
  else if mod_ && String.eqb lower "z"
  then (if shiftKey e then redo s else undo s)
  else if mod_ && negb (shiftKey e) && String.eqb lower "y" then redo s
  else if String.eqb (key e) "Enter" && showSnippet s
  then
    let view := set_recent seenRecent (set_favs seenFavs s) in
    match getFilteredSnippets view with
    | x :: _ => set_favs (favs s) (insertSnippet dom newId (snippet x) (Some x) (shiftKey e) view)
    | [] => s
    end
  else s.

(** ** The fill-in assistant's generator ([runAssistantGenerate]) *)

Module Assistant.

(** [[a-z0-9]] *)
Definition isSlugChar (c : ascii) : bool := JS.isLower c || JS.isDigit c.

(** [s.replace(/[^a-z0-9]+/g, '-')]: every maximal run of other characters
    becomes one hyphen; [inRun] says that the previous character was part of
    such a run. *)
Fixpoint dashRuns (inRun : bool) (s : string) : string :=
  match s with
  | EmptyString => EmptyString
  | String c t =>
      if isSlugChar c then String c (dashRuns false t)
      else if inRun then dashRuns true t
      else String "-" (dashRuns true t)
  end.

(** [title.toLowerCase().replace(/[^a-z0-9]+/g, '-')] *)
Definition slug (title : string) : string := dashRuns false (JS.toLowerCase title).

Definition kindUpper (k : SnipKind) : string :=
  match k with KHtml => "HTML" | KCss => "CSS" | KJs => "JS" | KAll => "ALL" end.

Definition bq : string := String (ascii_of_nat 96) EmptyString.

(** The text generated for a kind, before normalisation. *)
Definition template (k : SnipKind) (title body : string) (responsive includeButton : bool)
  : string :=
  match k with
  | KHtml =>
      "<section class=" +:+ dq +:+ slug title +:+ dq +:+ ">" +:+ nl
      +:+ "  <h2>" +:+ title +:+ "</h2>" +:+ nl
      +:+ "  <p>" +:+ body +:+ "</p>" +:+ nl
      +:+ (if includeButton
           then "  <a class=" +:+ dq +:+ "btn" +:+ dq +:+ " href=" +:+ dq +:+ "#" +:+ dq
                +:+ ">Action</a>" +:+ nl
           else "")
      +:+ "</section>" +:+ nl
  | KCss =>
      "." +:+ slug title +:+ " {" +:+ nl
      +:+ "  padding: 16px;" +:+ nl
      +:+ "  border-radius: 8px;" +:+ nl
      +:+ "  background: linear-gradient(90deg,#fff,#f3f4f6);" +:+ nl
      +:+ "}" +:+ nl
      +:+ (if responsive
           then "@media(max-width:768px){ ." +:+ slug title +:+ " { padding:12px } }" +:+ nl
           else "")
  | KJs =>
      "const el = document.querySelector('." +:+ slug title +:+ "');" +:+ nl
      +:+ "if (el) el.innerHTML = " +:+ bq +:+ "<h2>" +:+ title +:+ "</h2><p>" +:+ body
      +:+ "</p>" +:+ bq +:+ ";" +:+ nl
  | KAll =>
      "<!doctype html>" +:+ nl +:+ "<html>" +:+ nl
      +:+ "<head><meta charset=" +:+ dq +:+ "utf-8" +:+ dq +:+ "><meta name=" +:+ dq
      +:+ "viewport" +:+ dq +:+ " content=" +:+ dq +:+ "width=device-width,initial-scale=1"
      +:+ dq +:+ "></head>" +:+ nl
      +:+ "<body>" +:+ nl +:+ "<section>" +:+ nl
      +:+ "  <h2>" +:+ title +:+ "</h2>" +:+ nl
      +:+ "  <p>" +:+ body +:+ "</p>" +:+ nl
      +:+ "</section>" +:+ nl +:+ "</body>" +:+ nl +:+ "</html>" +:+ nl
  end.

(** [runAssistantGenerate()], for the form as it stands: [assistTitle],
    [assistBody], [assistKind] and the two options; [newId] is the value of
    [uid()]. *)
Definition runAssistantGenerate (assistTitle assistBody : string) (assistKind : SnipKind)
    (responsive includeButton : bool) (newId : string) (s : Session) : Session :=
  let title := orElse assistTitle "Component" in
  let body := orElse assistBody "Description..." in
  let generated := template assistKind title body responsive includeButton in
  let normalized := normalizeSnippetForBeginners generated assistKind in
  set_assistResult
    (Some (mkSnip (Some newId) (kindUpper assistKind +:+ ": " +:+ title) normalized
                  assistKind (Some "Generated by Smart Assistant") None)) s.

End Assistant.

(** ** The events of the editor *)

(** Everything that can happen to a mounted editor: keys, typing, the
    buttons of the toolbar and of the snippet panel, and time passing. *)
Inductive Event :=
| EKey (mac : bool) (dom : Refs) (newId : string) (seenFavs seenRecent : list Snip)
       (e : KeyEvent)
| EChange (tab : TabKey) (v : string)
| EBlur (tab : TabKey)
| ECompositionStart
| ECompositionEnd
| ETab (tab : TabKey)
| EToggleSnippets
| EToggleDocs
| ECloseDocs
| EQuery (v : string)
| EInsert (dom : Refs) (newId : string) (x : Snip)
| EStar (newId : string) (x : Snip)
| EGenerate (title body : string) (k : SnipKind) (responsive includeButton : bool)
            (newId : string)
| EAssistInsert (dom : Refs) (newId : string)
| EClearAll
| EPass (d : nat).

Definition step (env : Browser) (s : Session) (e : Event) : Session :=
  match e with
  | EKey mac dom newId seenFavs seenRecent k => onKey mac dom newId seenFavs seenRecent k s
  | EChange tab v => onTextareaChange tab v s
  | EBlur tab => onTextareaBlur tab s
  | ECompositionStart => onCompositionStart s
  | ECompositionEnd => onCompositionEnd s
  | ETab tab => set_activeTab tab s
  | EToggleSnippets => set_showDocs false (set_showSnippet (negb (showSnippet s)) s)
  | EToggleDocs => set_showSnippet false (set_showDocs (negb (showDocs s)) s)
  | ECloseDocs => set_showDocs false s
  | EQuery v => set_query v s
  | EInsert dom newId x => insertSnippet dom newId (snippet x) (Some x) false s
  | EStar newId x => toggleFav newId x s
  | EGenerate title body k responsive includeButton newId =>
      Assistant.runAssistantGenerate title body k responsive includeButton newId s
  | EAssistInsert dom newId => assistantInsert dom newId s
  | EClearAll => clearAll s
  | EPass d => advance env d s
  end.

Definition run (env : Browser) (s : Session) (es : list Event) : Session :=
  fold_left (step env) es s.

(** [n] times [undo], [n] times [redo]. *)
Fixpoint undoN (n : nat) (s : Session) : Session :=
  match n with O => s | S k => undoN k (undo s) end.

Fixpoint redoN (n : nat) (s : Session) : Session :=
  match n with O => s | S k => redoN k (redo s) end.

(** ** Invariants of the session *)

(** The undo stack is never empty and the two stacks together hold at most
    [HISTORY_LIMIT] snapshots. *)
Definition historyOK (s : Session) : Prop :=
  1 <= length (undoStack s) /\
  length (undoStack s) + length (redoStack s) <= HISTORY_LIMIT.

(** The snippet panel and the docs panel are not open together. *)
Definition panelsOK (s : Session) : Prop :=
  showSnippet s && showDocs s = false.

(** ** Brace balance *)

(** What a character adds to the balance of braces. *)
Definition braceDelta (c : ascii) : Z :=
  ((if Ascii.eqb c "{" then 1 else 0) - (if Ascii.eqb c "}" then 1 else 0))%Z.

(** Opening braces minus closing braces. *)
Fixpoint balance (cs : list ascii) : Z :=
  match cs with
  | [] => 0%Z
  | c :: t => (braceDelta c + balance t)%Z
  end.

(** The errors among the findings of [validateCSS]. *)
Definition braceErrors (str : string) : list (Level * string) :=
  List.filter (fun r => match fst r with LError => true | LWarning => false end)
              (validateCSS str).

(** ** The search result, declaratively *)

(** The score of an entry in the session's current search. *)
Definition currentScore (s : Session) (x : Snip) : nat :=
  scoreOf (JS.toLowerCase (JS.trim (query s))) (activeTab s) (favs s) x.

(** ** Shapes of text *)

(** Does the text begin with a hyphen? *)
Definition startsDash (s : string) : bool :=
  match s with
  | String c _ => Ascii.eqb c "-"
  | EmptyString => false
  end.

(** Every character is a lower-case letter, a digit or a hyphen, and no two
    hyphens stand side by side. *)
Fixpoint slugShaped (s : string) : bool :=
  match s with
  | EmptyString => true
  | String c t =>
      (Assistant.isSlugChar c || Ascii.eqb c "-")
      && negb (Ascii.eqb c "-" && startsDash t)
      && slugShaped t
  end.

(** ** Courses of a question search *)

Module SearchFlow.
Import SearchPanel.

(** A search for [query] misses the cache, is answered with [found], and
    the answer is stored. *)
Definition searchCompleted (query : string) (found : list SEQuestion) (p : Panel) : Panel :=
  let n := nextCall p in
  resolveCachePut n (resolveRemote n (Some found) (resolveCache n (doSearch query p))).

(** [d] time units later [query] is searched, and the cache answers. *)
Definition searchAgain (query : string) (d : Z) (p : Panel) : Panel :=
  let p1 := advance d p in
  resolveCache (nextCall p1) (doSearch query p1).

(** A search for [query] misses the cache and the request fails. *)
Definition searchFailed (query : string) (p : Panel) : Panel :=
  let n := nextCall p in
  resolveRemote n None (resolveCache n (doSearch query p)).

(** [v1] is typed, then [v2] after [d1], then nothing for [d2]. *)
Definition typedTwice (v1 v2 : string) (d1 d2 : Z) (p : Panel) : Panel :=
  advance d2 (onChange v2 (advance d1 (onChange v1 p))).

(** When no call of [doSearch] and no call of [openDetail] is in flight the
    panel does not say it is searching. *)
Definition settled (p : Panel) : Prop :=
  calls p = ∅ -> opening p = ∅ -> loading p = false.

End SearchFlow.

(** ** Importing files ([App]) *)

Module App.

(** The text before the first occurrence of the literal [p] under the flag
    [i], and the text after it. *)
Fixpoint splitAtCI (p : string) (s : string) : option (string * string) :=
  if Normalize.prefixCI p s then Some (EmptyString, Normalize.dropChars (String.length p) s)
  else
    match s with
    | EmptyString => None
    | String c t =>
        match splitAtCI p t with
        | Some (a, b) => Some (String c a, b)
        | None => None
        end
    end.

(** Group 1 of the first match of the pattern [<name], characters other than
    [>], [>], as few characters as possible, [</name>], under the flag [i]:
    the text between the first opening tag that has a closing tag after it
    and the first such closing tag. *)
Fixpoint extractBlock (name : string) (s : string) : option string :=
  match s with
  | EmptyString => None
  | String c rest =>
      if Normalize.prefixCI ("<" +:+ name) s then
        match Normalize.splitAtGt (Normalize.dropChars (String.length name) rest) with
        | Some (_, after) =>
            match splitAtCI ("</" +:+ name +:+ ">") after with
            | Some (content, _) => Some content
            | None => extractBlock name rest
            end
        | None => extractBlock name rest
        end
      else extractBlock name rest
  end.

(** The project [importHtmlFileLocal] saves for a file of text [txt]. *)
Definition importHtml (txt : string) (project : HistoryState) : HistoryState :=
  let cssMatch := extractBlock "style" txt in
  let jsMatch := extractBlock "script" txt in
  let bodyMatch := extractBlock "body" txt in
  mkHistoryState
    (match bodyMatch with Some b => JS.trim b | None => txt end)
    (match cssMatch with Some c => c | None => css project end)
    (match jsMatch with Some j => j | None => js project end).

(** The projects [importCssFileLocal] and [importJsFileLocal] save. *)
Definition importCss (txt : string) (project : HistoryState) : HistoryState :=
  mkHistoryState (html project) txt (js project).

Definition importJs (txt : string) (project : HistoryState) : HistoryState :=
  mkHistoryState (html project) (css project) txt.

End App.
(** * Properties *)

(** ** History engine *)

Section HistoryFacts.

Lemma HistoryState_eqb_eq (a b : HistoryState) :
  HistoryState_eqb a b = true <-> a = b.
Proof.
  unfold HistoryState_eqb. destruct a as [h1 c1 j1], b as [h2 c2 j2]; simpl.
  rewrite !andb_true_iff, !String.eqb_eq. split.
  - intros [[-> ->] ->]. reflexivity.
  - intros E. injection E as -> -> ->. auto.
Qed.

Lemma undoStack_flushOnChange b s : undoStack (flushOnChange b s) = undoStack s.
Proof. unfold flushOnChange. destruct b; reflexivity. Qed.

Lemma redoStack_flushOnChange b s : redoStack (flushOnChange b s) = redoStack s.
Proof. unfold flushOnChange. destruct b; reflexivity. Qed.

Lemma undoStack_apply h s : undoStack (applyHistoryState h s) = undoStack s.
Proof. reflexivity. Qed.

Lemma redoStack_apply h s : redoStack (applyHistoryState h s) = redoStack s.
Proof. reflexivity. Qed.

(** What [undo] does on a stack with a top and an entry under it. *)
Lemma undo_snoc s u prev top :
  undoStack s = u ++ [prev; top] ->
  undo s = applyHistoryState prev
             (set_redoStack (redoStack s ++ [top]) (set_undoStack (u ++ [prev]) s)).
Proof.
  intros E. unfold undo. rewrite E.
  replace (u ++ [prev; top]) with ((u ++ [prev]) ++ [top]) by (rewrite <- app_assoc; reflexivity).
  rewrite length_app, last_snoc, removelast_last. simpl length.
  destruct (length (u ++ [prev]) + 1 <=? 1) eqn:L.
  - apply Nat.leb_le in L. rewrite length_app in L. simpl in L. lia.
  - simpl. rewrite last_snoc. reflexivity.
Qed.

(** What [redo] does on a non-empty redo stack. *)
Lemma redo_snoc s r top :
  redoStack s = r ++ [top] ->
  redo s = applyHistoryState top
             (set_undoStack (undoStack s ++ [top]) (set_redoStack r s)).
Proof.
  intros E. unfold redo. rewrite E, last_snoc, removelast_last. reflexivity.
Qed.

(** A list of two or more elements ends in two elements. *)
Lemma two_last {A} (l : list A) :
  2 <= length l -> exists u a b, l = u ++ [a; b].
Proof.
  intros H. destruct l as [|b l _] using rev_ind; [simpl in H; lia|].
  destruct l as [|a l _] using rev_ind.
  - simpl in H. lia.
  - exists l, a, b. rewrite <- app_assoc. reflexivity.
Qed.

Lemma length_push h s :
  length (undoStack s) <= HISTORY_LIMIT ->
  length (undoStack (pushHistorySnapshot h false s))
  = Nat.min HISTORY_LIMIT (S (length (undoStack s))).
Proof.
  unfold pushHistorySnapshot, HISTORY_LIMIT. intros H.
  cbn [andb undoStack set_undoStack set_redoStack].
  rewrite length_app. cbn [length].
  destruct (60 <? length (undoStack s) + 1) eqn:L.
  - apply Nat.ltb_lt in L. rewrite length_drop, length_app. cbn [length]. lia.
  - apply Nat.ltb_ge in L. rewrite length_app. cbn [length]. lia.
Qed.

Lemma length_record h b s :
  length (undoStack s) <= HISTORY_LIMIT ->
  length (undoStack (pushHistorySnapshot h b s)) <= HISTORY_LIMIT.
Proof.
  intros H. destruct b.
  - unfold pushHistorySnapshot. simpl.
    destruct (0 <? length (undoStack s)) eqn:L.
    + simpl. rewrite length_insert. exact H.
    + change (length (undoStack (pushHistorySnapshot h false s)) <= HISTORY_LIMIT).
      rewrite length_push by exact H. lia.
  - rewrite length_push by exact H. lia.
Qed.

End HistoryFacts.

Lemma records_bounded ops s :
  length (undoStack s) <= HISTORY_LIMIT ->
  length (undoStack (records ops s)) <= HISTORY_LIMIT.
Proof.
  revert s. induction ops as [|[h b] ops IH]; intros s H; simpl; [exact H|].
  apply IH. apply length_record. exact H.
Qed.

(** After any run of pushes the stack is the last 60 of everything that was
    ever on it, in order. *)
Lemma pushes_window hs s :
  length (undoStack s) <= HISTORY_LIMIT ->
  undoStack (pushes hs s)
  = drop (length (undoStack s ++ hs) - HISTORY_LIMIT) (undoStack s ++ hs).
Proof.
  revert s. induction hs as [|h hs IH]; intros s H.
  - simpl. rewrite app_nil_r.
    replace (length (undoStack s) - HISTORY_LIMIT) with 0 by lia. reflexivity.
  - change (pushes (h :: hs) s) with (pushes hs (pushHistorySnapshot h false s)).
    rewrite IH by (apply length_record; exact H).
    unfold pushHistorySnapshot, HISTORY_LIMIT in *. simpl undoStack.
    replace (undoStack s ++ h :: hs) with ((undoStack s ++ [h]) ++ hs)
      by (rewrite <- app_assoc; reflexivity).
    destruct (60 <? length (undoStack s ++ [h])) eqn:L; [|reflexivity].
    apply Nat.ltb_lt in L. rewrite length_app in L. simpl in L.
    rewrite <- drop_app_le by (rewrite length_app; simpl; lia).
    rewrite drop_drop. f_equal.
    rewrite !length_app, length_drop, !length_app. simpl. lia.
Qed.

(** C1.  On a history whose undo stack has two or more entries, [undo]
    followed by [redo] gives back both stacks as they were and restores the
    snapshot that was on top (as the state variables, as [latestRef] and as
    the last value handed to the sink); on a history with one entry or none,
    [undo] changes nothing at all. *)
Theorem undo_redo_inverse (s : Session) :
  (2 <= length (undoStack s) ->
   exists top,
     last (undoStack s) = Some top /\
     undoStack (redo (undo s)) = undoStack s /\
     redoStack (redo (undo s)) = redoStack s /\
     bufs (redo (undo s)) = top /\
     latestRef (redo (undo s)) = top /\
     last (delivered (redo (undo s))) = Some top) /\
  (length (undoStack s) <= 1 -> undo s = s).
Proof.
  split.
  - intros H. destruct (two_last _ H) as (u & prev & top & E).
    exists top. rewrite (undo_snoc s u prev top E).
    erewrite redo_snoc by (rewrite redoStack_apply; reflexivity).
    split.
    { rewrite E. replace (u ++ [prev; top]) with ((u ++ [prev]) ++ [top])
        by (rewrite <- app_assoc; reflexivity). apply last_snoc. }
    split.
    { simpl. rewrite E, <- app_assoc. reflexivity. }
    split; [reflexivity|]. split; [reflexivity|]. split; [reflexivity|].
    simpl. apply last_snoc.
  - intros H. unfold undo. apply Nat.leb_le in H. rewrite H. reflexivity.
Qed.

Lemma undo_redo_inverse_witness :
  (exists top,
     last (undoStack (pushes [snap 1; snap 2] fresh)) = Some top /\
     undoStack (redo (undo (pushes [snap 1; snap 2] fresh)))
     = undoStack (pushes [snap 1; snap 2] fresh) /\
     redoStack (redo (undo (pushes [snap 1; snap 2] fresh)))
     = redoStack (pushes [snap 1; snap 2] fresh) /\
     bufs (redo (undo (pushes [snap 1; snap 2] fresh))) = top /\
     latestRef (redo (undo (pushes [snap 1; snap 2] fresh))) = top /\
     last (delivered (redo (undo (pushes [snap 1; snap 2] fresh)))) = Some top) /\
  undo fresh = fresh.
Proof.
  split.
  - apply (proj1 (undo_redo_inverse (pushes [snap 1; snap 2] fresh))).
    vm_compute. lia.
  - apply (proj2 (undo_redo_inverse fresh)). vm_compute. lia.
Defined.

(** The bound also survives [undo] and [redo]: what [redo] pushes back was
    taken off by [undo], so the two stacks together never exceed the limit. *)
Lemma history_events_bounded (es : list HistoryEvent) (s : Session) :
  length (undoStack s) + length (redoStack s) <= HISTORY_LIMIT ->
  length (undoStack (fold_left historyStep es s))
  + length (redoStack (fold_left historyStep es s)) <= HISTORY_LIMIT.
Proof.
  revert s. induction es as [|e es IH]; intros s H; [exact H|].
  simpl. apply IH. destruct e as [h b| |]; simpl.
  - assert (L := length_record h b s).
    unfold pushHistorySnapshot in *. simpl in *. lia.
  - unfold undo. destruct (length (undoStack s) <=? 1) eqn:L1; [exact H|].
    apply Nat.leb_gt in L1.
    destruct (two_last (undoStack s)) as (u & a & b & E); [lia|].
    rewrite E in *.
    replace (u ++ [a; b]) with ((u ++ [a]) ++ [b]) in * by (rewrite <- app_assoc; reflexivity).
    rewrite last_snoc. cbn [undoStack set_undoStack set_redoStack].
    rewrite removelast_last, last_snoc. simpl.
    rewrite !length_app in *. simpl in *. lia.
  - unfold redo. destruct (redoStack s) as [|x r _] eqn:E using rev_ind; [simpl; rewrite E; exact H|].
    rewrite last_snoc. simpl. rewrite removelast_last.
    rewrite !length_app in *. simpl in *. lia.
Qed.

(** C3.  Whatever [record] calls follow the mount, the undo stack holds at
    most 60 snapshots; a push onto a stack of 60 does not fail but drops the
    oldest entry and appends the new one, leaving 60; and after any run of
    pushes the stack is exactly the last 60 of the snapshots that were on it
    or pushed, in their order. *)
Theorem history_capacity :
  (forall p fs rs t0 ops,
     length (undoStack (records ops (mount p fs rs t0))) <= 60) /\
  (forall s h,
     length (undoStack s) = 60 ->
     undoStack (pushHistorySnapshot h false s) = drop 1 (undoStack s) ++ [h] /\
     length (undoStack (pushHistorySnapshot h false s)) = 60) /\
  (forall s hs,
     length (undoStack s) <= 60 ->
     undoStack (pushes hs s) = drop (length (undoStack s ++ hs) - 60) (undoStack s ++ hs)).
Proof.
  split; [|split].
  - intros. apply records_bounded. unfold HISTORY_LIMIT. simpl. lia.
  - intros s h E.
    assert (P := pushes_window [h] s). unfold HISTORY_LIMIT in P.
    change (pushes [h] s) with (pushHistorySnapshot h false s) in P.
    rewrite P by lia. rewrite length_app, E. simpl length.
    replace (60 + 1 - 60) with 1 by lia.
    rewrite drop_app_le by lia. split; [reflexivity|].
    rewrite length_app, length_drop, E. reflexivity.
  - intros s hs H. apply pushes_window. exact H.
Qed.

Lemma history_capacity_witness :
  (undoStack (pushHistorySnapshot (snap 60) false full)
   = drop 1 (undoStack full) ++ [snap 60] /\
   length (undoStack (pushHistorySnapshot (snap 60) false full)) = 60) /\
  undoStack (pushes [snap 1; snap 2] fresh)
  = drop (length (undoStack fresh ++ [snap 1; snap 2]) - 60)
         (undoStack fresh ++ [snap 1; snap 2]).
Proof.
  split.
  - apply (proj1 (proj2 history_capacity) full (snap 60)). vm_compute. reflexivity.
  - apply (proj2 (proj2 history_capacity) fresh [snap 1; snap 2]). vm_compute. lia.
Defined.

(** ** Propagation channel *)

Lemma delivered_fireValidation env s : delivered (fireValidation env s) = delivered s.
Proof.
  unfold fireValidation. destruct (validationTimer s) as [[d t]|]; [|reflexivity].
  destruct (d <=? now s); reflexivity.
Qed.

Lemma onChangeTimer_fireValidation env s :
  onChangeTimer (fireValidation env s) = onChangeTimer s.
Proof.
  unfold fireValidation. destruct (validationTimer s) as [[d t]|]; [|reflexivity].
  destruct (d <=? now s); reflexivity.
Qed.

Lemma latestRef_fireValidation env s : latestRef (fireValidation env s) = latestRef s.
Proof.
  unfold fireValidation. destruct (validationTimer s) as [[d t]|]; [|reflexivity].
  destruct (d <=? now s); reflexivity.
Qed.

Lemma now_fireValidation env s : now (fireValidation env s) = now s.
Proof.
  unfold fireValidation. destruct (validationTimer s) as [[d t]|]; [|reflexivity].
  destruct (d <=? now s); reflexivity.
Qed.

(** Time passing over an armed delivery: nothing before the deadline, one
    call with the current [latestRef] from the deadline on. *)
Lemma advance_armed env d s deadline :
  onChangeTimer s = Some deadline ->
  (now s + d < deadline ->
   delivered (advance env d s) = delivered s /\
   onChangeTimer (advance env d s) = Some deadline) /\
  (deadline <= now s + d ->
   delivered (advance env d s) = delivered s ++ [latestRef s] /\
   onChangeTimer (advance env d s) = None).
Proof.
  intros E. unfold advance.
  rewrite delivered_fireValidation, onChangeTimer_fireValidation.
  unfold fireOnChange. simpl. rewrite E. split; intros H.
  - apply Nat.leb_gt in H. rewrite H. simpl. auto.
  - apply Nat.leb_le in H. rewrite H. simpl. auto.
Qed.

Lemma advance_keeps env d s :
  latestRef (advance env d s) = latestRef s /\ now (advance env d s) = now s + d.
Proof.
  unfold advance. rewrite latestRef_fireValidation, now_fireValidation.
  unfold fireOnChange. simpl.
  destruct (onChangeTimer s) as [dl|]; [|auto].
  destruct (dl <=? now s + d); auto.
Qed.

(** C4.  Two deliveries are scheduled, the first while [latestRef] holds
    [A], the second, less than 400 time units later, while it holds [B];
    once 400 time units or more have passed after the second, the sink has
    been called exactly once more than before, with [B]; no call carried
    [A], and nothing is pending. *)
Theorem schedule_twice_delivers_last env (s : Session) (A B : HistoryState) (d1 d2 : nat) :
  d1 < 400 ->
  400 <= d2 ->
  let s1 := flushOnChange false (set_latestRef A s) in
  let s2 := advance env d1 s1 in
  let s3 := flushOnChange false (set_latestRef B s2) in
  let s4 := advance env d2 s3 in
  delivered s4 = delivered s ++ [B] /\ onChangeTimer s4 = None.
Proof.
  intros H1 H2 s1 s2 s3 s4.
  assert (T1 : onChangeTimer s1 = Some (now s + 400)) by reflexivity.
  destruct (proj1 (advance_armed env d1 s1 _ T1)) as [D2 _].
  { change (now s1) with (now s). lia. }
  destruct (advance_keeps env d1 s1) as [_ N2]. change (now s1) with (now s) in N2.
  fold s2 in D2, N2.
  assert (T3 : onChangeTimer s3 = Some (now s2 + 400)) by reflexivity.
  destruct (proj2 (advance_armed env d2 s3 _ T3)) as [D4 T4].
  { change (now s3) with (now s2). lia. }
  fold s4 in D4, T4. split; [|exact T4].
  rewrite D4. change (delivered s3) with (delivered s2).
  change (latestRef s3) with B. rewrite D2. reflexivity.
Qed.

Lemma schedule_twice_delivers_last_witness :
  let s1 := flushOnChange false (set_latestRef (snap 1) fresh) in
  let s2 := advance quiet 399 s1 in
  let s3 := flushOnChange false (set_latestRef (snap 2) s2) in
  let s4 := advance quiet 400 s3 in
  delivered s4 = delivered fresh ++ [snap 2] /\ onChangeTimer s4 = None.
Proof.
  apply (schedule_twice_delivers_last quiet fresh (snap 1) (snap 2) 399 400); lia.
Defined.

(** ** Typing and the history *)

Lemma advance_history env d s :
  undoStack (advance env d s) = undoStack s /\
  redoStack (advance env d s) = redoStack s /\
  isComposing (advance env d s) = isComposing s.
Proof.
  unfold advance, fireValidation, fireOnChange. simpl.
  destruct (onChangeTimer s) as [dl|]; simpl.
  - destruct (dl <=? now s + d); simpl;
      destruct (validationTimer s) as [[v t]|]; simpl; auto;
      destruct (v <=? now s + d); simpl; auto.
  - destruct (validationTimer s) as [[v t]|]; simpl; auto;
      destruct (v <=? now s + d); simpl; auto.
Qed.

Lemma commit_history next s :
  undoStack (commit next s) = undoStack s /\
  isComposing (commit next s) = isComposing s.
Proof. unfold commit. destruct (HistoryState_eqb next (bufs s)); auto. Qed.

(** A keystroke outside a composition records a snapshot at once: the state
    variables of the render the handler ran in. *)
Lemma onTextareaChange_history tab v s :
  isComposing s = false ->
  undoStack (onTextareaChange tab v s)
  = undoStack (pushHistorySnapshot (bufs s) false s) /\
  isComposing (onTextareaChange tab v s) = false.
Proof.
  intros C. unfold onTextareaChange.
  destruct (commit_history (setBuf tab v (bufs s))
              (if isComposing (set_latestRef (setBuf tab v (latestRef s)) s)
               then set_latestRef (setBuf tab v (latestRef s)) s
               else scheduleChangeAndValidate (Some tab)
                      (set_latestRef (setBuf tab v (latestRef s)) s))) as [U I].
  rewrite U, I. simpl. rewrite C. simpl. auto.
Qed.

(** A keystroke during a composition records nothing. *)
Lemma onTextareaChange_composing tab v s :
  isComposing s = true ->
  undoStack (onTextareaChange tab v s) = undoStack s /\
  redoStack (onTextareaChange tab v s) = redoStack s.
Proof.
  intros C. unfold onTextareaChange, commit. simpl. rewrite C. simpl.
  destruct (HistoryState_eqb (setBuf tab v (bufs s)) (bufs s)); simpl; auto.
Qed.

Lemma typeBurst_length env tab keys s :
  isComposing s = false ->
  length (undoStack s) <= 60 ->
  length (undoStack (typeBurst env tab keys s))
  = Nat.min 60 (length (undoStack s) + length keys) /\
  isComposing (typeBurst env tab keys s) = false.
Proof.
  revert s. induction keys as [|[gap v] keys IH]; intros s C H.
  - unfold typeBurst. cbn [fold_left length]. split; [lia|exact C].
  - change (typeBurst env tab ((gap, v) :: keys) s)
      with (typeBurst env tab keys (onTextareaChange tab v (advance env gap s))).
    destruct (advance_history env gap s) as (U & _ & I).
    destruct (onTextareaChange_history tab v (advance env gap s)) as [U' I'];
      [congruence|].
    assert (L : length (undoStack (onTextareaChange tab v (advance env gap s)))
                = Nat.min 60 (S (length (undoStack s)))).
    { rewrite U'. rewrite (length_push _ (advance env gap s)); rewrite U; [reflexivity|exact H]. }
    destruct (IH _ I') as [R C']; [lia|].
    split; [|exact C']. rewrite R, L. cbn [length]. lia.
Qed.

(** C2, as the code has it.  Outside a composition every keystroke records
    an undo entry at once: a burst of [n] keystrokes adds [n] entries (the
    stack being cut to its 60 newest), however short the gaps between them,
    and the pause after the burst adds none. *)
Theorem burst_records_every_keystroke env tab (keys : list (nat * string)) (pause : nat)
    (s : Session) :
  isComposing s = false ->
  length (undoStack s) <= 60 ->
  length (undoStack (typeBurst env tab keys s))
  = Nat.min 60 (length (undoStack s) + length keys) /\
  undoStack (advance env pause (typeBurst env tab keys s))
  = undoStack (typeBurst env tab keys s).
Proof.
  intros C H. split.
  - apply typeBurst_length; assumption.
  - apply advance_history.
Qed.

Lemma burst_records_every_keystroke_witness :
  length (undoStack (typeBurst quiet TabHtml [(0, "a"); (100, "ab"); (100, "abc")] fresh))
  = Nat.min 60 (length (undoStack fresh) + 3) /\
  undoStack (advance quiet 1000
               (typeBurst quiet TabHtml [(0, "a"); (100, "ab"); (100, "abc")] fresh))
  = undoStack (typeBurst quiet TabHtml [(0, "a"); (100, "ab"); (100, "abc")] fresh).
Proof.
  apply (burst_records_every_keystroke quiet TabHtml
           [(0, "a"); (100, "ab"); (100, "abc")] 1000 fresh).
  - reflexivity.
  - vm_compute. lia.
Defined.

(** Three keystrokes 100 time units apart and a pause of 1000: the undo stack
    has grown by three entries, not by one. *)
Lemma burst_does_not_collapse :
  ~ collapsesToOneEntry quiet TabHtml [(0, "a"); (100, "ab"); (100, "abc")] 1000 fresh.
Proof. unfold collapsesToOneEntry. vm_compute. discriminate. Qed.

(** What a keystroke outside a composition leaves in the channel. *)
Lemma onTextareaChange_channel tab v s :
  isComposing s = false ->
  let s' := onTextareaChange tab v s in
  onChangeTimer s' = Some (now s + 400) /\
  delivered s' = delivered s /\
  latestRef s' = setBuf tab v (bufs s) /\
  bufs s' = setBuf tab v (bufs s) /\
  now s' = now s /\
  isComposing s' = false.
Proof.
  intros C s'. subst s'. unfold onTextareaChange. simpl. rewrite C.
  unfold commit. simpl.
  destruct (HistoryState_eqb (setBuf tab v (bufs s)) (bufs s)) eqn:E; simpl.
  - apply HistoryState_eqb_eq in E. rewrite E. auto 10.
  - auto 10.
Qed.

Lemma advance_bufs env d s : bufs (advance env d s) = bufs s.
Proof.
  unfold advance, fireValidation, fireOnChange. simpl.
  destruct (onChangeTimer s) as [dl|]; simpl.
  - destruct (dl <=? now s + d); simpl;
      destruct (validationTimer s) as [[v t]|]; simpl; auto;
      destruct (v <=? now s + d); simpl; auto.
  - destruct (validationTimer s) as [[v t]|]; simpl; auto;
      destruct (v <=? now s + d); simpl; auto.
Qed.

Lemma setBuf_setBuf tab a b h : setBuf tab b (setBuf tab a h) = setBuf tab b h.
Proof. destruct tab; reflexivity. Qed.

(** The debounce through the editor: two keystrokes less than 400 time units
    apart and then a pause; the sink is called once, with the text after the
    second keystroke. *)
Lemma typing_twice_delivers_last env tab (va vb : string) (d1 d2 : nat) (s : Session) :
  isComposing s = false ->
  d1 < 400 ->
  400 <= d2 ->
  delivered (advance env d2 (onTextareaChange tab vb
               (advance env d1 (onTextareaChange tab va s))))
  = delivered s ++ [setBuf tab vb (bufs s)].
Proof.
  intros C H1 H2.
  destruct (onTextareaChange_channel tab va s C) as (T1 & D1 & _ & B1 & N1 & C1).
  set (s1 := onTextareaChange tab va s) in *.
  destruct (proj1 (advance_armed env d1 s1 _ T1)) as [D2 _]; [lia|].
  destruct (advance_keeps env d1 s1) as [_ N2].
  destruct (advance_history env d1 s1) as (_ & _ & C2).
  assert (B2 := advance_bufs env d1 s1).
  set (s2 := advance env d1 s1) in *.
  destruct (onTextareaChange_channel tab vb s2) as (T3 & D3 & L3 & _ & N3 & _);
    [congruence|].
  set (s3 := onTextareaChange tab vb s2) in *.
  destruct (proj2 (advance_armed env d2 s3 _ T3)) as [D4 _]; [lia|].
  rewrite D4, D3, D2, D1, L3, B2, B1, setBuf_setBuf. reflexivity.
Qed.

(** ** The style validator's case warning *)

Section UpperWordFacts.
Import UpperWord.

Lemma upper_is_word c : JS.isUpper c = true -> JS.isWordChar c = true.
Proof. unfold JS.isWordChar. intros ->. reflexivity. Qed.

Lemma wordAt_split (l r : list ascii) :
  wordAt (l ++ r) (length l) = headIsWord r.
Proof.
  unfold wordAt, headIsWord.
  rewrite nth_error_app2 by lia. rewrite Nat.sub_diag.
  destruct r; reflexivity.
Qed.

(** [\b] at the cut between [l] and [r]. *)
Lemma boundary_split (l r : list ascii) :
  boundary (l ++ r) (length l) = xorb (lastIsWord l) (headIsWord r).
Proof.
  unfold boundary. rewrite wordAt_split. f_equal.
  destruct l as [|c l _] using rev_ind; [reflexivity|].
  rewrite length_app. simpl. rewrite Nat.add_1_r.
  unfold lastIsWord. rewrite last_snoc.
  rewrite <- app_assoc. simpl.
  change (l ++ c :: r) with (l ++ [c] ++ r).
  rewrite (wordAt_split l ([c] ++ r)). reflexivity.
Qed.

Lemma upperRun_app (w post : list ascii) :
  Forall (fun c => JS.isUpper c = true) w ->
  length w <= upperRun (w ++ post).
Proof.
  induction 1 as [|c w Hc _ IH]; simpl; [lia|]. rewrite Hc. lia.
Qed.

Lemma upperRun_take (n : nat) (l : list ascii) :
  n <= upperRun l ->
  length (take n l) = n /\ Forall (fun c => JS.isUpper c = true) (take n l).
Proof.
  revert l. induction n as [|n IH]; intros l H.
  - simpl. split; [reflexivity|constructor].
  - destruct l as [|c l]; simpl in H; [lia|].
    destruct (JS.isUpper c) eqn:U; [|lia].
    destruct (IH l) as [L F]; [lia|]. simpl. split; [lia|].
    constructor; assumption.
Qed.

Lemma lastIsWord_upper (pre w : list ascii) :
  w <> [] -> Forall (fun c => JS.isUpper c = true) w -> lastIsWord (pre ++ w) = true.
Proof.
  intros N F. destruct w as [|c w _] using rev_ind; [congruence|].
  unfold lastIsWord. rewrite app_assoc, last_snoc.
  apply upper_is_word. rewrite Forall_app in F. destruct F as [_ F].
  inversion F; assumption.
Qed.

Lemma headIsWord_upper (w post : list ascii) :
  w <> [] -> Forall (fun c => JS.isUpper c = true) w -> headIsWord (w ++ post) = true.
Proof.
  intros N F. destruct w as [|c w]; [congruence|].
  unfold headIsWord. simpl. apply upper_is_word. inversion F; assumption.
Qed.

(** The regular expression matches exactly the texts that contain a whole
    upper-case word. *)
Lemma test_iff (cs : list ascii) : test cs = true <-> UpperWordIn cs.
Proof.
  split.
  - unfold test. rewrite existsb_exists. intros (i & Hi & M).
    apply in_seq in Hi. unfold matchAt in M.
    apply andb_true_iff in M. destruct M as [B1 M].
    rewrite existsb_exists in M. destruct M as (n & Hn & B2).
    rewrite <- in_rev in Hn. apply in_seq in Hn.
    destruct (upperRun_take n (drop i cs)) as [Ln Fn]; [lia|].
    assert (Li : length (take i cs) = i) by (apply length_take_le; lia).
    exists (take i cs), (take n (drop i cs)), (drop n (drop i cs)).
    assert (Nw : take n (drop i cs) <> []).
    { intros E. rewrite E in Ln. simpl in Ln. lia. }
    split; [rewrite (take_drop n), (take_drop i); reflexivity|].
    split; [exact Nw|]. split; [exact Fn|].
    split.
    + assert (B : boundary (take i cs ++ take n (drop i cs) ++ drop n (drop i cs))
                           (length (take i cs)) = true).
      { rewrite (take_drop n), (take_drop i), Li. exact B1. }
      rewrite boundary_split, headIsWord_upper in B by assumption.
      destruct (lastIsWord (take i cs)); [discriminate|reflexivity].
    + assert (B : boundary ((take i cs ++ take n (drop i cs)) ++ drop n (drop i cs))
                           (length (take i cs ++ take n (drop i cs))) = true).
      { rewrite <- app_assoc, (take_drop n), (take_drop i), length_app, Li, Ln.
        exact B2. }
      rewrite boundary_split, lastIsWord_upper in B by assumption.
      destruct (headIsWord (drop n (drop i cs))); [discriminate|reflexivity].
  - intros (pre & w & post & E & Nw & Fw & Hpre & Hpost). subst cs.
    unfold test. rewrite existsb_exists. exists (length pre). split.
    { apply in_seq. rewrite !length_app. lia. }
    unfold matchAt. apply andb_true_iff. split.
    + rewrite boundary_split, Hpre, headIsWord_upper by assumption. reflexivity.
    + rewrite existsb_exists. exists (length w). split.
      * rewrite <- in_rev. apply in_seq. rewrite drop_app_length.
        assert (U := upperRun_app w post Fw).
        destruct w; [congruence|]. simpl in *. lia.
      * rewrite app_assoc, <- length_app, boundary_split.
        rewrite lastIsWord_upper, Hpost by assumption. reflexivity.
Qed.

Lemma caseWarnings_test (str : string) :
  caseWarnings str
  = if test (list_ascii_of_string str) then [(LWarning, caseWarning)] else [].
Proof.
  unfold caseWarnings, validateCSS.
  destruct (braceScan (list_ascii_of_string str) 0) as [open unexpected].
  rewrite !List.filter_app.
  destruct unexpected, (0 <? open)%Z, (test (list_ascii_of_string str)); reflexivity.
Qed.

End UpperWordFacts.

(** C6, as the code has it.  The style validator emits the case warning,
    once, exactly when the text contains a whole word written in upper-case
    letters only: a run of one or more letters [A-Z] with no letter, digit or
    underscore right before or right after it. *)
Theorem case_warning_iff_upper_word (str : string) :
  (UpperWordIn (list_ascii_of_string str) ->
   caseWarnings str = [(LWarning, caseWarning)]) /\
  (~ UpperWordIn (list_ascii_of_string str) -> caseWarnings str = []).
Proof.
  rewrite caseWarnings_test. split; intros H.
  - apply test_iff in H. rewrite H. reflexivity.
  - destruct (UpperWord.test (list_ascii_of_string str)) eqn:T; [|reflexivity].
    exfalso. apply H, test_iff, T.
Qed.

Lemma case_warning_iff_upper_word_witness :
  caseWarnings "color: RED;" = [(LWarning, caseWarning)] /\ caseWarnings "a{b:c}" = [].
Proof.
  split.
  - apply (proj1 (case_warning_iff_upper_word "color: RED;")).
    exists (list_ascii_of_string "color: "), (list_ascii_of_string "RED"),
           (list_ascii_of_string ";").
    split; [reflexivity|]. split; [discriminate|].
    split; [repeat constructor|]. split; reflexivity.
  - apply (proj2 (case_warning_iff_upper_word "a{b:c}")).
    intros H. apply test_iff in H. vm_compute in H. discriminate.
Defined.

(** [BEM__Block] has three upper-case letters in a row and draws no warning;
    [A] has no two in a row and draws one. *)
Lemma case_warning_not_upper_pair :
  ~ warnsOnUpperPair "BEM__Block" /\ ~ warnsOnUpperPair "A".
Proof.
  unfold warnsOnUpperPair. split; intros [H1 H2].
  - vm_compute in H2. specialize (H2 eq_refl). discriminate.
  - vm_compute in H1. specialize (H1 eq_refl). discriminate.
Qed.

(** ** The snippet search *)

Section SortFacts.
Context {A : Type} (key : A -> nat).

Lemma insertSorted_front x l :
  Forall (fun y => key y <= key x) l -> JS.insertSorted (descBy key) x l = x :: l.
Proof.
  intros F. destruct l as [|y l]; [reflexivity|]. simpl.
  inversion F as [|? ? Hy _]; subst.
  destruct (descBy key x y <=? 0)%Z eqn:E; [reflexivity|].
  apply Z.leb_gt in E. unfold descBy in E. lia.
Qed.

Lemma insertSorted_pass x l1 l2 :
  Forall (fun y => key x < key y) l1 ->
  JS.insertSorted (descBy key) x (l1 ++ l2) = l1 ++ JS.insertSorted (descBy key) x l2.
Proof.
  induction 1 as [|y l1 Hy _ IH]; [reflexivity|]. simpl.
  destruct (descBy key x y <=? 0)%Z eqn:E.
  - apply Z.leb_le in E. unfold descBy in E. lia.
  - rewrite IH. reflexivity.
Qed.

Lemma buckets_below n l : Forall (fun y => key y < n) (SearchSpec.buckets key n l).
Proof.
  induction n as [|k IH]; simpl; [constructor|].
  apply Forall_app. split.
  - apply List.Forall_forall. intros y Hy. apply List.filter_In in Hy.
    destruct Hy as [_ Hy]. apply Nat.eqb_eq in Hy. lia.
  - eapply Forall_impl; [exact IH|]. simpl. intros; lia.
Qed.

Lemma buckets_skip n x l :
  n <= key x -> SearchSpec.buckets key n (x :: l) = SearchSpec.buckets key n l.
Proof.
  induction n as [|k IH]; intros H; simpl; [reflexivity|].
  rewrite IH by lia.
  destruct (key x =? k) eqn:E; [apply Nat.eqb_eq in E; lia|reflexivity].
Qed.

Lemma insertSorted_buckets n x l :
  key x < n ->
  JS.insertSorted (descBy key) x (SearchSpec.buckets key n l) = SearchSpec.buckets key n (x :: l).
Proof.
  induction n as [|k IH]; intros H; [lia|]. simpl.
  destruct (key x =? k) eqn:E.
  - apply Nat.eqb_eq in E. rewrite buckets_skip by lia.
    apply insertSorted_front. apply Forall_app. split.
    + apply List.Forall_forall. intros y Hy. apply List.filter_In in Hy.
      destruct Hy as [_ Hy]. apply Nat.eqb_eq in Hy. lia.
    + eapply Forall_impl; [apply buckets_below|]. simpl. intros; lia.
  - apply Nat.eqb_neq in E. rewrite insertSorted_pass.
    + rewrite IH by lia. reflexivity.
    + apply List.Forall_forall. intros y Hy. apply List.filter_In in Hy.
      destruct Hy as [_ Hy]. apply Nat.eqb_eq in Hy. lia.
Qed.

(** The stable sort by descending key lists the keys from the highest
    down, each group in the original order. *)
Lemma sort_buckets n l :
  Forall (fun y => key y < n) l ->
  JS.sort (descBy key) l = SearchSpec.buckets key n l.
Proof.
  induction 1 as [|x l Hx _ IH]; simpl.
  - induction n as [|k IHk]; simpl; [reflexivity|]. rewrite <- IHk. reflexivity.
  - rewrite IH. apply insertSorted_buckets. exact Hx.
Qed.

Lemma StronglySorted_append (R : A -> A -> Prop) (l1 l2 : list A) :
  StronglySorted R l1 -> StronglySorted R l2 ->
  (forall a b, In a l1 -> In b l2 -> R a b) ->
  StronglySorted R (l1 ++ l2).
Proof.
  intros S1 S2 H. induction S1 as [|a l1 S1 IH F]; [exact S2|].
  simpl. constructor.
  - apply IH. intros x y Hx Hy. apply H; [right; exact Hx|exact Hy].
  - apply Forall_app. split; [exact F|].
    apply List.Forall_forall. intros y Hy. apply H; [left; reflexivity|exact Hy].
Qed.

Lemma filter_key_sorted k l :
  StronglySorted (fun a b => key b <= key a) (List.filter (fun x => key x =? k) l).
Proof.
  induction l as [|x l IH]; simpl; [constructor|].
  destruct (key x =? k) eqn:E; [|exact IH].
  constructor; [exact IH|].
  apply List.Forall_forall. intros y Hy. apply List.filter_In in Hy.
  destruct Hy as [_ Hy]. apply Nat.eqb_eq in E, Hy. lia.
Qed.

(** The ranking is in descending order of key. *)
Lemma buckets_sorted n l :
  StronglySorted (fun a b => key b <= key a) (SearchSpec.buckets key n l).
Proof.
  induction n as [|k IH]; simpl; [constructor|].
  apply StronglySorted_append; [apply filter_key_sorted|exact IH|].
  intros a b Ha Hb. apply List.filter_In in Ha. destruct Ha as [_ Ha].
  apply Nat.eqb_eq in Ha.
  assert (B := buckets_below k l). rewrite List.Forall_forall in B.
  specialize (B b Hb). lia.
Qed.

Lemma filter_none (p : A -> bool) l :
  Forall (fun x => p x = false) l -> List.filter p l = [].
Proof. induction 1 as [|x l Hx _ IH]; simpl; [reflexivity|]. rewrite Hx. exact IH. Qed.

(** The ranking keeps the entries of one key in the order of the list. *)
Lemma buckets_stable n k l :
  k < n ->
  List.filter (fun x => key x =? k) (SearchSpec.buckets key n l)
  = List.filter (fun x => key x =? k) l.
Proof.
  induction n as [|m IH]; intros H; [lia|]. simpl. rewrite List.filter_app.
  destruct (Nat.eq_dec k m) as [->|N].
  - rewrite (filter_none _ (SearchSpec.buckets key m l)).
    + rewrite app_nil_r. clear. induction l as [|x l IHl]; simpl; [reflexivity|].
      destruct (key x =? m) eqn:E; simpl; rewrite ?E, IHl; reflexivity.
    + eapply Forall_impl; [apply buckets_below|]. simpl. intros x Hx.
      apply Nat.eqb_neq. lia.
  - rewrite filter_none.
    + simpl. apply IH. lia.
    + apply List.Forall_forall. intros x Hx. apply List.filter_In in Hx.
      destruct Hx as [_ Hx]. apply Nat.eqb_eq in Hx. apply Nat.eqb_neq. lia.
Qed.


End SortFacts.

Section SearchFacts.

Lemma filter_map {A B} (p : B -> bool) (f : A -> B) (l : list A) :
  List.filter p (map f l) = map f (List.filter (fun x => p (f x)) l).
Proof.
  induction l as [|x l IH]; simpl; [reflexivity|].
  destruct (p (f x)); simpl; rewrite IH; reflexivity.
Qed.

(** Ranking the scored pairs and forgetting the scores is ranking the
    entries by their score. *)
Lemma buckets_scored {A} (sc : A -> nat) n (l : list A) :
  map fst (SearchSpec.buckets snd n (map (fun x => (x, sc x)) l))
  = SearchSpec.buckets sc n l.
Proof.
  induction n as [|k IH]; simpl; [reflexivity|].
  rewrite map_app, IH, filter_map, map_map. simpl. rewrite map_id. reflexivity.
Qed.

Lemma scoreOf_bound q k fs x : scoreOf q k fs x < S SearchSpec.maxScore.
Proof.
  unfold scoreOf, SearchSpec.maxScore.
  destruct (SnipKind_eqb (kind x) (kindOfTab k)), (SnipKind_eqb (kind x) KAll),
    (isFav fs x), (String.eqb q ""),
    (JS.startsWith (JS.toLowerCase (label x)) q), (JS.includes (hay x) q); lia.
Qed.

(** The [Set] of [dedupe] holds the bodies of the entries passed so far. *)
Lemma dedupe_keepFirst (seen : gset string) (prev l : list Snip) :
  (forall b, b ∈ seen <-> existsb (fun y => String.eqb (snippet y) b) prev = true) ->
  dedupe seen l = SearchSpec.keepFirst prev l.
Proof.
  revert seen prev. induction l as [|x l IH]; intros seen prev I; [reflexivity|].
  simpl. destruct (existsb (fun y => String.eqb (snippet y) (snippet x)) prev) eqn:E.
  - rewrite bool_decide_eq_true_2 by (apply I; exact E).
    apply IH. intros b. rewrite existsb_app, orb_true_iff, <- I. simpl.
    rewrite orb_false_r, String.eqb_eq. split; [auto|].
    intros [H| <-]; [exact H|]. apply I. exact E.
  - rewrite bool_decide_eq_false_2.
    + f_equal. apply IH. intros b.
      rewrite existsb_app, orb_true_iff, <- I. simpl.
      rewrite orb_false_r, String.eqb_eq, elem_of_union, elem_of_singleton.
      intuition congruence.
    + intros H. apply I in H. congruence.
Qed.

(** What [keepFirst] keeps has pairwise different bodies, none of them the
    body of an entry already passed. *)
Lemma keepFirst_fresh (prev l : list Snip) :
  NoDup (map snippet (SearchSpec.keepFirst prev l)) /\
  forall x, In x (SearchSpec.keepFirst prev l) ->
            existsb (fun y => String.eqb (snippet y) (snippet x)) prev = false.
Proof.
  revert prev. induction l as [|x l IH]; intros prev.
  - simpl. split; [constructor|contradiction].
  - simpl. destruct (IH (prev ++ [x])) as [N F].
    assert (G : forall z, In z (SearchSpec.keepFirst (prev ++ [x]) l) ->
                existsb (fun y => String.eqb (snippet y) (snippet z)) prev = false
                /\ snippet x <> snippet z).
    { intros z Hz. specialize (F z Hz). rewrite existsb_app in F.
      apply orb_false_iff in F. destruct F as [F1 F2]. split; [exact F1|].
      simpl in F2. rewrite orb_false_r in F2. apply String.eqb_neq. exact F2. }
    destruct (existsb (fun y => String.eqb (snippet y) (snippet x)) prev) eqn:E.
    + split; [exact N|]. intros z Hz. apply G. exact Hz.
    + split.
      * simpl. constructor; [|exact N]. rewrite list_elem_of_In, in_map_iff.
        intros (z & Ez & Hz). apply (G z Hz). symmetry. exact Ez.
      * intros z [<-|Hz]; [exact E|]. apply G. exact Hz.
Qed.


End SearchFacts.

(** C5, as the code has it.  For every query, active tab and list of
    favourites, [getFilteredSnippets] returns the entries of the pool
    (catalogue, then favourites) that pass the filter, in descending order of
    score with ties in pool order, and without an entry whose body an earlier
    one has, where the score is 50 for the kind of the active tab, plus 30 for
    the kind [all], plus 10 for a favourited body and, for a non-empty query,
    plus 20 when the lower-cased label starts with the query and plus 10 when
    the lower-cased text (label, description, body and tags joined by spaces)
    contains it, the query being trimmed and lower-cased first. *)
Theorem search_refines_spec (s : Session) :
  getFilteredSnippets s = SearchSpec.searchFolded (query s) (activeTab s) (favs s).
Proof.
  unfold getFilteredSnippets, SearchSpec.searchFolded, SearchSpec.search.
  rewrite (dedupe_keepFirst ∅ [])
    by (intros b; simpl; rewrite elem_of_empty; intuition discriminate).
  f_equal.
  rewrite filter_map.
  unfold byScoreDesc. rewrite (sort_buckets snd (S SearchSpec.maxScore)).
  - rewrite buckets_scored. reflexivity.
  - apply List.Forall_forall. intros y Hy. apply in_map_iff in Hy.
    destruct Hy as (x & <- & _). simpl. apply scoreOf_bound.
Qed.

(** The query [flex] on the markup tab: the code ranks the two [Flex ...]
    style snippets (score 30: label prefix and text) before the starter
    scaffold (30, kind [all]); with the label taken as it is they score 10
    and come after it. *)
Lemma search_not_as_claimed :
  getFilteredSnippets (set_query "flex" fresh)
  <> SearchSpec.searchClaimed (query (set_query "flex" fresh))
       (activeTab (set_query "flex" fresh)) (favs (set_query "flex" fresh)).
Proof.
  intros E. apply (f_equal (map label)) in E. vm_compute in E. discriminate.
Qed.

(** ** Snippet insertion *)

Lemma favs_commit next s : favs (commit next s) = favs s.
Proof. unfold commit. destruct (HistoryState_eqb next (bufs s)); reflexivity. Qed.

Lemma bufs_commit next s : bufs (commit next s) = next.
Proof.
  unfold commit. destruct (HistoryState_eqb next (bufs s)) eqn:E; [|reflexivity].
  apply HistoryState_eqb_eq in E. congruence.
Qed.

Lemma activeTab_commit next s : activeTab (commit next s) = activeTab s.
Proof. unfold commit. destruct (HistoryState_eqb next (bufs s)); reflexivity. Qed.

(** Insertion never touches the favourites. *)
Lemma favs_insertSnippet dom newId snip meta keepOpen s :
  favs (insertSnippet dom newId snip meta keepOpen s) = favs s.
Proof.
  unfold insertSnippet.
  destruct (match refOfTab dom _ with Some a => Some a | None => _ end);
    [|reflexivity].
  rewrite favs_commit. destruct keepOpen; reflexivity.
Qed.

(** A script snippet inserted from the style tab, in a settled render: the
    tab switches to script, markup and style keep their text, and the script
    text becomes the style text with the snippet spliced into it. *)
Lemma insert_script_from_style (s : Session) (a b : nat) newId (x : Snip) keepOpen :
  activeTab s = TabCss ->
  kind x = KJs ->
  let s' := insertSnippet (domOf s a b) newId (snippet x) (Some x) keepOpen s in
  activeTab s' = TabJs /\
  html (bufs s') = html (bufs s) /\
  css (bufs s') = css (bufs s) /\
  js (bufs s') = splice (css (bufs s)) (snippet x) (Some (a, b)).
Proof.
  intros T K s'. subst s'. unfold insertSnippet, domOf. rewrite T, K. simpl.
  rewrite activeTab_commit, bufs_commit. simpl.
  destruct keepOpen; simpl; auto.
Qed.

(** A snippet inserted on the tab of its own kind, in a settled render: the
    tab stays, and the snippet replaces the selection in the text of that
    tab; the other two texts are untouched. *)
Lemma insert_on_own_tab (s : Session) (a b : nat) newId (x : Snip) keepOpen :
  activeTab s = tabOfKind (kind x) ->
  let s' := insertSnippet (domOf s a b) newId (snippet x) (Some x) keepOpen s in
  activeTab s' = activeTab s /\
  bufs s' = setBuf (activeTab s)
              (splice (getBuf (activeTab s) (bufs s))
                      (normalizeSnippetForBeginners (snippet x) (kind x)) (Some (a, b)))
              (bufs s).
Proof.
  intros T s'. subst s'. unfold insertSnippet, domOf. rewrite T.
  destruct (kind x); simpl; rewrite activeTab_commit, bufs_commit;
    destruct keepOpen; simpl; auto.
Qed.

(** C7.  The style tab is in front, the style text is [a{}] with the caret at
    its end, the script text is [let x;]; a script snippet is inserted.  The
    tab switches to script and markup and style keep their text, but the
    script text is now the style text followed by the snippet: it is not the
    former script text with the snippet spliced in, at whatever selection. *)
Theorem insert_script_from_style_overwrites :
  let s' := insertSnippet (domOf styling 3 3) "id" (snippet callSnippet)
              (Some callSnippet) false styling in
  activeTab s' = TabJs /\
  html (bufs s') = html (bufs styling) /\
  css (bufs s') = css (bufs styling) /\
  js (bufs s') = "a{}foo();" +:+ nl /\
  forall sel, js (bufs s') <> splice (js (bufs styling)) (snippet callSnippet) sel.
Proof.
  cbv zeta. repeat split; try (vm_compute; reflexivity).
  intros sel. change (js (bufs styling)) with "let x;".
  replace (js (bufs _)) with ("a{}foo();" +:+ nl) by (vm_compute; reflexivity).
  destruct sel as [[[|a] b]|]; cbn; discriminate.
Qed.

(** ** Favourites *)

(** Starring keeps the favourites within 30. *)
Lemma toggleFav_capacity newId x s :
  length (favs s) <= 30 -> length (favs (toggleFav newId x s)) <= 30.
Proof.
  intros H. unfold toggleFav, saveFavs. destruct (isFav (favs s) x); simpl.
  - etransitivity; [apply List.filter_length_le|exact H].
  - rewrite length_take. lia.
Qed.

(** The assistant's [Insert] adds its snippet to the favourites whatever
    their number. *)
Lemma assistantInsert_grows dom newId s r :
  assistResult s = Some r ->
  favs (assistantInsert dom newId s) = r :: favs s.
Proof. intros E. unfold assistantInsert. rewrite E. reflexivity. Qed.

(** C8.  Thirty snippets have been starred; the assistant's [Insert] button
    then leaves 31 favourites. *)
Theorem assistant_insert_exceeds_capacity :
  length (favs assisted) = 30 /\
  length (favs (assistantInsert (domOf assisted 3 3) "id" assisted)) = 31.
Proof. vm_compute. split; reflexivity. Qed.

(** ** The question search *)

Section SearchRaceFacts.
Import SearchPanel SearchRace.

Lemma doSearch_starts query p :
  JS.trim query <> "" ->
  doSearch query p
  = set_nextCall (S (nextCall p))
      (set_calls (<[nextCall p := mkCall query AwaitCache]> (calls p))
         (set_loading true p)).
Proof.
  intros H. unfold doSearch.
  destruct (String.eqb (JS.trim query) "") eqn:E; [|reflexivity].
  apply String.eqb_eq in E. contradiction.
Qed.

Lemma resolveCache_miss n query p :
  calls p !! n = Some (mkCall query AwaitCache) ->
  misses p query = true ->
  resolveCache n p = set_calls (<[n := mkCall query AwaitRemote]> (calls p)) p.
Proof.
  intros C M. unfold resolveCache. rewrite C. unfold misses in M.
  destruct (searchCache p !! query) as [row|]; [|reflexivity].
  destruct (clock p - timestamp row <? WEEK)%Z; [discriminate|reflexivity].
Qed.

(** A response that arrives for a call waiting for it is displayed,
    whatever was displayed before and whichever calls started since. *)
Lemma resolveRemote_results n query found p :
  calls p !! n = Some (mkCall query AwaitRemote) ->
  results (resolveRemote n (Some found) p) = found /\
  calls (resolveRemote n (Some found) p)
  = <[n := mkCall query (AwaitCachePut found (clock p))]> (calls p).
Proof. intros C. unfold resolveRemote. rewrite C. split; reflexivity. Qed.

(** Call numbers are given out in increasing order and never reused. *)
Lemma numbered_doSearch query p : numbered p -> numbered (doSearch query p).
Proof.
  intros H. unfold doSearch. destruct (String.eqb (JS.trim query) ""); [exact H|].
  intros n c. cbn. intros L. apply lookup_insert_Some in L.
  destruct L as [[<- _]|[_ L]]; [lia|]. apply H in L. lia.
Qed.

Lemma numbered_finish n p : numbered p -> numbered (finish n p).
Proof.
  intros H m c. cbn. intros L. apply lookup_delete_Some in L.
  destruct L as [_ L]. exact (H m c L).
Qed.

Lemma numbered_restage n c0 c p :
  calls p !! n = Some c0 -> numbered p ->
  numbered (set_calls (<[n := c]> (calls p)) p).
Proof.
  intros C H m c'. cbn. intros L. apply lookup_insert_Some in L.
  destruct L as [[<- _]|[_ L]]; [exact (H n c0 C)|exact (H m c' L)].
Qed.

Lemma numbered_step p e : numbered p -> numbered (step p e).
Proof.
  intros H. destruct e as [v| |d|n|n|n reply|n|i|n reply]; cbn [step].
  - exact H.
  - apply numbered_doSearch, H.
  - unfold advance. cbn. destruct (debounceRef p) as [[dl v]|]; [|exact H].
    destruct (dl <=? clock p + d)%Z; [|exact H].
    apply numbered_doSearch. exact H.
  - unfold resolveCache. destruct (calls p !! n) as [[query [| |found stamp]]|] eqn:C;
      try exact H.
    destruct (searchCache p !! query) as [row|].
    + destruct (clock p - timestamp row <? WEEK)%Z.
      * apply numbered_finish. exact H.
      * eapply numbered_restage; eauto.
    + eapply numbered_restage; eauto.
  - unfold rejectCache. destruct (calls p !! n) as [[query [| |found stamp]]|];
      try exact H; apply numbered_finish, H.
  - unfold resolveRemote. destruct (calls p !! n) as [[query [| |found stamp]]|] eqn:C;
      try exact H.
    destruct reply as [found|]; [|apply numbered_finish, H].
    cbn. exact (numbered_restage n _ _ p C H).
  - unfold resolveCachePut. destruct (calls p !! n) as [[query [| |found stamp]]|];
      try exact H.
    apply numbered_finish. exact H.
  - destruct (results p !! i) as [item|]; [|exact H].
    intros m c L. cbn in *. apply H in L. lia.
  - unfold resolveDetail. destruct (opening p !! n); [|exact H].
    destruct reply; exact H.
Qed.

Lemma numbered_run es p : numbered p -> numbered (run p es).
Proof.
  revert p. induction es as [|e es IH]; intros p H; [exact H|].
  apply IH, numbered_step, H.
Qed.

Lemma numbered_initial t0 store : numbered (initial t0 store).
Proof. intros n c L. cbn in L. rewrite lookup_empty in L. discriminate. Qed.

(** A call that waits for the response of the network keeps waiting,
    whatever else happens: typing, clicks, time, other calls starting and
    being answered. *)
Lemma step_keeps_waiting a query p e :
  numbered p ->
  calls p !! a = Some (mkCall query AwaitRemote) ->
  respondsTo a e = false ->
  calls (step p e) !! a = Some (mkCall query AwaitRemote).
Proof.
  intros N C R.
  assert (D : forall v p', calls p' = calls p -> nextCall p' = nextCall p ->
              calls (doSearch v p') !! a = Some (mkCall query AwaitRemote)).
  { intros v p' E1 E2. unfold doSearch.
    destruct (String.eqb (JS.trim v) ""); cbn; rewrite ?E1, ?E2; [exact C|].
    rewrite lookup_insert_ne; [exact C|]. apply N in C. lia. }
  assert (K : forall n, calls p !! n <> Some (mkCall query AwaitRemote) -> n <> a)
    by (intros n Hn ->; contradiction).
  destruct e as [v| |d|n|n|n reply|n|i|n reply]; cbn [step].
  - exact C.
  - apply D; reflexivity.
  - unfold advance. cbn. destruct (debounceRef p) as [[dl v]|]; [|exact C].
    destruct (dl <=? clock p + d)%Z; [|exact C].
    apply D; reflexivity.
  - unfold resolveCache. destruct (calls p !! n) as [[qn [| |found stamp]]|] eqn:Cn;
      try exact C.
    assert (n <> a) by (apply K; rewrite Cn; congruence).
    destruct (searchCache p !! qn) as [row|].
    + destruct (clock p - timestamp row <? WEEK)%Z; cbn.
      * rewrite lookup_delete_ne by assumption. exact C.
      * rewrite lookup_insert_ne by assumption. exact C.
    + cbn. rewrite lookup_insert_ne by assumption. exact C.
  - unfold rejectCache. destruct (calls p !! n) as [[qn [| |found stamp]]|] eqn:Cn;
      try exact C;
      (assert (n <> a) by (apply K; rewrite Cn; congruence));
      cbn; rewrite lookup_delete_ne by assumption; exact C.
  - cbn in R. apply Nat.eqb_neq in R.
    unfold resolveRemote. destruct (calls p !! n) as [[qn [| |found stamp]]|];
      try exact C.
    destruct reply as [found|]; cbn.
    + rewrite lookup_insert_ne by assumption. exact C.
    + rewrite lookup_delete_ne by assumption. exact C.
  - unfold resolveCachePut. destruct (calls p !! n) as [[qn [| |found stamp]]|] eqn:Cn;
      try exact C.
    assert (n <> a) by (apply K; rewrite Cn; congruence).
    cbn. rewrite lookup_delete_ne by assumption. exact C.
  - destruct (results p !! i) as [item|]; exact C.
  - unfold resolveDetail. destruct (opening p !! n); [|exact C].
    destruct reply; exact C.
Qed.

Lemma run_keeps_waiting a query es p :
  numbered p ->
  calls p !! a = Some (mkCall query AwaitRemote) ->
  Forall (fun e => respondsTo a e = false) es ->
  calls (run p es) !! a = Some (mkCall query AwaitRemote).
Proof.
  revert p. induction es as [|e es IH]; intros p N C F; [exact C|].
  inversion F as [|? ? R F']; subst.
  apply IH; [apply numbered_step, N|apply step_keeps_waiting; assumption|exact F'].
Qed.

(** An event that rests leaves the displayed items as they are. *)
Lemma rests_results p e : rests p e = true -> results (step p e) = results p.
Proof.
  destruct e as [v| |d|n|n|n reply|n|i|n reply]; cbn [rests step]; intros R;
    try discriminate.
  - reflexivity.
  - unfold advance. cbn. destruct (debounceRef p) as [[dl v]|]; [|reflexivity].
    destruct (dl <=? clock p + d)%Z; [discriminate|reflexivity].
  - unfold rejectCache. destruct (calls p !! n) as [[qn [| |found stamp]]|]; reflexivity.
  - destruct reply; [discriminate|].
    unfold resolveRemote. destruct (calls p !! n) as [[qn [| |found stamp]]|]; reflexivity.
  - unfold resolveCachePut. destruct (calls p !! n) as [[qn [| |found stamp]]|]; reflexivity.
  - destruct (results p !! i); reflexivity.
  - unfold resolveDetail. destruct (opening p !! n); [|reflexivity].
    destruct reply; reflexivity.
Qed.

Lemma calm_results es p : calm p es = true -> results (run p es) = results p.
Proof.
  revert p. induction es as [|e es IH]; intros p H; [reflexivity|].
  cbn [calm] in H. apply andb_true_iff in H. destruct H as [R H].
  cbn [run fold_left]. change (results (run (step p e) es) = results p).
  rewrite (IH _ H). apply rests_results, R.
Qed.

Lemma run_app p es1 es2 : run p (es1 ++ es2) = run (run p es1) es2.
Proof. apply fold_left_app. Qed.

End SearchRaceFacts.

(** C9, as the code has it.  Take any run of the panel from its mount in
    which the response [rNew] of the network to call [b] of [doSearch], for
    [newer], arrives before the response [rOld] to call [a], for [older],
    which started earlier.  Both calls have missed the cache: each waits for
    the network when its response arrives, call [a] since the first [k]
    events of the run at least.  Anything may happen [before] the response
    to [b], and anything but a response to [a] [between] the two and since
    [a] waits: typing, clicks, time passing, other calls starting, being
    answered or failing, writes to the store completing.  [after] the
    response to [a] come only events that start no search and bring no
    items.  Then the panel displayed the newer results when the response to
    [b] arrived, and at the end it displays the results of the older request:
    the response that arrives last is the one displayed. *)
Theorem last_response_wins (t0 : Z) (store : gmap string SearchPanel.CacheRow)
    (before between after : list SearchPanel.Event) (k a b : nat)
    (older newer : string) (rOld rNew : list SearchPanel.SEQuestion) :
  a < b ->
  SearchPanel.calls (SearchPanel.run (SearchPanel.initial t0 store) before) !! b
  = Some (SearchPanel.mkCall newer SearchPanel.AwaitRemote) ->
  SearchPanel.calls
    (SearchPanel.run (SearchPanel.initial t0 store)
       (take k (SearchRace.newerFirst before b rNew between))) !! a
  = Some (SearchPanel.mkCall older SearchPanel.AwaitRemote) ->
  Forall (fun e => SearchRace.respondsTo a e = false)
         (drop k (SearchRace.newerFirst before b rNew between)) ->
  SearchRace.calm
    (SearchPanel.run (SearchPanel.initial t0 store)
       (SearchRace.race before b rNew between a rOld)) after = true ->
  SearchPanel.results
    (SearchPanel.run (SearchPanel.initial t0 store)
       (before ++ [SearchPanel.RemoteAnswered b (Some rNew)])) = rNew /\
  SearchPanel.results
    (SearchPanel.run (SearchPanel.initial t0 store)
       (SearchRace.race before b rNew between a rOld ++ after)) = rOld.
Proof.
  intros _ Cb Ca F Q. split.
  - rewrite run_app. cbn [SearchPanel.run fold_left SearchPanel.step].
    apply (resolveRemote_results b newer rNew _ Cb).
  - rewrite run_app, (calm_results _ _ Q). unfold SearchRace.race.
    rewrite run_app. cbn [SearchPanel.run fold_left SearchPanel.step].
    change (fold_left SearchPanel.step ?es ?x) with (SearchPanel.run x es).
    eapply (resolveRemote_results a older rOld).
    rewrite <- (take_drop k (SearchRace.newerFirst before b rNew between)), run_app.
    apply run_keeps_waiting; [|exact Ca|exact F].
    apply numbered_run, numbered_initial.
Qed.

(** The search for [flex] is typed and starts after the pause, then the
    search for [flex center]; both miss the cache, the older first, which
    waits for the network from the fifth event on.  The response to the
    newer comes first and its row is stored; the user types on; the response
    to the older comes 30 time units later. *)
Lemma last_response_wins_witness :
  SearchPanel.results
    (SearchPanel.run (SearchPanel.initial 0 ∅)
       ([SearchPanel.Typed "flex"; SearchPanel.Passed 500;
         SearchPanel.Typed "flex center"; SearchPanel.Passed 500;
         SearchPanel.CacheAnswered 0; SearchPanel.CacheAnswered 1]
        ++ [SearchPanel.RemoteAnswered 1
              (Some [SearchRace.question 2 "How to center with flex"])]))
  = [SearchRace.question 2 "How to center with flex"] /\
  SearchPanel.results
    (SearchPanel.run (SearchPanel.initial 0 ∅)
       (SearchRace.race
          [SearchPanel.Typed "flex"; SearchPanel.Passed 500;
           SearchPanel.Typed "flex center"; SearchPanel.Passed 500;
           SearchPanel.CacheAnswered 0; SearchPanel.CacheAnswered 1]
          1 [SearchRace.question 2 "How to center with flex"]
          [SearchPanel.CachePutDone 1; SearchPanel.Typed "flex center d";
           SearchPanel.Passed 30]
          0 [SearchRace.question 1 "How to use flex"]
        ++ [SearchPanel.CachePutDone 0; SearchPanel.Passed 100]))
  = [SearchRace.question 1 "How to use flex"].
Proof.
  apply (last_response_wins 0 ∅
           [SearchPanel.Typed "flex"; SearchPanel.Passed 500;
            SearchPanel.Typed "flex center"; SearchPanel.Passed 500;
            SearchPanel.CacheAnswered 0; SearchPanel.CacheAnswered 1]
           [SearchPanel.CachePutDone 1; SearchPanel.Typed "flex center d";
            SearchPanel.Passed 30]
           [SearchPanel.CachePutDone 0; SearchPanel.Passed 100]
           5 0 1 "flex" "flex center"
           [SearchRace.question 1 "How to use flex"]
           [SearchRace.question 2 "How to center with flex"]).
  - lia.
  - vm_compute. reflexivity.
  - vm_compute. reflexivity.
  - repeat constructor.
  - vm_compute. reflexivity.
Defined.

(** The search for [flex] is overtaken by the search for [flex center]; its
    response arrives last and replaces the newer results. *)
Lemma stale_response_overwrites :
  ~ SearchRace.newerDisplayed SearchRace.panel0 "flex" "flex center"
      [SearchRace.question 1 "How to use flex"]
      [SearchRace.question 2 "How to center with flex"].
Proof.
  unfold SearchRace.newerDisplayed. vm_compute. discriminate.
Qed.

(** * Further properties of the editor *)

(** ** History *)

Section MoreHistory.

Lemma redoStack_push h b s : redoStack (pushHistorySnapshot h b s) = [].
Proof. reflexivity. Qed.

Lemma last_push h s : last (undoStack (pushHistorySnapshot h false s)) = Some h.
Proof.
  unfold pushHistorySnapshot, HISTORY_LIMIT. cbn [andb undoStack set_undoStack set_redoStack].
  destruct (60 <? length (undoStack s ++ [h])) eqn:L; [|apply last_snoc].
  apply Nat.ltb_lt in L. rewrite length_app in L. cbn [length] in L.
  destruct (undoStack s) as [|a u]; [simpl in L; lia|].
  simpl. rewrite drop_0. apply last_snoc.
Qed.

(** The stacks after [undo], on a stack of two or more. *)
Lemma undo_stacks s :
  2 <= length (undoStack s) ->
  exists u top,
    undoStack s = u ++ [top] /\
    undoStack (undo s) = u /\
    redoStack (undo s) = redoStack s ++ [top] /\
    length u = length (undoStack s) - 1.
Proof.
  intros H. destruct (two_last _ H) as (u & prev & top & E).
  exists (u ++ [prev]), top. rewrite (undo_snoc s u prev top E), E.
  rewrite <- app_assoc. split; [reflexivity|]. split; [reflexivity|].
  split; [reflexivity|]. rewrite !length_app. simpl. lia.
Qed.

(** The stacks and the text after [redo], on a non-empty redo stack. *)
Lemma redo_stacks t r top :
  redoStack t = r ++ [top] ->
  undoStack (redo t) = undoStack t ++ [top] /\
  redoStack (redo t) = r /\
  bufs (redo t) = top.
Proof. intros E. rewrite (redo_snoc t r top E). auto. Qed.

Lemma redoN_succ n s : redoN (S n) s = redo (redoN n s).
Proof.
  revert s. induction n as [|n IH]; intros s; [reflexivity|].
  change (redoN (S (S n)) s) with (redoN (S n) (redo s)). rewrite IH. reflexivity.
Qed.

Lemma historyOK_stacks s s' :
  undoStack s' = undoStack s -> redoStack s' = redoStack s ->
  historyOK s -> historyOK s'.
Proof. unfold historyOK. intros -> ->. auto. Qed.

Lemma historyOK_push h s : historyOK s -> historyOK (pushHistorySnapshot h false s).
Proof.
  unfold historyOK. intros [H1 H2]. rewrite redoStack_push.
  rewrite length_push by (unfold HISTORY_LIMIT in *; lia).
  unfold HISTORY_LIMIT in *. simpl length. lia.
Qed.

Lemma historyOK_undo s : historyOK s -> historyOK (undo s).
Proof.
  intros H. destruct (Nat.le_gt_cases (length (undoStack s)) 1) as [L|L].
  - unfold undo. apply Nat.leb_le in L. rewrite L. exact H.
  - destruct (undo_stacks s) as (u & top & E & U & R & Lu); [lia|].
    unfold historyOK in *. rewrite U, R, length_app. simpl. lia.
Qed.

Lemma historyOK_redo s : historyOK s -> historyOK (redo s).
Proof.
  intros H. destruct (redoStack s) as [|top r _] eqn:E using rev_ind.
  - unfold redo. rewrite E. exact H.
  - destruct (redo_stacks s r top E) as (U & R & _).
    unfold historyOK in *. rewrite U, R. rewrite E in H.
    rewrite !length_app in *. simpl in *. lia.
Qed.

End MoreHistory.

(** Whatever is recorded, and whether it replaces the top or not, nothing is
    left to redo: the redo stack is empty and [redo] changes nothing. *)
Theorem record_forgets_redo (h : HistoryState) (replaceLatest : bool) (s : Session) :
  redoStack (pushHistorySnapshot h replaceLatest s) = [] /\
  redo (pushHistorySnapshot h replaceLatest s) = pushHistorySnapshot h replaceLatest s.
Proof.
  split; [reflexivity|]. unfold redo. rewrite redoStack_push. reflexivity.
Qed.

(** [n] undos followed by [n] redos, on a stack of more than [n] entries:
    both stacks are as before and, when [n] is not zero, the text shown is
    the snapshot on top of the undo stack. *)
Theorem undo_redo_many (n : nat) (s : Session) :
  n < length (undoStack s) ->
  undoStack (redoN n (undoN n s)) = undoStack s /\
  redoStack (redoN n (undoN n s)) = redoStack s /\
  (0 < n -> Some (bufs (redoN n (undoN n s))) = last (undoStack s)).
Proof.
  revert s. induction n as [|n IH]; intros s H.
  - simpl. split; [reflexivity|]. split; [reflexivity|]. lia.
  - change (undoN (S n) s) with (undoN n (undo s)). rewrite redoN_succ.
    destruct (undo_stacks s) as (u & top & E & U & R & Lu); [lia|].
    destruct (IH (undo s)) as (U' & R' & _); [rewrite U; lia|].
    rewrite U in U'. rewrite R in R'.
    destruct (redo_stacks _ _ _ R') as (U2 & R2 & B2).
    rewrite U2, R2, B2, U', E. split; [reflexivity|]. split; [reflexivity|].
    intros _. rewrite last_snoc. reflexivity.
Qed.

Lemma undo_redo_many_witness :
  undoStack (redoN 2 (undoN 2 (pushes [snap 1; snap 2; snap 3] fresh)))
  = undoStack (pushes [snap 1; snap 2; snap 3] fresh) /\
  redoStack (redoN 2 (undoN 2 (pushes [snap 1; snap 2; snap 3] fresh)))
  = redoStack (pushes [snap 1; snap 2; snap 3] fresh) /\
  (0 < 2 -> Some (bufs (redoN 2 (undoN 2 (pushes [snap 1; snap 2; snap 3] fresh))))
            = last (undoStack (pushes [snap 1; snap 2; snap 3] fresh))).
Proof.
  apply (undo_redo_many 2 (pushes [snap 1; snap 2; snap 3] fresh)).
  vm_compute. lia.
Defined.

(** A keystroke outside a composition puts on top of the undo stack the
    three texts as they were before the keystroke, while the editor shows the
    text just typed. *)
Theorem keystroke_records_previous_text (tab : TabKey) (v : string) (s : Session) :
  isComposing s = false ->
  last (undoStack (onTextareaChange tab v s)) = Some (bufs s) /\
  bufs (onTextareaChange tab v s) = setBuf tab v (bufs s).
Proof.
  intros C. destruct (onTextareaChange_history tab v s C) as [U _].
  rewrite U, last_push. split; [reflexivity|].
  apply (onTextareaChange_channel tab v s C).
Qed.

Lemma keystroke_records_previous_text_witness :
  last (undoStack (onTextareaChange TabHtml "a" fresh)) = Some (bufs fresh) /\
  bufs (onTextareaChange TabHtml "a" fresh) = setBuf TabHtml "a" (bufs fresh).
Proof. apply (keystroke_records_previous_text TabHtml "a" fresh). reflexivity. Defined.

(** ** What every event preserves *)

Section Invariants.

Lemma stacks_commit next s :
  undoStack (commit next s) = undoStack s /\ redoStack (commit next s) = redoStack s /\
  showSnippet (commit next s) = showSnippet s /\ showDocs (commit next s) = showDocs s.
Proof. unfold commit. destruct (HistoryState_eqb next (bufs s)); auto. Qed.

Lemma historyOK_change tab v s : historyOK s -> historyOK (onTextareaChange tab v s).
Proof.
  intros H. destruct (isComposing s) eqn:C.
  - destruct (onTextareaChange_composing tab v s C) as [U R].
    apply (historyOK_stacks s); assumption.
  - unfold onTextareaChange.
    match goal with |- historyOK (commit ?n ?t) =>
      destruct (stacks_commit n t) as (U & R & _) end.
    eapply historyOK_stacks; [exact U|exact R|].
    cbn [isComposing set_latestRef]. rewrite C.
    apply (historyOK_stacks (pushHistorySnapshot (bufs s) false s));
      [reflexivity|reflexivity|apply historyOK_push; exact H].
Qed.

Lemma historyOK_insert dom newId snip meta keepOpen s :
  historyOK s -> historyOK (insertSnippet dom newId snip meta keepOpen s).
Proof.
  intros H. unfold insertSnippet.
  destruct (match refOfTab dom _ with Some a => Some a | None => _ end) as [fa|];
    [|apply (historyOK_stacks s); [reflexivity|reflexivity|exact H]].
  match goal with |- historyOK (commit ?n ?t) =>
    destruct (stacks_commit n t) as (U & R & _) end.
  eapply historyOK_stacks; [exact U|exact R|].
  match goal with |- context [pushHistorySnapshot ?h false _] =>
    apply (historyOK_stacks (pushHistorySnapshot h false s)) end;
    [destruct keepOpen; reflexivity|destruct keepOpen; reflexivity|].
  apply historyOK_push. exact H.
Qed.

Lemma historyOK_onKey mac dom newId fs rs e s :
  historyOK s -> historyOK (onKey mac dom newId fs rs e s).
Proof.
  intros H. unfold onKey.
  repeat match goal with
         | |- historyOK (if ?c then _ else _) => destruct c
         | |- historyOK (match ?l with [] => _ | _ :: _ => _ end) => destruct l
         end;
    try exact H;
    try (apply (historyOK_stacks s); [reflexivity|reflexivity|exact H]);
    try (apply historyOK_undo; exact H);
    try (apply historyOK_redo; exact H).
  eapply historyOK_stacks; [| |apply historyOK_insert].
  - reflexivity.
  - reflexivity.
  - apply (historyOK_stacks s); [reflexivity|reflexivity|exact H].
Qed.

Lemma historyOK_step env s e : historyOK s -> historyOK (step env s e).
Proof.
  intros H. destruct e; simpl.
  - apply historyOK_onKey; exact H.
  - apply historyOK_change; exact H.
  - apply (historyOK_stacks s); [reflexivity|reflexivity|exact H].
  - exact H.
  - exact H.
  - exact H.
  - exact H.
  - exact H.
  - exact H.
  - exact H.
  - apply historyOK_insert; exact H.
  - apply (historyOK_stacks s); [| |exact H];
      unfold toggleFav; destruct (isFav (favs s) x); reflexivity.
  - exact H.
  - unfold assistantInsert. destruct (assistResult s); [|exact H].
    eapply historyOK_stacks; [| |apply historyOK_insert; exact H]; reflexivity.
  - exact H.
  - destruct (advance_history env d s) as (U & R & _).
    apply (historyOK_stacks s); assumption.
Qed.

Lemma panelsOK_insert dom newId snip meta keepOpen s :
  panelsOK s -> panelsOK (insertSnippet dom newId snip meta keepOpen s).
Proof.
  unfold panelsOK. intros H. unfold insertSnippet.
  destruct (match refOfTab dom _ with Some a => Some a | None => _ end) as [fa|];
    [|exact H].
  match goal with |- context [commit ?n ?t] =>
    destruct (stacks_commit n t) as (_ & _ & S1 & S2) end.
  rewrite S1, S2. destruct keepOpen; [exact H|reflexivity].
Qed.

Lemma panelsOK_undo s : panelsOK s -> panelsOK (undo s).
Proof.
  intros H. unfold undo. destruct (length (undoStack s) <=? 1); [exact H|].
  destruct (last (undoStack s)); [|exact H].
  cbn [undoStack set_undoStack set_redoStack].
  destruct (last (removelast (undoStack s))); exact H.
Qed.

Lemma panelsOK_redo s : panelsOK s -> panelsOK (redo s).
Proof. intros H. unfold redo. destruct (last (redoStack s)); exact H. Qed.

Lemma panelsOK_onKey mac dom newId fs rs e s :
  panelsOK s -> panelsOK (onKey mac dom newId fs rs e s).
Proof.
  intros H. unfold onKey.
  repeat match goal with
         | |- panelsOK (if ?c then _ else _) => destruct c
         | |- panelsOK (match ?l with [] => _ | _ :: _ => _ end) => destruct l
         end;
    try exact H;
    try (apply panelsOK_undo; exact H);
    try (apply panelsOK_redo; exact H);
    try (unfold panelsOK; simpl; apply andb_false_r);
    try (unfold panelsOK; reflexivity).
  match goal with |- panelsOK (set_favs _ (insertSnippet ?d ?i ?b ?m ?k ?v)) =>
    change (panelsOK (insertSnippet d i b m k v)) end.
  apply panelsOK_insert. exact H.
Qed.

Lemma panelsOK_step env s e : panelsOK s -> panelsOK (step env s e).
Proof.
  intros H. destruct e; simpl; try exact H.
  - apply panelsOK_onKey; exact H.
  - unfold panelsOK, onTextareaChange.
    match goal with |- context [commit ?n ?t] =>
      destruct (stacks_commit n t) as (_ & _ & S1 & S2) end.
    rewrite S1, S2. destruct (isComposing _); exact H.
  - unfold panelsOK. simpl. apply andb_false_r.
  - unfold panelsOK. reflexivity.
  - unfold panelsOK. simpl. apply andb_false_r.
  - apply panelsOK_insert; exact H.
  - unfold panelsOK, toggleFav. destruct (isFav (favs s) x); exact H.
  - unfold assistantInsert. destruct (assistResult s); [|exact H].
    change (panelsOK (insertSnippet dom newId (snippet s0) (Some s0) false s)).
    apply panelsOK_insert. exact H.
  - unfold panelsOK, advance, fireValidation, fireOnChange. simpl.
    destruct (onChangeTimer s) as [dl|]; simpl;
      [destruct (dl <=? now s + d); simpl|];
      destruct (validationTimer s) as [[dv t]|]; simpl; try exact H;
      destruct (dv <=? now s + d); exact H.
Qed.

End Invariants.

(** From the mount on, whatever the user does (keys, typing, buttons,
    insertions, time passing), the undo stack is never empty and the undo and
    redo stacks together hold at most 60 snapshots. *)
Theorem session_keeps_history_bounds env p fs rs t0 (es : list Event) :
  historyOK (run env (mount p fs rs t0) es).
Proof.
  assert (H : historyOK (mount p fs rs t0)).
  { unfold historyOK, HISTORY_LIMIT. simpl. lia. }
  revert H. generalize (mount p fs rs t0). unfold run.
  induction es as [|e es IH]; intros s H; [exact H|].
  simpl. apply IH, historyOK_step, H.
Qed.

(** From the mount on, whatever the user does, the snippet panel and the
    docs panel are never open together. *)
Theorem panels_never_both_open env p fs rs t0 (es : list Event) :
  panelsOK (run env (mount p fs rs t0) es).
Proof.
  assert (H : panelsOK (mount p fs rs t0)) by reflexivity.
  revert H. generalize (mount p fs rs t0). unfold run.
  induction es as [|e es IH]; intros s H; [exact H|].
  simpl. apply IH, panelsOK_step, H.
Qed.

(** ** Composition and blur *)

Lemma getBuf_setBuf tab v h : getBuf tab (setBuf tab v h) = v.
Proof. destruct tab; reflexivity. Qed.

Lemma advance_idle env d s :
  onChangeTimer s = None ->
  delivered (advance env d s) = delivered s /\ onChangeTimer (advance env d s) = None.
Proof.
  intros E. unfold advance.
  rewrite delivered_fireValidation, onChangeTimer_fireValidation.
  unfold fireOnChange. simpl. rewrite E. auto.
Qed.

(** While a composition is in progress the keyboard shortcuts do nothing,
    and a change of the text is shown and kept in [latestRef], adds no entry
    to the history and removes none, arms and cancels no timer and delivers
    nothing. *)
Theorem composition_suspends_recording mac dom newId fs rs (e : KeyEvent)
    (tab : TabKey) (v : string) (s : Session) :
  isComposing s = true ->
  onKey mac dom newId fs rs e s = s /\
  bufs (onTextareaChange tab v s) = setBuf tab v (bufs s) /\
  getBuf tab (latestRef (onTextareaChange tab v s)) = v /\
  length (undoStack (onTextareaChange tab v s)) = length (undoStack s) /\
  length (redoStack (onTextareaChange tab v s)) = length (redoStack s) /\
  onChangeTimer (onTextareaChange tab v s) = onChangeTimer s /\
  validationTimer (onTextareaChange tab v s) = validationTimer s /\
  delivered (onTextareaChange tab v s) = delivered s.
Proof.
  intros C. split.
  - unfold onKey. rewrite C. reflexivity.
  - unfold onTextareaChange. cbn [isComposing set_latestRef]. rewrite C.
    rewrite bufs_commit. unfold commit. cbn [bufs set_latestRef].
    destruct (HistoryState_eqb (setBuf tab v (bufs s)) (bufs s)) eqn:E; cbn;
      rewrite getBuf_setBuf; repeat split; reflexivity.
Qed.

(** A composition starts after a keystroke, its undo and its redo. *)
Lemma composition_suspends_recording_witness :
  onKey false (domOf fresh 0 0) "id" [] [] (mkKeyEvent "z" true false false false)
        (onCompositionStart (redo (undo (onTextareaChange TabHtml "a" fresh))))
  = onCompositionStart (redo (undo (onTextareaChange TabHtml "a" fresh))) /\
  bufs (onTextareaChange TabHtml "k"
          (onCompositionStart (redo (undo (onTextareaChange TabHtml "a" fresh)))))
  = setBuf TabHtml "k"
      (bufs (onCompositionStart (redo (undo (onTextareaChange TabHtml "a" fresh))))) /\
  getBuf TabHtml
    (latestRef (onTextareaChange TabHtml "k"
                  (onCompositionStart (redo (undo (onTextareaChange TabHtml "a" fresh))))))
  = "k" /\
  length (undoStack (onTextareaChange TabHtml "k"
                       (onCompositionStart (redo (undo (onTextareaChange TabHtml "a" fresh))))))
  = length (undoStack (onCompositionStart (redo (undo (onTextareaChange TabHtml "a" fresh))))) /\
  length (redoStack (onTextareaChange TabHtml "k"
                       (onCompositionStart (redo (undo (onTextareaChange TabHtml "a" fresh))))))
  = length (redoStack (onCompositionStart (redo (undo (onTextareaChange TabHtml "a" fresh))))) /\
  onChangeTimer (onTextareaChange TabHtml "k"
                   (onCompositionStart (redo (undo (onTextareaChange TabHtml "a" fresh)))))
  = onChangeTimer (onCompositionStart (redo (undo (onTextareaChange TabHtml "a" fresh)))) /\
  validationTimer (onTextareaChange TabHtml "k"
                     (onCompositionStart (redo (undo (onTextareaChange TabHtml "a" fresh)))))
  = validationTimer (onCompositionStart (redo (undo (onTextareaChange TabHtml "a" fresh)))) /\
  delivered (onTextareaChange TabHtml "k"
               (onCompositionStart (redo (undo (onTextareaChange TabHtml "a" fresh)))))
  = delivered (onCompositionStart (redo (undo (onTextareaChange TabHtml "a" fresh)))).
Proof.
  apply (composition_suspends_recording false (domOf fresh 0 0) "id" [] []
           (mkKeyEvent "z" true false false false) TabHtml "k"
           (onCompositionStart (redo (undo (onTextareaChange TabHtml "a" fresh))))).
  reflexivity.
Defined.

(** A keystroke, then, before its delivery is due, the textarea loses the
    focus: the sink is called at once with the text typed, the pending
    delivery is cancelled, and no second call follows however long one
    waits. *)
Theorem blur_delivers_once env (tab : TabKey) (v : string) (d1 d2 : nat) (s : Session) :
  isComposing s = false ->
  d1 < 400 ->
  delivered (advance env d2 (onTextareaBlur tab (advance env d1 (onTextareaChange tab v s))))
  = delivered s ++ [setBuf tab v (bufs s)].
Proof.
  intros C H1.
  destruct (onTextareaChange_channel tab v s C) as (T1 & D1 & L1 & _ & N1 & _).
  set (s1 := onTextareaChange tab v s) in *.
  destruct (proj1 (advance_armed env d1 s1 _ T1)) as [D2 _]; [lia|].
  destruct (advance_keeps env d1 s1) as [L2 _].
  set (s2 := advance env d1 s1) in *.
  destruct (advance_idle env d2 (onTextareaBlur tab s2)) as [D3 _]; [reflexivity|].
  rewrite D3. cbn. rewrite D2, D1, L2, L1. reflexivity.
Qed.

Lemma blur_delivers_once_witness :
  delivered (advance quiet 5000 (onTextareaBlur TabHtml
               (advance quiet 100 (onTextareaChange TabHtml "a" fresh))))
  = delivered fresh ++ [setBuf TabHtml "a" (bufs fresh)].
Proof.
  apply (blur_delivers_once quiet TabHtml "a" 100 5000 fresh); [reflexivity|lia].
Defined.

Lemma typing_twice_delivers_last_witness :
  delivered (advance quiet 400 (onTextareaChange TabCss "ab"
               (advance quiet 399 (onTextareaChange TabCss "a" fresh))))
  = delivered fresh ++ [setBuf TabCss "ab" (bufs fresh)].
Proof.
  apply (typing_twice_delivers_last quiet TabCss "a" "ab" 399 400 fresh);
    [reflexivity|lia|lia].
Defined.

(** ** Diagnostics *)

Section BraceFacts.

(** The loop leaves through [break] only with the balance below -5. *)
Lemma braceScan_unexpected cs o o' :
  braceScan cs o = (o', true) -> (o' < -5)%Z.
Proof.
  revert o. induction cs as [|c cs IH]; intros o H; simpl in H; [discriminate|].
  match type of H with (if ?b then _ else _) = _ => destruct b eqn:E end.
  - injection H as <-. apply Z.ltb_lt in E. exact E.
  - apply IH in H. exact H.
Qed.

Lemma braceScan_step c o :
  (if Ascii.eqb c "}"
   then (if Ascii.eqb c "{" then o + 1 else o) - 1
   else (if Ascii.eqb c "{" then o + 1 else o))%Z
  = (o + braceDelta c)%Z.
Proof.
  unfold braceDelta. destruct (Ascii.eqb c "}"), (Ascii.eqb c "{"); lia.
Qed.

(** The running balance never goes below -5: the loop runs to the end and
    leaves the balance of the whole text. *)
Lemma braceScan_complete cs o :
  (forall n, (-5 <= o + balance (take n cs))%Z) ->
  braceScan cs o = ((o + balance cs)%Z, false).
Proof.
  revert o. induction cs as [|c cs IH]; intros o H.
  - cbn [braceScan balance]. f_equal. lia.
  - cbn [braceScan balance]. rewrite braceScan_step.
    assert (H1 := H 1). change (take 1 (c :: cs)) with (c :: take 0 cs) in H1.
    rewrite take_0 in H1. cbn [balance] in H1.
    destruct (o + braceDelta c <? -5)%Z eqn:E; [apply Z.ltb_lt in E; lia|].
    rewrite IH.
    + f_equal. lia.
    + intros n. specialize (H (S n)).
      change (take (S n) (c :: cs)) with (c :: take n cs) in H. cbn [balance] in H. lia.
Qed.

(** The running balance goes below -5 somewhere: the loop stops there. *)
Lemma braceScan_stops cs o :
  (-5 <= o)%Z ->
  (exists n, (o + balance (take n cs) < -5)%Z) ->
  exists o', braceScan cs o = (o', true).
Proof.
  revert o. induction cs as [|c cs IH]; intros o Ho [n Hn].
  - rewrite take_nil in Hn. cbn [balance] in Hn. lia.
  - simpl. rewrite braceScan_step.
    destruct (o + braceDelta c <? -5)%Z eqn:E; [eexists; reflexivity|].
    apply Z.ltb_ge in E. apply IH; [exact E|].
    destruct n as [|n]; [rewrite take_0 in Hn; cbn [balance] in Hn; lia|].
    exists n. change (take (S n) (c :: cs)) with (c :: take n cs) in Hn.
    cbn [balance] in Hn. lia.
Qed.

Lemma braceErrors_scan str :
  braceErrors str
  = let '(open, unexpected) := braceScan (list_ascii_of_string str) 0 in
    (if unexpected then [(LError, "Unexpected '}'")] else []) ++
    (if (0 <? open)%Z then [(LError, "Missing closing '}'")] else []).
Proof.
  unfold braceErrors, validateCSS.
  destruct (braceScan (list_ascii_of_string str) 0) as [open unexpected].
  rewrite !List.filter_app.
  destruct unexpected, (0 <? open)%Z, (UpperWord.test (list_ascii_of_string str));
    reflexivity.
Qed.

Lemma validateCSS_length str : length (validateCSS str) <= 2.
Proof.
  unfold validateCSS.
  destruct (braceScan (list_ascii_of_string str) 0) as [open unexpected] eqn:E.
  destruct unexpected.
  - apply braceScan_unexpected in E.
    destruct (0 <? open)%Z eqn:P; [apply Z.ltb_lt in P; lia|].
    destruct (UpperWord.test _); simpl; lia.
  - destruct (0 <? open)%Z, (UpperWord.test _); simpl; lia.
Qed.

End BraceFacts.

(** The brace errors of the style validator, by the running balance of the
    text (opening braces minus closing braces over its first [n]
    characters).  If the running balance never goes below -5, the only
    possible error is the missing closing brace, reported exactly when the
    balance of the whole text is positive; up to five unmatched closing
    braces pass in silence.  If the running balance goes below -5 somewhere,
    the one error is the unexpected closing brace, whatever follows. *)
Theorem brace_errors_by_balance (str : string) :
  ((forall n, (-5 <= balance (take n (list_ascii_of_string str)))%Z) ->
   braceErrors str
   = if (0 <? balance (list_ascii_of_string str))%Z
     then [(LError, "Missing closing '}'")] else []) /\
  ((exists n, (balance (take n (list_ascii_of_string str)) < -5)%Z) ->
   braceErrors str = [(LError, "Unexpected '}'")]).
Proof.
  rewrite braceErrors_scan. split; intros H.
  - rewrite (braceScan_complete _ 0%Z) by (intros n; specialize (H n); lia).
    rewrite Z.add_0_l. reflexivity.
  - destruct (braceScan_stops (list_ascii_of_string str) 0%Z) as [o' E]; [lia| |].
    + destruct H as [n Hn]. exists n. lia.
    + rewrite E. apply braceScan_unexpected in E.
      destruct (0 <? o')%Z eqn:P; [apply Z.ltb_lt in P; lia|reflexivity].
Qed.

Lemma brace_errors_by_balance_witness :
  braceErrors "a}}}}}b{"
  = (if (0 <? balance (list_ascii_of_string "a}}}}}b{"))%Z
     then [(LError, "Missing closing '}'")] else []) /\
  braceErrors "a}}}}}}{{{{{{{{" = [(LError, "Unexpected '}'")].
Proof.
  split.
  - apply (proj1 (brace_errors_by_balance "a}}}}}b{")).
    intros n. do 9 (destruct n as [|n]; [vm_compute; discriminate|]).
    vm_compute. discriminate.
  - apply (proj2 (brace_errors_by_balance "a}}}}}}{{{{{{{{")).
    exists 7. vm_compute. reflexivity.
Defined.

(** A validation pass never yields more than four findings (one for the
    markup, two for the style, one for the script), and a pass asked for one
    tab at most two: the cut to six findings never removes any. *)
Theorem validation_at_most_four env (tab : option TabKey) (current : HistoryState) :
  length (runValidation env tab current)
  <= match tab with
     | None => 4
     | Some TabCss => 2
     | Some _ => 1
     end.
Proof.
  unfold runValidation.
  assert (C := validateCSS_length (css current)).
  assert (Hh : length (validateHTML env (html current)) <= 1).
  { unfold validateHTML. destruct (parserError env _); simpl; lia. }
  assert (Hj : length (validateJS env (js current)) <= 1).
  { unfold validateJS. destruct (syntaxError env _); simpl; lia. }
  rewrite length_take. etransitivity; [apply Nat.le_min_r|].
  destruct tab as [[| |]|]; cbv beta zeta iota delta [TabKey_eqb];
    rewrite ?length_app, ?length_map; cbn [length]; lia.
Qed.

(** ** Favourites and recents *)

Section ListsFacts.

Lemma isFav_In fs x :
  isFav fs x = true <-> In (snippet x) (map snippet fs).
Proof.
  unfold isFav. rewrite existsb_exists, in_map_iff. split.
  - intros (f & Hf & E). apply String.eqb_eq in E. exists f. auto.
  - intros (f & E & Hf). exists f. split; [exact Hf|]. apply String.eqb_eq. exact E.
Qed.

Lemma isFav_false_filter fs x :
  isFav fs x = false ->
  List.filter (fun f => negb (String.eqb (snippet f) (snippet x))) fs = fs.
Proof.
  unfold isFav. induction fs as [|f fs IH]; simpl; [reflexivity|].
  intros H. apply orb_false_iff in H. destruct H as [H1 H2].
  rewrite H1. simpl. rewrite IH by exact H2. reflexivity.
Qed.

Lemma isFav_filter_out fs x :
  isFav (List.filter (fun f => negb (String.eqb (snippet f) (snippet x))) fs) x = false.
Proof.
  unfold isFav. induction fs as [|f fs IH]; simpl; [reflexivity|].
  destruct (String.eqb (snippet f) (snippet x)) eqn:E; simpl; [exact IH|].
  rewrite E, IH. reflexivity.
Qed.

Lemma NoDup_bodies_filter (p : Snip -> bool) l :
  NoDup (map snippet l) -> NoDup (map snippet (List.filter p l)).
Proof.
  induction l as [|a l IH]; simpl; [auto|].
  intros H. apply NoDup_cons in H. destruct H as [Ha H].
  destruct (p a); simpl; [|apply IH; exact H].
  apply NoDup_cons. split; [|apply IH; exact H].
  rewrite list_elem_of_In, in_map_iff in *. intros (b & E & Hb). apply Ha.
  exists b. split; [exact E|]. apply List.filter_In in Hb. apply Hb.
Qed.

Lemma NoDup_bodies_take n (l : list Snip) :
  NoDup (map snippet l) -> NoDup (map snippet (take n l)).
Proof.
  intros H. rewrite <- (take_drop n l), map_app in H.
  apply NoDup_app in H. apply H.
Qed.

Lemma In_bodies_take n (l : list Snip) b :
  In b (map snippet (take n l)) -> In b (map snippet l).
Proof.
  rewrite <- (take_drop n l) at 2. rewrite map_app, in_app_iff. auto.
Qed.

End ListsFacts.

(** Starring is a switch: after [toggleFav] a snippet is a favourite exactly
    when it was not one before, whatever the number of favourites. *)
Theorem toggleFav_flips (newId : string) (x : Snip) (s : Session) :
  isFav (favs (toggleFav newId x s)) x = negb (isFav (favs s) x).
Proof.
  unfold toggleFav, saveFavs. destruct (isFav (favs s) x) eqn:E; simpl.
  - apply isFav_filter_out.
  - unfold isFav. simpl. rewrite String.eqb_refl. reflexivity.
Qed.

(** Starring a snippet that is not a favourite and unstarring it again gives
    back the favourites as they were, provided there were fewer than 30 (the
    thirtieth favourite would have been pushed out by the star). *)
Theorem star_unstar_restores (id1 id2 : string) (x : Snip) (s : Session) :
  isFav (favs s) x = false ->
  length (favs s) < 30 ->
  favs (toggleFav id2 x (toggleFav id1 x s)) = favs s.
Proof.
  intros E L.
  assert (F1 : favs (toggleFav id1 x s)
               = mkSnip (Some id1) (label x) (snippet x) (kind x) (description x) (tags x)
                 :: favs s).
  { unfold toggleFav, saveFavs. rewrite E. simpl. rewrite take_ge by lia. reflexivity. }
  unfold toggleFav at 1. unfold saveFavs.
  assert (F2 : isFav (favs (toggleFav id1 x s)) x = true).
  { rewrite F1. unfold isFav. simpl. rewrite String.eqb_refl. reflexivity. }
  rewrite F2. cbn [favs set_favs]. rewrite F1. simpl.
  rewrite String.eqb_refl. simpl. apply isFav_false_filter. exact E.
Qed.

Lemma star_unstar_restores_witness :
  favs (toggleFav "b" (numbered 1) (toggleFav "a" (numbered 1) fresh)) = favs fresh.
Proof.
  apply (star_unstar_restores "a" "b" (numbered 1) fresh); [reflexivity|].
  vm_compute. lia.
Defined.

(** Starring keeps the favourites in order: at most 30 of them, and no two
    with the same body, if that was so before. *)
Theorem toggleFav_keeps_favourites_tidy (newId : string) (x : Snip) (s : Session) :
  length (favs s) <= 30 ->
  NoDup (map snippet (favs s)) ->
  length (favs (toggleFav newId x s)) <= 30 /\
  NoDup (map snippet (favs (toggleFav newId x s))).
Proof.
  intros L N. split; [apply toggleFav_capacity; exact L|].
  unfold toggleFav, saveFavs. destruct (isFav (favs s) x) eqn:E; cbn [favs set_favs].
  - apply NoDup_bodies_filter. exact N.
  - change (take 30 (?a :: ?l)) with (a :: take 29 l). simpl.
    apply NoDup_cons. split; [|apply NoDup_bodies_take; exact N].
    rewrite list_elem_of_In. intros H. apply In_bodies_take in H.
    apply isFav_In in H. congruence.
Qed.

Lemma toggleFav_keeps_favourites_tidy_witness :
  length (favs (toggleFav "a" (numbered 1) fresh)) <= 30 /\
  NoDup (map snippet (favs (toggleFav "a" (numbered 1) fresh))).
Proof.
  apply (toggleFav_keeps_favourites_tidy "a" (numbered 1) fresh).
  - vm_compute. lia.
  - vm_compute. constructor.
Defined.

(** After an insertion the recents hold at most 8 snippets, the one just
    inserted first (with the normalised text as its body) and no other with
    that body; if no two recents had the same body before, none have now. *)
Theorem insertion_heads_recents (s : Session) (a b : nat) (newId : string) (x : Snip)
    (keepOpen : bool) :
  let body := normalizeSnippetForBeginners (snippet x) (kind x) in
  let r' := recent (insertSnippet (domOf s a b) newId (snippet x) (Some x) keepOpen s) in
  length r' <= 8 /\
  (exists rest,
     r' = mkSnip (Some newId) (label x) body (kind x) (description x) None :: rest /\
     Forall (fun r => snippet r <> body /\ In r (recent s)) rest) /\
  (NoDup (map snippet (recent s)) -> NoDup (map snippet r')).
Proof.
  intros body r'.
  assert (E : r' = take 8 (mkSnip (Some newId) (label x) body (kind x) (description x) None
                           :: List.filter (fun r => negb (String.eqb (snippet r) body))
                                          (recent s))).
  { subst r'. unfold insertSnippet, domOf.
    destruct (activeTab s), (kind x); simpl;
      unfold commit; simpl;
      match goal with |- context [HistoryState_eqb ?u ?v] =>
        destruct (HistoryState_eqb u v) end;
      destruct keepOpen; reflexivity. }
  rewrite E. change (take 8 (?i :: ?l)) with (i :: take 7 l). split; [|split].
  - simpl. rewrite length_take. lia.
  - eexists. split; [reflexivity|].
    apply List.Forall_forall. intros r Hr.
    assert (Hr' : In r (List.filter (fun r => negb (String.eqb (snippet r) body)) (recent s))).
    { rewrite <- (take_drop 7 (List.filter _ _)). apply in_or_app. left. exact Hr. }
    apply List.filter_In in Hr'. destruct Hr' as [Hin Hb]. split; [|exact Hin].
    apply negb_true_iff, String.eqb_neq in Hb. exact Hb.
  - intros N. simpl. apply NoDup_cons. split.
    + rewrite list_elem_of_In. intros H. apply In_bodies_take in H.
      apply in_map_iff in H. destruct H as (r & Er & Hr).
      apply List.filter_In in Hr. destruct Hr as [_ Hb].
      apply negb_true_iff, String.eqb_neq in Hb. congruence.
    + apply NoDup_bodies_take, NoDup_bodies_filter. exact N.
Qed.

Lemma insertion_heads_recents_witness :
  length (recent (insertSnippet (domOf styling 3 3) "id" (snippet callSnippet)
                    (Some callSnippet) false styling)) <= 8 /\
  NoDup (map snippet (recent (insertSnippet (domOf styling 3 3) "id" (snippet callSnippet)
                                (Some callSnippet) false styling))).
Proof.
  destruct (insertion_heads_recents styling 3 3 "id" callSnippet false) as (L & _ & N).
  split; [exact L|]. apply N. vm_compute. constructor.
Defined.

Lemma insert_on_own_tab_witness :
  activeTab (insertSnippet (domOf styling 1 2) "id" (snippet (numbered 1))
               (Some (numbered 1)) false styling) = activeTab styling /\
  bufs (insertSnippet (domOf styling 1 2) "id" (snippet (numbered 1))
          (Some (numbered 1)) false styling)
  = setBuf (activeTab styling)
      (splice (getBuf (activeTab styling) (bufs styling))
              (normalizeSnippetForBeginners (snippet (numbered 1)) (kind (numbered 1)))
              (Some (1, 2)))
      (bufs styling).
Proof.
  apply (insert_on_own_tab styling 1 2 "id" (numbered 1) false). reflexivity.
Defined.

(** An insertion in a settled render records one snapshot and hands that
    same snapshot to the sink at once: it is the new top of the undo stack
    and the last value delivered, it holds the new text of the target tab,
    nothing is left to redo, no delivery is left pending, and a validation
    of the target tab is scheduled 600 time units ahead. *)
Theorem insertion_records_and_delivers (s : Session) (a b : nat) (newId : string)
    (x : Snip) (keepOpen : bool) :
  let s' := insertSnippet (domOf s a b) newId (snippet x) (Some x) keepOpen s in
  let target := tabOfKind (kind x) in
  exists h,
    last (undoStack s') = Some h /\
    delivered s' = delivered s ++ [h] /\
    getBuf target h = getBuf target (bufs s') /\
    redoStack s' = [] /\
    onChangeTimer s' = None /\
    validationTimer s' = Some (now s + 600, Some target).
Proof.
  intros s' target.
  set (fa := mkTextarea (getBuf (activeTab s) (bufs s)) (Some a) (Some b)).
  set (newVal := JS.sliceTo (value fa) a
                 +:+ normalizeSnippetForBeginners (snippet x) (kind x)
                 +:+ JS.sliceFrom (value fa) b).
  exists (setBuf target newVal (latestRef s)).
  assert (E : exists t,
             s' = commit (setBuf target newVal (bufs s)) t /\
             undoStack t = undoStack (pushHistorySnapshot (setBuf target newVal (latestRef s))
                                        false s) /\
             delivered t = delivered s ++ [setBuf target newVal (latestRef s)] /\
             redoStack t = [] /\ onChangeTimer t = None /\
             validationTimer t = Some (now s + 600, Some target)).
  { subst s' target newVal fa. unfold insertSnippet, domOf.
    destruct (activeTab s), (kind x); simpl; eexists;
      (split; [reflexivity|]); destruct keepOpen; simpl; auto 10. }
  destruct E as (t & -> & U & D & R & T & V).
  rewrite bufs_commit, getBuf_setBuf, getBuf_setBuf.
  unfold commit. destruct (HistoryState_eqb _ (bufs t)); cbn; rewrite U, last_push; auto 10.
Qed.

(** ** The search result *)

Section ResultFacts.

(** The result as a ranking followed by the removal of repeated bodies. *)
Lemma search_ranked (s : Session) :
  getFilteredSnippets s
  = SearchSpec.keepFirst []
      (SearchSpec.buckets (currentScore s) (S SearchSpec.maxScore)
         (List.filter (fun x => String.eqb (JS.toLowerCase (JS.trim (query s))) ""
                                || (5 <? currentScore s x))
                      (SNIPPETS ++ favs s))).
Proof.
  unfold getFilteredSnippets, currentScore.
  rewrite (dedupe_keepFirst ∅ [])
    by (intros b; simpl; rewrite elem_of_empty; intuition discriminate).
  f_equal. rewrite filter_map. unfold byScoreDesc.
  rewrite (sort_buckets snd (S SearchSpec.maxScore)).
  - rewrite buckets_scored. reflexivity.
  - apply List.Forall_forall. intros y Hy. apply in_map_iff in Hy.
    destruct Hy as (x & <- & _). simpl. apply scoreOf_bound.
Qed.

Lemma buckets_In {A} (key : A -> nat) n l x :
  In x (SearchSpec.buckets key n l) <-> In x l /\ key x < n.
Proof.
  induction n as [|k IH]; simpl.
  - split; [contradiction|]. intros [_ H]. lia.
  - rewrite in_app_iff, IH, List.filter_In, Nat.eqb_eq. split.
    + intros [[H1 H2]|[H1 H2]]; split; auto; lia.
    + intros [H1 H2]. destruct (Nat.eq_dec (key x) k); [left|right]; split; auto; lia.
Qed.

Lemma keepFirst_In prev l x :
  In x (SearchSpec.keepFirst prev l) -> In x l.
Proof.
  revert prev. induction l as [|y l IH]; intros prev; simpl; [auto|].
  destruct (existsb _ prev); simpl; intros H.
  - right. eapply IH, H.
  - destruct H as [H|H]; [left; exact H|right; eapply IH, H].
Qed.

Lemma keepFirst_sorted (R : Snip -> Snip -> Prop) prev l :
  StronglySorted R l -> StronglySorted R (SearchSpec.keepFirst prev l).
Proof.
  intros S. revert prev. induction S as [|y l S IH F]; intros prev; simpl; [constructor|].
  destruct (existsb _ prev); [apply IH|].
  constructor; [apply IH|].
  apply List.Forall_forall. intros z Hz. apply keepFirst_In in Hz.
  rewrite List.Forall_forall in F. apply F. exact Hz.
Qed.

(** Every body of the list is among the bodies already passed or is the body
    of an entry kept. *)
Lemma keepFirst_covers prev l x :
  In x l ->
  existsb (fun y => String.eqb (snippet y) (snippet x)) prev = true \/
  exists y, In y (SearchSpec.keepFirst prev l) /\ snippet y = snippet x.
Proof.
  revert prev. induction l as [|a l IH]; intros prev; [contradiction|].
  intros [<-|H]; simpl.
  - destruct (existsb _ prev) eqn:E; [left; reflexivity|].
    right. exists a. split; [left; reflexivity|reflexivity].
  - destruct (IH (prev ++ [a]) H) as [P|(y & Hy & Ey)].
    + rewrite existsb_app in P. apply orb_true_iff in P. destruct P as [P|P];
        [left; exact P|].
      simpl in P. rewrite orb_false_r in P. apply String.eqb_eq in P.
      destruct (existsb (fun y => String.eqb (snippet y) (snippet a)) prev) eqn:E.
      * left. rewrite <- P. exact E.
      * right. exists a. split; [left; reflexivity|exact P].
    + right. exists y. split; [|exact Ey].
      destruct (existsb _ prev); [exact Hy|right; exact Hy].
Qed.

End ResultFacts.

(** What the search returns is drawn from the pool (the catalogue and the
    favourites), holds no body twice, and is in descending order of score:
    no entry comes after one of lower score. *)
Theorem search_result_is_tidy (s : Session) :
  (forall x, In x (getFilteredSnippets s) -> In x (SNIPPETS ++ favs s)) /\
  NoDup (map snippet (getFilteredSnippets s)) /\
  StronglySorted (fun a b => currentScore s b <= currentScore s a) (getFilteredSnippets s).
Proof.
  rewrite search_ranked. split; [|split].
  - intros x H. apply keepFirst_In, buckets_In in H. destruct H as [H _].
    apply List.filter_In in H. apply H.
  - apply keepFirst_fresh.
  - apply keepFirst_sorted, buckets_sorted.
Qed.

(** With an empty or blank query nothing is filtered out: every body of the
    catalogue and of the favourites is the body of some entry returned. *)
Theorem blank_query_lists_every_body (s : Session) (x : Snip) :
  JS.trim (query s) = "" ->
  In x (SNIPPETS ++ favs s) ->
  exists y, In y (getFilteredSnippets s) /\ snippet y = snippet x.
Proof.
  intros Q H. rewrite search_ranked, Q. simpl JS.toLowerCase.
  destruct (keepFirst_covers []
              (SearchSpec.buckets (currentScore s) (S SearchSpec.maxScore)
                 (List.filter (fun x => String.eqb "" "" || (5 <? currentScore s x))
                              (SNIPPETS ++ favs s))) x) as [P|P].
  - apply buckets_In. split; [|apply scoreOf_bound].
    apply List.filter_In. split; [exact H|reflexivity].
  - discriminate.
  - exact P.
Qed.

Lemma blank_query_lists_every_body_witness :
  exists y, In y (getFilteredSnippets (set_query "  " fresh))
            /\ snippet y = snippet (builtin "Header" KHtml
                                      (lines ["<header>"; "  <nav><!-- links --></nav>";
                                              "</header>"])
                                      "Top navigation header").
Proof.
  apply (blank_query_lists_every_body (set_query "  " fresh)).
  - reflexivity.
  - right. left. reflexivity.
Defined.

(** ** Normalisation and generated names *)

Section TextFacts.

Lemma endsWith_refl s : JS.endsWith s s = true.
Proof.
  destruct s; [reflexivity|]. cbn [JS.endsWith]. rewrite String.eqb_refl. reflexivity.
Qed.

Lemma endsWith_append s t p : JS.endsWith t p = true -> JS.endsWith (s +:+ t) p = true.
Proof.
  intros H. induction s as [|c s IH]; [exact H|].
  simpl. rewrite IH. apply orb_true_r.
Qed.

Lemma append_nil_r s : s +:+ "" = s.
Proof.
  induction s as [|c s IH]; [reflexivity|].
  change (String c s +:+ "") with (String c (s +:+ "")). rewrite IH. reflexivity.
Qed.

Lemma dashRuns_startsDash s :
  startsDash (Assistant.dashRuns true s) = false.
Proof.
  induction s as [|c s IH]; simpl; [reflexivity|].
  destruct (Assistant.isSlugChar c) eqn:E; [|exact IH].
  simpl. destruct (Ascii.eqb c "-") eqn:D; [|reflexivity].
  apply Ascii.eqb_eq in D. subst c. discriminate.
Qed.

Lemma dashRuns_shaped b s : slugShaped (Assistant.dashRuns b s) = true.
Proof.
  revert b. induction s as [|c s IH]; intros b; simpl; [reflexivity|].
  destruct (Assistant.isSlugChar c) eqn:E.
  - simpl. rewrite E, IH. simpl.
    destruct (Ascii.eqb c "-") eqn:D; [|reflexivity].
    apply Ascii.eqb_eq in D. subst c. discriminate.
  - destruct b; [apply IH|]. simpl. rewrite dashRuns_startsDash, IH. reflexivity.
Qed.

End TextFacts.

(** Whatever markup snippet goes in, what [normalizeSnippetForBeginners]
    gives back ends with a line feed. *)
Theorem normalized_markup_ends_with_newline (snip : string) :
  JS.endsWith (normalizeSnippetForBeginners snip KHtml) nl = true.
Proof.
  unfold normalizeSnippetForBeginners, Normalize.normalizeHtml.
  destruct (negb (JS.startsWith (JS.trimStart (JS.trim snip)) "<")).
  - repeat apply endsWith_append. apply endsWith_refl.
  - match goal with |- JS.endsWith (?u +:+ (if JS.endsWith ?u nl then _ else _)) nl = true =>
      destruct (JS.endsWith u nl) eqn:E end.
    + rewrite append_nil_r. exact E.
    + apply endsWith_append, endsWith_refl.
Qed.

(** The class name the assistant derives from a title consists of
    lower-case letters, digits and hyphens only, with no two hyphens side by
    side, whatever the title. *)
Theorem slug_is_well_shaped (title : string) :
  slugShaped (Assistant.slug title) = true.
Proof. apply dashRuns_shaped. Qed.

(** ** The question search, further *)

Section SearchFlowFacts.
Import SearchPanel SearchRace SearchFlow.

Lemma resolveCachePut_stores n query found stamp p :
  calls p !! n = Some (mkCall query (AwaitCachePut found stamp)) ->
  resolveCachePut n p
  = finish n (set_searchCache (<[query := mkCacheRow found stamp]> (searchCache p)) p).
Proof. intros C. unfold resolveCachePut. rewrite C. reflexivity. Qed.

Lemma advance_quiet d p :
  debounceRef p = None -> advance d p = set_clock (clock p + d)%Z p.
Proof. intros E. unfold advance. cbn. rewrite E. reflexivity. Qed.

(** The panel after a completed search. *)
Lemma searchCompleted_state query found p :
  JS.trim query <> "" ->
  misses p query = true ->
  let p' := searchCompleted query found p in
  results p' = found /\
  cacheHit p' = false /\
  loading p' = false /\
  searchCache p' = <[query := mkCacheRow found (clock p)]> (searchCache p) /\
  clock p' = clock p /\
  debounceRef p' = debounceRef p /\
  nextCall p' = S (nextCall p).
Proof.
  intros T M p'. subst p'. unfold searchCompleted.
  rewrite (doSearch_starts query p T).
  cbn [nextCall set_nextCall set_calls set_loading].
  erewrite (resolveCache_miss (nextCall p) query); cycle 1.
  { cbn. apply lookup_insert_eq. }
  { exact M. }
  unfold resolveRemote. cbn [calls set_calls]. rewrite lookup_insert_eq.
  erewrite resolveCachePut_stores by (cbn; apply lookup_insert_eq).
  cbn. auto 10.
Qed.

Lemma step_settled p e : settled p -> settled (SearchPanel.step p e).
Proof.
  unfold settled. intros H.
  assert (D : forall v p', (calls p' = ∅ -> opening p' = ∅ -> loading p' = false) ->
              calls (doSearch v p') = ∅ -> opening (doSearch v p') = ∅ ->
              loading (doSearch v p') = false).
  { intros v p' H'. unfold doSearch. destruct (String.eqb (JS.trim v) ""); [exact H'|].
    cbn. intros E. apply insert_non_empty in E. destruct E. }
  destruct e as [v| |d|n|n|n reply|n|i|n reply]; cbn [SearchPanel.step].
  - exact H.
  - apply D, H.
  - unfold advance. cbn. destruct (debounceRef p) as [[dl v]|]; [|exact H].
    destruct (dl <=? clock p + d)%Z; [|exact H].
    apply D. exact H.
  - unfold resolveCache. destruct (calls p !! n) as [[query [| |found stamp]]|];
      try exact H.
    destruct (searchCache p !! query) as [row|].
    + destruct (clock p - timestamp row <? WEEK)%Z; [reflexivity|].
      cbn. intros E. apply insert_non_empty in E. destruct E.
    + cbn. intros E. apply insert_non_empty in E. destruct E.
  - unfold rejectCache. destruct (calls p !! n) as [[query [| |found stamp]]|];
      try exact H; reflexivity.
  - unfold resolveRemote. destruct (calls p !! n) as [[query [| |found stamp]]|];
      try exact H.
    destruct reply as [found|]; [|reflexivity].
    cbn. intros E. apply insert_non_empty in E. destruct E.
  - unfold resolveCachePut. destruct (calls p !! n) as [[query [| |found stamp]]|];
      try exact H.
    reflexivity.
  - destruct (results p !! i) as [item|]; [|exact H].
    cbn. intros _ E. apply insert_non_empty in E. destruct E.
  - unfold resolveDetail. destruct (opening p !! n); [|exact H].
    destruct reply; reflexivity.
Qed.

End SearchFlowFacts.

(** Typing in the search box is debounced: after two changes of the text
    less than 500 time units apart and then a pause of 500 or more, one
    search has started, for the second text; if that text is blank, no
    search starts and the results are cleared. *)
Theorem search_box_debounces (p : SearchPanel.Panel) (v1 v2 : string) (d1 d2 : Z) :
  (0 <= d1 < 500)%Z ->
  (500 <= d2)%Z ->
  let p' := SearchFlow.typedTwice v1 v2 d1 d2 p in
  (JS.trim v2 <> "" ->
   SearchPanel.calls p'
   = <[SearchPanel.nextCall p := SearchPanel.mkCall v2 SearchPanel.AwaitCache]>
       (SearchPanel.calls p) /\
   SearchPanel.nextCall p' = S (SearchPanel.nextCall p) /\
   SearchPanel.loading p' = true /\
   SearchPanel.results p' = SearchPanel.results p) /\
  (JS.trim v2 = "" ->
   SearchPanel.calls p' = SearchPanel.calls p /\
   SearchPanel.results p' = []).
Proof.
  intros H1 H2 p'. subst p'. unfold SearchFlow.typedTwice.
  assert (E1 : SearchPanel.advance d1 (SearchPanel.onChange v1 p)
               = SearchPanel.set_clock (SearchPanel.clock p + d1)%Z
                   (SearchPanel.onChange v1 p)).
  { unfold SearchPanel.advance. cbn.
    destruct (SearchPanel.clock p + 500 <=? SearchPanel.clock p + d1)%Z eqn:L;
      [apply Z.leb_le in L; lia|reflexivity]. }
  rewrite E1. unfold SearchPanel.advance. cbn.
  destruct (SearchPanel.clock p + d1 + 500 <=? SearchPanel.clock p + d1 + d2)%Z eqn:L;
    [|apply Z.leb_gt in L; lia].
  unfold SearchPanel.doSearch. split; intros T.
  - destruct (String.eqb (JS.trim v2) "") eqn:E; [apply String.eqb_eq in E; contradiction|].
    cbn. auto.
  - rewrite T. cbn. auto.
Qed.

Lemma search_box_debounces_witness :
  (SearchPanel.calls (SearchFlow.typedTwice "fl" "flex" 100 500 SearchRace.panel0)
   = <[SearchPanel.nextCall SearchRace.panel0
       := SearchPanel.mkCall "flex" SearchPanel.AwaitCache]>
       (SearchPanel.calls SearchRace.panel0) /\
   SearchPanel.nextCall (SearchFlow.typedTwice "fl" "flex" 100 500 SearchRace.panel0)
   = S (SearchPanel.nextCall SearchRace.panel0) /\
   SearchPanel.loading (SearchFlow.typedTwice "fl" "flex" 100 500 SearchRace.panel0) = true /\
   SearchPanel.results (SearchFlow.typedTwice "fl" "flex" 100 500 SearchRace.panel0)
   = SearchPanel.results SearchRace.panel0) /\
  (SearchPanel.calls (SearchFlow.typedTwice "fl" "  " 100 500 SearchRace.panel0)
   = SearchPanel.calls SearchRace.panel0 /\
   SearchPanel.results (SearchFlow.typedTwice "fl" "  " 100 500 SearchRace.panel0) = []).
Proof.
  split.
  - apply (search_box_debounces SearchRace.panel0 "fl" "flex" 100 500); [lia|lia|].
    vm_compute. discriminate.
  - apply (search_box_debounces SearchRace.panel0 "fl" "  " 100 500); [lia|lia|].
    reflexivity.
Defined.

(** A search that was answered from the network is answered from the cache
    when it is made again less than a week later: the same items are
    displayed, the panel says they are cached, it is no longer searching, and
    the stored row keeps the time of the first answer. *)
Theorem repeated_search_hits_cache (p : SearchPanel.Panel) (query : string)
    (found : list SearchPanel.SEQuestion) (d : Z) :
  JS.trim query <> "" ->
  SearchRace.misses p query = true ->
  SearchPanel.debounceRef p = None ->
  (0 <= d < SearchPanel.WEEK)%Z ->
  let p' := SearchFlow.searchAgain query d (SearchFlow.searchCompleted query found p) in
  SearchPanel.results p' = found /\
  SearchPanel.cacheHit p' = true /\
  SearchPanel.loading p' = false /\
  SearchPanel.searchCache p' !! query
  = Some (SearchPanel.mkCacheRow found (SearchPanel.clock p)).
Proof.
  intros T M D H p'. subst p'.
  destruct (searchCompleted_state query found p T M) as (R & _ & _ & SC & CK & DB & NC).
  set (p1 := SearchFlow.searchCompleted query found p) in *.
  unfold SearchFlow.searchAgain.
  rewrite (advance_quiet d p1) by congruence.
  rewrite doSearch_starts by exact T.
  unfold SearchPanel.resolveCache.
  cbn [SearchPanel.calls SearchPanel.set_calls SearchPanel.nextCall
       SearchPanel.set_nextCall SearchPanel.set_loading SearchPanel.set_clock].
  rewrite lookup_insert_eq.
  cbn [SearchPanel.searchCache SearchPanel.set_calls SearchPanel.set_nextCall
       SearchPanel.set_loading SearchPanel.set_clock SearchPanel.clock].
  rewrite SC, lookup_insert_eq. cbn [SearchPanel.timestamp SearchPanel.items].
  destruct (SearchPanel.clock p1 + d - SearchPanel.clock p <? SearchPanel.WEEK)%Z eqn:L;
    [|apply Z.ltb_ge in L; lia].
  cbn. rewrite SC, lookup_insert_eq. auto.
Qed.

Lemma repeated_search_hits_cache_witness :
  SearchPanel.results
    (SearchFlow.searchAgain "flex" 1000
       (SearchFlow.searchCompleted "flex" [SearchRace.question 1 "How to use flex"]
          SearchRace.panel0))
  = [SearchRace.question 1 "How to use flex"] /\
  SearchPanel.cacheHit
    (SearchFlow.searchAgain "flex" 1000
       (SearchFlow.searchCompleted "flex" [SearchRace.question 1 "How to use flex"]
          SearchRace.panel0)) = true /\
  SearchPanel.loading
    (SearchFlow.searchAgain "flex" 1000
       (SearchFlow.searchCompleted "flex" [SearchRace.question 1 "How to use flex"]
          SearchRace.panel0)) = false /\
  SearchPanel.searchCache
    (SearchFlow.searchAgain "flex" 1000
       (SearchFlow.searchCompleted "flex" [SearchRace.question 1 "How to use flex"]
          SearchRace.panel0)) !! "flex"
  = Some (SearchPanel.mkCacheRow [SearchRace.question 1 "How to use flex"]
            (SearchPanel.clock SearchRace.panel0)).
Proof.
  apply (repeated_search_hits_cache SearchRace.panel0 "flex"
           [SearchRace.question 1 "How to use flex"] 1000).
  - vm_compute. discriminate.
  - reflexivity.
  - reflexivity.
  - vm_compute. split; [discriminate|reflexivity].
Defined.

(** A week or more after the answer was stored the row no longer counts:
    the search made again goes to the network, and until that answers the
    panel keeps showing the old items, not marked as cached. *)
Theorem stale_cache_row_is_ignored (p : SearchPanel.Panel) (query : string)
    (found : list SearchPanel.SEQuestion) (d : Z) :
  JS.trim query <> "" ->
  SearchRace.misses p query = true ->
  SearchPanel.debounceRef p = None ->
  (SearchPanel.WEEK <= d)%Z ->
  let p' := SearchFlow.searchAgain query d (SearchFlow.searchCompleted query found p) in
  SearchPanel.calls p' !! S (SearchPanel.nextCall p)
  = Some (SearchPanel.mkCall query SearchPanel.AwaitRemote) /\
  SearchPanel.results p' = found /\
  SearchPanel.cacheHit p' = false /\
  SearchPanel.loading p' = true.
Proof.
  intros T M D H p'. subst p'.
  destruct (searchCompleted_state query found p T M) as (R & CH & _ & SC & CK & DB & NC).
  set (p1 := SearchFlow.searchCompleted query found p) in *.
  unfold SearchFlow.searchAgain.
  rewrite (advance_quiet d p1) by congruence.
  rewrite doSearch_starts by exact T.
  unfold SearchPanel.resolveCache.
  cbn [SearchPanel.calls SearchPanel.set_calls SearchPanel.nextCall
       SearchPanel.set_nextCall SearchPanel.set_loading SearchPanel.set_clock].
  rewrite lookup_insert_eq.
  cbn [SearchPanel.searchCache SearchPanel.set_calls SearchPanel.set_nextCall
       SearchPanel.set_loading SearchPanel.set_clock SearchPanel.clock].
  rewrite SC, lookup_insert_eq. cbn [SearchPanel.timestamp SearchPanel.items].
  destruct (SearchPanel.clock p1 + d - SearchPanel.clock p <? SearchPanel.WEEK)%Z eqn:L;
    [apply Z.ltb_lt in L; lia|].
  cbn. rewrite NC, lookup_insert_eq. auto.
Qed.

Lemma stale_cache_row_is_ignored_witness :
  SearchPanel.calls
    (SearchFlow.searchAgain "flex" 604800000
       (SearchFlow.searchCompleted "flex" [SearchRace.question 1 "How to use flex"]
          SearchRace.panel0)) !! S (SearchPanel.nextCall SearchRace.panel0)
  = Some (SearchPanel.mkCall "flex" SearchPanel.AwaitRemote) /\
  SearchPanel.results
    (SearchFlow.searchAgain "flex" 604800000
       (SearchFlow.searchCompleted "flex" [SearchRace.question 1 "How to use flex"]
          SearchRace.panel0))
  = [SearchRace.question 1 "How to use flex"] /\
  SearchPanel.cacheHit
    (SearchFlow.searchAgain "flex" 604800000
       (SearchFlow.searchCompleted "flex" [SearchRace.question 1 "How to use flex"]
          SearchRace.panel0)) = false /\
  SearchPanel.loading
    (SearchFlow.searchAgain "flex" 604800000
       (SearchFlow.searchCompleted "flex" [SearchRace.question 1 "How to use flex"]
          SearchRace.panel0)) = true.
Proof.
  apply (stale_cache_row_is_ignored SearchRace.panel0 "flex"
           [SearchRace.question 1 "How to use flex"] 604800000).
  - vm_compute. discriminate.
  - reflexivity.
  - reflexivity.
  - vm_compute. discriminate.
Defined.

(** A search whose request fails changes nothing that is displayed or
    stored: the items shown, the mark for cached results and the cache are
    as before, and the panel stops saying that it is searching. *)
Theorem failed_search_keeps_results (p : SearchPanel.Panel) (query : string) :
  JS.trim query <> "" ->
  SearchRace.misses p query = true ->
  let p' := SearchFlow.searchFailed query p in
  SearchPanel.results p' = SearchPanel.results p /\
  SearchPanel.cacheHit p' = SearchPanel.cacheHit p /\
  SearchPanel.searchCache p' = SearchPanel.searchCache p /\
  SearchPanel.loading p' = false.
Proof.
  intros T M p'. subst p'. unfold SearchFlow.searchFailed.
  rewrite (doSearch_starts query p T).
  cbn [SearchPanel.nextCall SearchPanel.set_nextCall SearchPanel.set_calls
       SearchPanel.set_loading].
  erewrite (resolveCache_miss (SearchPanel.nextCall p) query); cycle 1.
  { cbn. apply lookup_insert_eq. }
  { exact M. }
  unfold SearchPanel.resolveRemote. cbn [SearchPanel.calls SearchPanel.set_calls].
  rewrite lookup_insert_eq. cbn. auto.
Qed.

Lemma failed_search_keeps_results_witness :
  SearchPanel.results (SearchFlow.searchFailed "flex" SearchRace.panel0)
  = SearchPanel.results SearchRace.panel0 /\
  SearchPanel.cacheHit (SearchFlow.searchFailed "flex" SearchRace.panel0)
  = SearchPanel.cacheHit SearchRace.panel0 /\
  SearchPanel.searchCache (SearchFlow.searchFailed "flex" SearchRace.panel0)
  = SearchPanel.searchCache SearchRace.panel0 /\
  SearchPanel.loading (SearchFlow.searchFailed "flex" SearchRace.panel0) = false.
Proof.
  apply (failed_search_keeps_results SearchRace.panel0 "flex").
  - vm_compute. discriminate.
  - reflexivity.
Defined.

(** Whatever happens to the panel (typing, clicks on the button and on
    result rows, time, answers and failures of the store and of the network,
    in any order), once no call of [doSearch] and no call of [openDetail] is
    in flight the panel does not say that it is searching. *)
Theorem search_indicator_settles (t0 : Z) (store : gmap string SearchPanel.CacheRow)
    (es : list SearchPanel.Event) :
  SearchPanel.calls (SearchPanel.run (SearchPanel.initial t0 store) es) = ∅ ->
  SearchPanel.opening (SearchPanel.run (SearchPanel.initial t0 store) es) = ∅ ->
  SearchPanel.loading (SearchPanel.run (SearchPanel.initial t0 store) es) = false.
Proof.
  change (SearchFlow.settled (SearchPanel.run (SearchPanel.initial t0 store) es)).
  assert (H : SearchFlow.settled (SearchPanel.initial t0 store)) by (intros _ _; reflexivity).
  revert H. generalize (SearchPanel.initial t0 store). unfold SearchPanel.run.
  induction es as [|e es IH]; intros p H; [exact H|].
  simpl. apply IH, step_settled, H.
Qed.

(** A search is typed, answered and stored; a row of the results is clicked
    while a second search waits for the network; the details arrive, then the
    second search fails. *)
Lemma search_indicator_settles_witness :
  SearchPanel.loading
    (SearchPanel.run (SearchPanel.initial 0 ∅)
       [SearchPanel.Typed "flex"; SearchPanel.Passed 500; SearchPanel.CacheAnswered 0;
        SearchPanel.RemoteAnswered 0 (Some [SearchRace.question 1 "How to use flex"]);
        SearchPanel.CachePutDone 0;
        SearchPanel.Typed "grid"; SearchPanel.Passed 500; SearchPanel.CacheAnswered 1;
        SearchPanel.RowClicked 0;
        SearchPanel.DetailAnswered 2 (Some (Some (SearchRace.question 1 "How to use flex")));
        SearchPanel.RemoteAnswered 1 None]) = false.
Proof.
  apply (search_indicator_settles 0 ∅); vm_compute; reflexivity.
Defined.

(** A keystroke outside a composition followed by a pause of 600 time units
    or more: the diagnostics shown are then exactly the findings of a pass
    over the text just typed, for the tab typed in only; whatever was shown
    before, for any tab, is replaced. *)
Theorem pause_shows_findings_of_latest_text env (tab : TabKey) (v : string) (d : nat)
    (s : Session) :
  isComposing s = false ->
  600 <= d ->
  errors (advance env d (onTextareaChange tab v s))
  = runValidation env (Some tab) (setBuf tab v (bufs s)).
Proof.
  intros C H.
  destruct (onTextareaChange_channel tab v s C) as (_ & _ & L & _ & N & _).
  assert (V : validationTimer (onTextareaChange tab v s) = Some (now s + 600, Some tab)).
  { unfold onTextareaChange, commit. cbn [isComposing set_latestRef]. rewrite C.
    destruct (HistoryState_eqb _ _); reflexivity. }
  set (s1 := onTextareaChange tab v s) in *.
  unfold advance, fireValidation.
  assert (F : validationTimer (fireOnChange (set_now (now s1 + d) s1)) = validationTimer s1
              /\ latestRef (fireOnChange (set_now (now s1 + d) s1)) = latestRef s1
              /\ now (fireOnChange (set_now (now s1 + d) s1)) = now s1 + d).
  { unfold fireOnChange. cbn. destruct (onChangeTimer s1) as [dl|]; [|auto].
    destruct (dl <=? now s1 + d); auto. }
  destruct F as (F1 & F2 & F3). rewrite F1, V, F3, F2, L, N.
  destruct (now s + 600 <=? now s + d) eqn:E; [reflexivity|].
  apply Nat.leb_gt in E. lia.
Qed.

Lemma pause_shows_findings_of_latest_text_witness :
  errors (advance quiet 600 (onTextareaChange TabCss "a{" fresh))
  = runValidation quiet (Some TabCss) (setBuf TabCss "a{" (bufs fresh)).
Proof.
  apply (pause_shows_findings_of_latest_text quiet TabCss "a{" 600 fresh);
    [reflexivity|lia].
Defined.

(** ** Importing a file *)

Section ImportFacts.
Import Normalize App.

Lemma append_cons c a b : String c a +:+ b = String c (a +:+ b).
Proof. reflexivity. Qed.

Lemma append_assoc a b c : (a +:+ b) +:+ c = a +:+ (b +:+ c).
Proof.
  induction a as [|x a IH]; [reflexivity|].
  rewrite !append_cons, IH. reflexivity.
Qed.

Lemma toLowerCase_append a b :
  JS.toLowerCase (a +:+ b) = JS.toLowerCase a +:+ JS.toLowerCase b.
Proof.
  induction a as [|x a IH]; [reflexivity|].
  rewrite append_cons. cbn [JS.toLowerCase]. rewrite append_cons, IH. reflexivity.
Qed.

Lemma length_toLowerCase a : String.length (JS.toLowerCase a) = String.length a.
Proof. induction a as [|x a IH]; simpl; [reflexivity|]. rewrite IH. reflexivity. Qed.

Lemma prefix_append p x : String.prefix p (p +:+ x) = true.
Proof.
  induction p as [|c p IH]; [destruct x; reflexivity|].
  rewrite append_cons. simpl. destruct (ascii_dec c c); [exact IH|contradiction].
Qed.

(** A prefix test does not look beyond the length of the pattern. *)
Lemma prefix_cut p x y :
  String.length p <= String.length x ->
  String.prefix p (x +:+ y) = String.prefix p x.
Proof.
  revert x. induction p as [|c p IH]; intros x H.
  - destruct x; [destruct y|]; reflexivity.
  - destruct x as [|d x]; [simpl in H; lia|].
    rewrite append_cons. simpl. destruct (ascii_dec c d); [|reflexivity].
    apply IH. simpl in H. lia.
Qed.

Lemma prefixCI_append p x : prefixCI p (p +:+ x) = true.
Proof. unfold prefixCI. rewrite toLowerCase_append. apply prefix_append. Qed.

Lemma prefixCI_cut p x y :
  String.length p <= String.length x ->
  prefixCI p (x +:+ y) = prefixCI p x.
Proof.
  intros H. unfold prefixCI. rewrite toLowerCase_append.
  apply prefix_cut. rewrite !length_toLowerCase. exact H.
Qed.

Lemma dropChars_append a x : dropChars (String.length a) (a +:+ x) = x.
Proof. induction a as [|c a IH]; [destruct x; reflexivity|exact IH]. Qed.

Lemma length_append a b : String.length (a +:+ b) = String.length a + String.length b.
Proof.
  induction a as [|c a IH]; [reflexivity|]. rewrite append_cons. simpl. rewrite IH.
  reflexivity.
Qed.

(** The pattern without its last character. *)
Lemma cut_length p c :
  String.length (p +:+ String c "") = S (String.length p).
Proof. rewrite length_append. simpl. lia. Qed.

Lemma splitAtCI_hit p s :
  prefixCI p s = true -> splitAtCI p s = Some (EmptyString, dropChars (String.length p) s).
Proof. intros H. destruct s; cbn [splitAtCI]; rewrite H; reflexivity. Qed.

(** The pattern is [p] followed by [c], its occurrence in the text [o]
    followed by [k], in any case of letters.  No occurrence begins inside
    [x]: the first occurrence in [x ++ o ++ k ++ rest] is the one shown. *)
Lemma splitAtCI_found p c o k x rest :
  JS.toLowerCase (o +:+ String k "") = JS.toLowerCase (p +:+ String c "") ->
  includesCI (x +:+ o) (p +:+ String c "") = false ->
  splitAtCI (p +:+ String c "") (x +:+ (o +:+ String k "") +:+ rest) = Some (x, rest).
Proof.
  intros L.
  assert (N : String.length (p +:+ String c "") = String.length (o +:+ String k "")).
  { rewrite <- (length_toLowerCase (p +:+ String c "")), <- L.
    apply length_toLowerCase. }
  induction x as [|d x IH]; intros H.
  - change ("" +:+ (o +:+ String k "") +:+ rest) with ((o +:+ String k "") +:+ rest).
    rewrite splitAtCI_hit.
    + rewrite N, dropChars_append. reflexivity.
    + unfold prefixCI. rewrite (toLowerCase_append (o +:+ String k "") rest), L.
      apply prefix_append.
  - rewrite append_cons in H. cbn [includesCI] in H. apply orb_false_iff in H.
    destruct H as [H1 H2]. rewrite append_cons. cbn [splitAtCI].
    rewrite <- append_cons.
    replace (String d x +:+ (o +:+ String k "") +:+ rest)
      with ((String d x +:+ o) +:+ (String k "" +:+ rest))
      by (repeat (rewrite append_assoc || rewrite append_cons); reflexivity).
    rewrite prefixCI_cut
      by (rewrite N, !length_append; simpl; lia).
    rewrite <- append_cons in H1. rewrite H1.
    replace ((String d x +:+ o) +:+ (String k "" +:+ rest))
      with (String d (x +:+ (o +:+ String k "") +:+ rest))
      by (repeat (rewrite append_assoc || rewrite append_cons); reflexivity).
    rewrite IH by exact H2. reflexivity.
Qed.

Lemma splitAtGt_found attrs rest :
  splitAtGt attrs = None ->
  splitAtGt (attrs +:+ ">" +:+ rest) = Some (attrs, rest).
Proof.
  induction attrs as [|c a IH]; intros H; [reflexivity|].
  rewrite append_cons. simpl in *.
  destruct (Ascii.eqb c ">"); [discriminate|].
  destruct (splitAtGt a) as [[u v]|]; [discriminate|].
  rewrite IH by reflexivity. reflexivity.
Qed.

Lemma extractBlock_none name s :
  includesCI s ("<" +:+ name) = false -> extractBlock name s = None.
Proof.
  induction s as [|c s IH]; intros H; [reflexivity|].
  cbn [includesCI] in H. apply orb_false_iff in H. destruct H as [H1 H2].
  cbn [extractBlock]. rewrite H1. apply IH, H2.
Qed.

Lemma regroup_open pre l o k R :
  pre +:+ String l ((o +:+ String k "") +:+ R)
  = (pre +:+ String l o) +:+ (String k "" +:+ R).
Proof.
  repeat (rewrite append_assoc || rewrite append_cons). reflexivity.
Qed.

(** The block the import extracts.  The name is [n0] followed by [c].  The
    opening tag of the text is [l], [o], [k] and the closing tag [co], [ck],
    which are the patterns up to the case of letters; no opening tag begins
    before the one shown, its attributes hold no [>], and no closing tag
    begins before the one shown. *)
Lemma extractBlock_found n0 c l o k co ck pre attrs content post :
  JS.toLowerCase (String l (o +:+ String k ""))
  = JS.toLowerCase (String "<" (n0 +:+ String c "")) ->
  JS.toLowerCase (co +:+ String ck "")
  = JS.toLowerCase (String "<" (String "/" (n0 +:+ String c "")) +:+ String ">" "") ->
  includesCI (pre +:+ String l o) (String "<" (n0 +:+ String c "")) = false ->
  splitAtGt attrs = None ->
  includesCI (content +:+ co)
             (String "<" (String "/" (n0 +:+ String c "")) +:+ String ">" "") = false ->
  extractBlock (n0 +:+ String c "")
    (pre +:+ String l ((o +:+ String k "") +:+ attrs +:+ String ">" ""
                       +:+ content +:+ (co +:+ String ck "") +:+ post))
  = Some content.
Proof.
  intros Lo Lc H A C. set (name := n0 +:+ String c "") in *.
  set (R := attrs +:+ String ">" "" +:+ content +:+ (co +:+ String ck "") +:+ post).
  assert (N : String.length name = String.length (o +:+ String k "")).
  { apply (f_equal String.length) in Lo. cbn [JS.toLowerCase String.length] in Lo.
    rewrite !length_toLowerCase in Lo. lia. }
  induction pre as [|d pre IH].
  - change ("" +:+ String l ((o +:+ String k "") +:+ R))
      with (String l ((o +:+ String k "") +:+ R)).
    cbn [extractBlock]. change ("<" +:+ name) with (String "<" name).
    assert (P : prefixCI (String "<" name) (String l ((o +:+ String k "") +:+ R)) = true).
    { unfold prefixCI.
      change (String l ((o +:+ String k "") +:+ R))
        with (String l (o +:+ String k "") +:+ R).
      rewrite (toLowerCase_append (String l (o +:+ String k "")) R), Lo.
      apply prefix_append. }
    rewrite P, N, dropChars_append. subst R.
    rewrite (splitAtGt_found attrs) by exact A.
    change ("</" +:+ name +:+ ">") with (String "<" (String "/" name) +:+ String ">" "").
    rewrite (splitAtCI_found _ _ co ck) by assumption. reflexivity.
  - rewrite append_cons. cbn [extractBlock]. change ("<" +:+ name) with (String "<" name).
    rewrite append_cons in H. cbn [includesCI] in H. apply orb_false_iff in H.
    destruct H as [H1 H2].
    rewrite <- append_cons. rewrite regroup_open.
    rewrite prefixCI_cut
      by (rewrite length_append; cbn [String.length]; rewrite N, length_append; simpl; lia).
    change (String d pre +:+ String l o) with (String d (pre +:+ String l o)).
    rewrite H1.
    apply IH. exact H2.
Qed.

End ImportFacts.

(** Importing a file in which no [<style], [<script] or [<body] occurs (in
    any case of letters) makes the whole file the markup and leaves the
    style and the script of the project as they are. *)
Theorem import_without_tags_replaces_markup (txt : string) (project : HistoryState) :
  Normalize.includesCI txt "<style" = false ->
  Normalize.includesCI txt "<script" = false ->
  Normalize.includesCI txt "<body" = false ->
  App.importHtml txt project = mkHistoryState txt (css project) (js project).
Proof.
  intros H1 H2 H3. unfold App.importHtml.
  rewrite (extractBlock_none "style"), (extractBlock_none "script"),
    (extractBlock_none "body") by assumption.
  reflexivity.
Qed.

Lemma import_without_tags_replaces_markup_witness :
  App.importHtml "<h1>Hello</h1>" (mkHistoryState "<p>hi</p>" "a{}" "let x;")
  = mkHistoryState "<h1>Hello</h1>" (css (mkHistoryState "<p>hi</p>" "a{}" "let x;"))
      (js (mkHistoryState "<p>hi</p>" "a{}" "let x;")).
Proof.
  apply (import_without_tags_replaces_markup "<h1>Hello</h1>"
           (mkHistoryState "<p>hi</p>" "a{}" "let x;")); reflexivity.
Defined.

Lemma no_gt_splitAtGt attrs :
  JS.includes attrs ">" = false -> Normalize.splitAtGt attrs = None.
Proof.
  induction attrs as [|c a IH]; intros H; [reflexivity|].
  cbn [JS.includes] in H. apply orb_false_iff in H. destruct H as [H1 H2].
  simpl. destruct (Ascii.eqb c ">") eqn:E.
  - apply Ascii.eqb_eq in E. subst c. destruct a; discriminate.
  - rewrite IH by exact H2. reflexivity.
Qed.

(** Importing a file with a style block takes the text of the block as the
    style, and with a script block the text of that block as the script.  The
    opening tag [ot] and the closing tag [ct] are written in any case of
    letters; the block is the first opening tag of the file, whatever its
    attributes, up to the first closing tag after it. *)
Theorem import_extracts_blocks (project : HistoryState)
    (pre ot attrs content ct post : string) :
  JS.includes attrs ">" = false ->
  (JS.toLowerCase ot = "<style" ->
   JS.toLowerCase ct = "</style>" ->
   Normalize.includesCI (pre +:+ JS.sliceTo ot 5) "<style" = false ->
   Normalize.includesCI (content +:+ JS.sliceTo ct 7) "</style>" = false ->
   css (App.importHtml (pre +:+ ot +:+ attrs +:+ ">" +:+ content +:+ ct +:+ post) project)
   = content) /\
  (JS.toLowerCase ot = "<script" ->
   JS.toLowerCase ct = "</script>" ->
   Normalize.includesCI (pre +:+ JS.sliceTo ot 6) "<script" = false ->
   Normalize.includesCI (content +:+ JS.sliceTo ct 8) "</script>" = false ->
   js (App.importHtml (pre +:+ ot +:+ attrs +:+ ">" +:+ content +:+ ct +:+ post) project)
   = content).
Proof.
  intros A. apply no_gt_splitAtGt in A. split; intros Lo Lc H1 H2.
  - do 6 (destruct ot as [|? ot]; [discriminate Lo|]).
    destruct ot; [|discriminate Lo].
    do 8 (destruct ct as [|? ct]; [discriminate Lc|]).
    destruct ct; [|discriminate Lc].
    match goal with
    | |- css (App.importHtml ?txt _) = _ =>
        assert (E : App.extractBlock "style" txt = Some content)
    end.
    { match type of H1 with
      | Normalize.includesCI (_ +:+ JS.sliceTo (String ?l (String ?o1 (String ?o2 (String ?o3
                      (String ?o4 (String ?k ""))))))  _) _ = _ =>
          match type of H2 with
          | Normalize.includesCI (_ +:+ JS.sliceTo (String ?c1 (String ?c2 (String ?c3 (String ?c4
                          (String ?c5 (String ?c6 (String ?c7 (String ?ck "")))))))) _) _ = _ =>
              exact (extractBlock_found "styl" "e" l
                       (String o1 (String o2 (String o3 (String o4 "")))) k
                       (String c1 (String c2 (String c3 (String c4 (String c5
                          (String c6 (String c7 ""))))))) ck
                       pre attrs content post Lo Lc H1 A H2)
          end
      end. }
    unfold App.importHtml. rewrite E. reflexivity.
  - do 7 (destruct ot as [|? ot]; [discriminate Lo|]).
    destruct ot; [|discriminate Lo].
    do 9 (destruct ct as [|? ct]; [discriminate Lc|]).
    destruct ct; [|discriminate Lc].
    match goal with
    | |- js (App.importHtml ?txt _) = _ =>
        assert (E : App.extractBlock "script" txt = Some content)
    end.
    { match type of H1 with
      | Normalize.includesCI (_ +:+ JS.sliceTo (String ?l (String ?o1 (String ?o2 (String ?o3
                      (String ?o4 (String ?o5 (String ?k "")))))))  _) _ = _ =>
          match type of H2 with
          | Normalize.includesCI (_ +:+ JS.sliceTo (String ?c1 (String ?c2 (String ?c3 (String ?c4
                          (String ?c5 (String ?c6 (String ?c7 (String ?c8
                          (String ?ck ""))))))))) _) _ = _ =>
              exact (extractBlock_found "scrip" "t" l
                       (String o1 (String o2 (String o3 (String o4 (String o5 ""))))) k
                       (String c1 (String c2 (String c3 (String c4 (String c5
                          (String c6 (String c7 (String c8 "")))))))) ck
                       pre attrs content post Lo Lc H1 A H2)
          end
      end. }
    unfold App.importHtml. rewrite E. reflexivity.
Qed.

(** A style block with upper-case tags and an attribute, and a script block
    with tags in mixed case. *)
Lemma import_extracts_blocks_witness :
  css (App.importHtml ("<head>" +:+ "<STYLE" +:+ " media=all" +:+ ">" +:+ "a{}"
                       +:+ "</STYLE>" +:+ "</head><p>x</p>")
         (mkHistoryState "" "" "")) = "a{}" /\
  js (App.importHtml ("<p>x</p>" +:+ "<Script" +:+ "" +:+ ">" +:+ "f();" +:+ "</scripT>"
                      +:+ "")
        (mkHistoryState "" "" "")) = "f();".
Proof.
  split.
  - apply (proj1 (import_extracts_blocks (mkHistoryState "" "" "")
                    "<head>" "<STYLE" " media=all" "a{}" "</STYLE>" "</head><p>x</p>"
                    eq_refl));
      reflexivity.
  - apply (proj2 (import_extracts_blocks (mkHistoryState "" "" "")
                    "<p>x</p>" "<Script" "" "f();" "</scripT>" "" eq_refl));
      reflexivity.
Defined.
